(** * cron_python: the sensor check-in monitor and the RKLB quote notifier

    A shallow embedding of [sensors-check.py] and [rklb-price.py].

    Both scripts are linear "fetch, evaluate, notify" programs.  They are
    embedded in a small monad that records what a run does to the outside
    (log records, the remote shell command, HTTP requests) and how it ends
    (a value or a raised exception).  What the outside answers (the remote
    shell, the notification server, the clock, the quote service) is read
    from a [world] record; library functions whose code is not part of the
    repository ([json.loads], [str()], [httpx.BasicAuth], the [:.2f]
    format) are the fields of a class.

    Python text is modelled by [string]; a character stands for the code
    point of the same number (0 to 255). *)

From Stdlib Require Import List String Ascii ZArith NArith Bool Lia.
From Stdlib Require Import DecimalString.
From Stdlib Require Floats.SpecFloat.
Import ListNotations.

Open Scope string_scope.
Open Scope list_scope.
Open Scope Z_scope.

(** Python's [+] on text; [++] stays the append of lists. *)
Infix "+++" := String.append (right associativity, at level 60).

(** ** What a run does to the outside *)

Inductive level : Type := DEBUG | INFO | WARNING | ERROR.

Record http_request : Type := {
  url : string;
  auth : option (string * string);
  data : string;
  headers : list (string * string)
}.

Record http_response : Type := {
  status_code : Z;
  text : string
}.

Inductive event : Type :=
| Log (lvl : level) (msg : string)
| SshConnect (host username : option string)
| SshRun (command : string)
| HttpPost (req : http_request).

(** ** Exceptions and results *)

(** The subclasses of [Exception] the two scripts can meet; each carries
    its message, [str(e)]. *)
Inductive error : Type :=
| JSONDecodeError (msg : string)
| TypeError (msg : string)
| AttributeError (msg : string)
| KeyError (msg : string)
| ValueError (msg : string)
| AsyncsshError (msg : string)
| HTTPStatusError (msg : string) (response : http_response)
| OtherError (msg : string).

(** [isinstance(e, asyncssh.Error)] *)
Definition is_asyncssh_Error (e : error) : bool :=
  match e with AsyncsshError _ => true | _ => false end.

(** [isinstance(e, httpx.HTTPStatusError)] *)
Definition is_HTTPStatusError (e : error) : bool :=
  match e with HTTPStatusError _ _ => true | _ => false end.

(** [isinstance(e, Exception)] *)
Definition is_Exception (e : error) : bool := true.

(** [str(e)] *)
Definition error_str (e : error) : string :=
  match e with
  | JSONDecodeError m | TypeError m | AttributeError m | KeyError m
  | ValueError m | AsyncsshError m | OtherError m => m
  | HTTPStatusError m _ => m
  end.

(** What a function without effects gives: a value or an exception. *)
Inductive result (A : Type) : Type :=
| Ok (a : A)
| Raise (e : error).
Arguments Ok {A} a.
Arguments Raise {A} e.

(** How a piece of a script ends: with a value, with an exception, or in
    [sys.exit(code)], whose [SystemExit] no [except Exception] catches. *)
Inductive outcome (A : Type) : Type :=
| Returns (a : A)
| Raises (e : error)
| Exits (code : Z).
Arguments Returns {A} a.
Arguments Raises {A} e.
Arguments Exits {A} code.

(** ** The monad of the scripts: a trace of events and an outcome *)

Definition M (A : Type) : Type := (list event * outcome A)%type.

Definition ret {A} (a : A) : M A := ([], Returns a).

Definition bind {A B} (m : M A) (k : A -> M B) : M B :=
  match m with
  | (t, Returns a) => let '(t', r) := k a in (t ++ t', r)
  | (t, Raises e) => (t, Raises e)
  | (t, Exits c) => (t, Exits c)
  end.

Definition raise {A} (e : error) : M A := ([], Raises e).

Definition sys_exit {A} (code : Z) : M A := ([], Exits code).

Definition lift {A} (r : result A) : M A :=
  match r with
  | Ok a => ([], Returns a)
  | Raise e => ([], Raises e)
  end.

Definition emit (ev : event) : M unit := ([ev], Returns tt).

(** [try: m] followed by [except] clauses: the first clause whose class
    matches handles the exception; an exception raised by the handler is
    not handled by the clauses beside it. *)
Fixpoint first_clause {A} (clauses : list ((error -> bool) * (error -> M A))) (e : error)
  : option (error -> M A) :=
  match clauses with
  | [] => None
  | (handles, h) :: rest => if handles e then Some h else first_clause rest e
  end.

Definition try_excepts {A} (m : M A) (clauses : list ((error -> bool) * (error -> M A))) : M A :=
  match m with
  | (t, Raises e) =>
      match first_clause clauses e with
      | Some h => let '(t', r) := h e in (t ++ t', r)
      | None => (t, Raises e)
      end
  | _ => m
  end.

Declare Scope py_scope.
Delimit Scope py_scope with py.
Notation "x <- m ;; k" := (bind m (fun x => k))
  (at level 100, m at next level, right associativity) : py_scope.
Notation "' p <- m ;; k" := (bind m (fun x => let p := x in k))
  (at level 100, p pattern, m at next level, right associativity) : py_scope.
Notation "m ;; k" := (bind m (fun _ => k))
  (at level 100, right associativity) : py_scope.
Open Scope py_scope.

(** [for x in xs: st = body st x] *)
Fixpoint for_each {A S} (xs : list A) (body : S -> A -> M S) (st : S) : M S :=
  match xs with
  | [] => ret st
  | x :: xs' => st' <- body st x ;; for_each xs' body st'
  end.

Definition trace_of {A} (m : M A) : list event := fst m.
Definition result_of {A} (m : M A) : outcome A := snd m.

(** The exit status of [python3 script.py] when the script's body ends as
    [r]: an uncaught exception prints a traceback and exits with 1. *)
Definition exit_status {A} (r : outcome A) : Z :=
  match r with
  | Returns _ => 0
  | Raises _ => 1
  | Exits c => c
  end.

(** ** The logger *)

Definition logger_debug (msg : string) : M unit := emit (Log DEBUG msg).
Definition logger_info (msg : string) : M unit := emit (Log INFO msg).
Definition logger_warning (msg : string) : M unit := emit (Log WARNING msg).
Definition logger_error (msg : string) : M unit := emit (Log ERROR msg).
(** [logger.exception] logs at level ERROR (the traceback is left out). *)
Definition logger_exception (msg : string) : M unit := emit (Log ERROR msg).

(** ** Text *)

(** [c.isspace()] for the code points below 256. *)
Definition isspace (c : ascii) : bool :=
  let n := N_of_ascii c in
  (((9 <=? n) && (n <=? 13)) || ((28 <=? n) && (n <=? 32))
   || (n =? 133) || (n =? 160))%N.

Fixpoint lstrip (s : string) : string :=
  match s with
  | EmptyString => EmptyString
  | String c s' => if isspace c then lstrip s' else s
  end.

Definition reverse (s : string) : string :=
  string_of_list_ascii (rev (list_ascii_of_string s)).

Definition rstrip (s : string) : string := reverse (lstrip (reverse s)).

(** [s.strip()] *)
Definition strip (s : string) : string := rstrip (lstrip s).

(** [sep.join(xs)] *)
Fixpoint join (sep : string) (xs : list string) : string :=
  match xs with
  | [] => ""
  | [x] => x
  | x :: xs' => x +++ sep +++ join sep xs'
  end.

(** [str(n)] for an int *)
Definition str_of_int (n : Z) : string := NilZero.string_of_int (Z.to_int n).

(** [f"{v}"] of an environment value: [os.getenv] gives [None] or a string. *)
Definition str_of_env (v : option string) : string :=
  match v with Some s => s | None => "None" end.

(** [bool(v)] of an environment value *)
Definition env_truthy (v : option string) : bool :=
  match v with Some s => negb (s =? "")%string | None => false end.

(** ntfy's priorities are the numbers 1 (min) to 5 (max), sent as text. *)
Definition priority_rank (p : string) : Z :=
  match NilZero.int_of_string p with
  | Some d => Z.of_int d
  | None => 0
  end.

Definition newline : string := String (ascii_of_nat 10) "".
Definition dquote : string := String (ascii_of_nat 34) "".

(** ** The values [json.loads] returns *)

#[local] Set Warnings "-register-all".

(** [None], [bool], [int], [float] (IEEE 754 binary64), [str], [list] and
    [dict].  A [dict] is the list of its items in insertion order (their
    names are distinct in a decoded document). *)
Inductive json : Type :=
| JNull
| JBool (b : bool)
| JInt (n : Z)
| JFloat (x : SpecFloat.spec_float)
| JStr (s : string)
| JArr (items : list json)
| JObj (fields : list (string * json)).

(** [type(v).__name__] *)
Definition type_name (v : json) : string :=
  match v with
  | JNull => "NoneType"
  | JBool _ => "bool"
  | JInt _ => "int"
  | JFloat _ => "float"
  | JStr _ => "str"
  | JArr _ => "list"
  | JObj _ => "dict"
  end.

(** [bool(v)]: what [not v] tests. *)
Definition truthy (v : json) : bool :=
  match v with
  | JNull => false
  | JBool b => b
  | JInt n => negb (n =? 0)
  | JFloat x => match x with SpecFloat.S754_zero _ => false | _ => true end
  | JStr s => negb (s =? "")%string
  | JArr items => match items with [] => false | _ => true end
  | JObj fields => match fields with [] => false | _ => true end
  end.

(** [hash(v)]: lists and dicts are unhashable. *)
Definition py_hash (v : json) : result unit :=
  match v with
  | JArr _ | JObj _ => Raise (TypeError ("unhashable type: '" +++ type_name v +++ "'"))
  | _ => Ok tt
  end.

(** The exact value of a number: not-a-number, an infinity, or
    [m * 2 ^ e] with [m] odd (and [0 * 2 ^ 0] for zero). *)
Inductive number : Type :=
| NumNaN
| NumInf (negative : bool)
| NumDyadic (m e : Z).

Fixpoint strip_twos (m : positive) (e : Z) : positive * Z :=
  match m with
  | xO m' => strip_twos m' (e + 1)
  | _ => (m, e)
  end.

Definition dyadic (negative : bool) (m : positive) (e : Z) : number :=
  let '(m', e') := strip_twos m e in
  NumDyadic (if negative then Z.neg m' else Z.pos m') e'.

Definition number_of_int (n : Z) : number :=
  match n with
  | Z0 => NumDyadic 0 0
  | Zpos p => dyadic false p 0
  | Zneg p => dyadic true p 0
  end.

Definition number_of_float (x : SpecFloat.spec_float) : number :=
  match x with
  | SpecFloat.S754_zero _ => NumDyadic 0 0
  | SpecFloat.S754_infinity s => NumInf s
  | SpecFloat.S754_nan => NumNaN
  | SpecFloat.S754_finite s m e => dyadic s m e
  end.

(** What a dict compares of a hashable value.  [bool] is a subclass of
    [int] and an [int] equals a [float] of the same exact value, so
    [True], [1] and [1.0] are one key.  [nan == nan] is false, but
    [json.loads] gives the same [nan] object for every NaN of a document
    and a dict tests identity first, so every decoded NaN is one key. *)
Inductive key : Type :=
| KeyNone
| KeyStr (s : string)
| KeyNum (x : number).

Definition py_key (v : json) : option key :=
  match v with
  | JNull => Some KeyNone
  | JBool b => Some (KeyNum (number_of_int (if b then 1 else 0)))
  | JInt n => Some (KeyNum (number_of_int n))
  | JFloat x => Some (KeyNum (number_of_float x))
  | JStr s => Some (KeyStr s)
  | JArr _ | JObj _ => None
  end.

Definition number_eqb (x y : number) : bool :=
  match x, y with
  | NumNaN, NumNaN => true
  | NumInf s, NumInf t => Bool.eqb s t
  | NumDyadic m e, NumDyadic m' e' => (m =? m') && (e =? e')
  | _, _ => false
  end.

Definition key_eqb (a b : key) : bool :=
  match a, b with
  | KeyNone, KeyNone => true
  | KeyStr s, KeyStr t => (s =? t)%string
  | KeyNum x, KeyNum y => number_eqb x y
  | _, _ => false
  end.

(** [a is b or a == b] on decoded values, as a dict compares its keys;
    never true of a list or a dict, which cannot be keys. *)
Definition py_eqb (a b : json) : bool :=
  match py_key a, py_key b with
  | Some x, Some y => key_eqb x y
  | _, _ => false
  end.

(** Whether a key is truthy can be read off its exact value. *)
Definition key_truthy (k : key) : bool :=
  match k with
  | KeyNone => false
  | KeyStr s => negb (s =? "")%string
  | KeyNum (NumDyadic 0 _) => false
  | KeyNum _ => true
  end.

(** [for x in v]: the elements of a list, the keys of a dict, the
    characters of a string; anything else is not iterable. *)
Definition py_iter (v : json) : result (list json) :=
  match v with
  | JArr items => Ok items
  | JObj fields => Ok (map (fun kv => JStr (fst kv)) fields)
  | JStr s => Ok (map (fun c => JStr (String c "")) (list_ascii_of_string s))
  | _ => Raise (TypeError ("'" +++ type_name v +++ "' object is not iterable"))
  end.

Fixpoint fields_get (fields : list (string * json)) (name : string) : option json :=
  match fields with
  | [] => None
  | (n, v) :: rest => if (n =? name)%string then Some v else fields_get rest name
  end.

(** [record.get(name, default)]: only a dict has [get]. *)
Definition py_get (record : json) (name : string) (default : json) : result json :=
  match record with
  | JObj fields =>
      Ok (match fields_get fields name with Some v => v | None => default end)
  | _ => Raise (AttributeError ("'" +++ type_name record +++ "' object has no attribute 'get'"))
  end.

(** ** Python dicts keyed by decoded values *)

(** The items in insertion order; keys are compared with [py_eqb]. *)
Definition dict (V : Type) : Type := list (json * V).

Fixpoint dict_get {V} (d : dict V) (k : json) : option V :=
  match d with
  | [] => None
  | (k', v) :: d' => if py_eqb k' k then Some v else dict_get d' k
  end.

(** [d[k] = v]: an existing key keeps its place and its key object. *)
Fixpoint dict_set {V} (d : dict V) (k : json) (v : V) : dict V :=
  match d with
  | [] => [(k, v)]
  | (k', v') :: d' =>
      if py_eqb k' k then (k', v) :: d' else (k', v') :: dict_set d' k v
  end.

(** [k in d] *)
Definition dict_contains {V} (d : dict V) (k : json) : bool :=
  match dict_get d k with Some _ => true | None => false end.

(** [d[k] += 1] on a [defaultdict(int)]: the key is hashed, a missing key
    starts at 0. *)
Definition defaultdict_incr (d : dict Z) (k : json) : result (dict Z) :=
  match py_hash k with
  | Raise e => Raise e
  | Ok _ =>
      let old := match dict_get d k with Some c => c | None => 0 end in
      Ok (dict_set d k (old + 1))
  end.

(** ** Library functions used by the scripts *)

Class Library : Type := {
  (** [json.loads]: the decoded value or the exception raised. *)
  json_loads : string -> result json;
  (** Text that is blank for [strip] is no JSON document. *)
  json_loads_blank :
    forall s, strip s = "" -> exists msg, json_loads s = Raise (JSONDecodeError msg);
  (** [str(v)], as an f-string renders a decoded value. *)
  py_str : json -> string;
  (** [repr(v)] *)
  py_repr : json -> string;
  (** [httpx.BasicAuth(username=..., password=...)] *)
  BasicAuth : option string -> option string -> result (string * string);
  (** the message of the [HTTPStatusError] that [raise_for_status] raises *)
  status_error_message : http_response -> string
}.

(** [response.raise_for_status()]: anything but a 2xx status raises. *)
Definition raise_for_status `{Library} (response : http_response) : result unit :=
  if (200 <=? status_code response) && (status_code response <? 300)
  then Ok tt
  else Raise (HTTPStatusError (status_error_message response) response).

(** [d[k]] *)
Definition dict_getitem `{Library} {V} (d : dict V) (k : json) : result V :=
  match dict_get d k with
  | Some v => Ok v
  | None => Raise (KeyError (py_repr k))
  end.

(** * sensors-check.py *)

Module sensors_check.

(** What the outside answers during one run. *)
Record world : Type := {
  (** [(datetime.now(timezone.utc) - timedelta(minutes=m)).strftime('%Y-%m-%d %H:%M:%S')]
      in [build_query] *)
  clock_cutoff : Z -> result string;
  (** [str(datetime.now(timezone.utc) - timedelta(minutes=m))] in [main] *)
  clock_since : Z -> result string;
  (** [asyncssh.connect(host, username=username)] *)
  ssh_connect : option string -> option string -> result unit;
  (** [conn.run(command)]: the standard output of the remote command *)
  ssh_run : string -> result string;
  (** [client.post(url, data=..., headers=...)] *)
  http_post : http_request -> result http_response
}.

Section Script.

Context {lib : Library}.

(** Configuration constants, read from the environment when the module is
    loaded. *)
Variable MINUTES_AGO : Z.
Variable MIN_CHECKINS : Z.
Variable NTFY_HOST : option string.
Variable NTFY_SENSOR_TOPIC : option string.
Variable NTFY_USERNAME : option string.
Variable NTFY_PASSWORD : option string.
Variable SSH_HOST : option string.
Variable SSH_USERNAME : option string.
Variable DATABASE_PATH : option string.

Variable w : world.

Definition send_notification (title message : string) (emojis : list string)
  (priority : string) : M unit :=
  if negb (env_truthy NTFY_HOST) || negb (env_truthy NTFY_SENSOR_TOPIC) then
    logger_error "NTFY_HOST and NTFY_SENSOR_TOPIC environment variables must be set."
  else
    try_excepts
      (auth <- (if env_truthy NTFY_USERNAME && env_truthy NTFY_PASSWORD
                then c <- lift (BasicAuth NTFY_USERNAME NTFY_PASSWORD) ;; ret (Some c)
                else ret None) ;;
       let headers :=
         [("Title", title); ("Priority", priority)]
         ++ match emojis with [] => [] | _ => [("Tags", join "," emojis)] end in
       logger_info ("Sending notification to " +++ str_of_env NTFY_HOST
                    +++ "/" +++ str_of_env NTFY_SENSOR_TOPIC) ;;
       let request :=
         {| url := str_of_env NTFY_HOST +++ "/" +++ str_of_env NTFY_SENSOR_TOPIC;
            auth := auth;
            data := message;
            headers := headers |} in
       emit (HttpPost request) ;;
       response <- lift (http_post w request) ;;
       lift (raise_for_status response) ;;
       logger_info ("Notification sent successfully: " +++ text response))
      [ (is_HTTPStatusError,
         fun e => match e with
                  | HTTPStatusError _ response =>
                      logger_error ("HTTP error sending notification: "
                                    +++ str_of_int (status_code response)
                                    +++ " - " +++ text response)
                  | _ => ret tt
                  end);
        (is_Exception,
         fun e => logger_error ("Failed to send notification: " +++ error_str e)) ].

Definition execute_sql_query (host username : option string) (sql : string) : M string :=
  logger_debug ("Executing query: " +++ sql) ;;
  try_excepts
    (emit (SshConnect host username) ;;
     lift (ssh_connect w host username) ;;
     let command :=
       "sqlite3 -json " +++ str_of_env DATABASE_PATH +++ " " +++ dquote +++ sql +++ dquote in
     emit (SshRun command) ;;
     lift (ssh_run w command))
    [ (is_asyncssh_Error,
       fun e => logger_error ("SSH connection error: " +++ error_str e) ;; raise e) ].

Definition build_query : M string :=
  cutoff_str <- lift (clock_cutoff w MINUTES_AGO) ;;
  ret (newline +++
       "    SELECT mac, location, timestamp " +++ newline +++
       "    FROM temp_humidity " +++ newline +++
       "    WHERE timestamp >= '" +++ cutoff_str +++ "'" +++ newline +++
       "    ORDER BY mac, timestamp" +++ newline +++
       "    ").

(** The body of the first loop of [analyze_sensor_data]: one record
    against [mac_counts] and [mac_locations]. *)
Definition count_record (st : dict Z * dict json) (record : json)
  : M (dict Z * dict json) :=
  let '(mac_counts, mac_locations) := st in
  mac <- lift (py_get record "mac" JNull) ;;
  if negb (truthy mac) then ret (mac_counts, mac_locations)
  else
    mac_counts <- lift (defaultdict_incr mac_counts mac) ;;
    if negb (dict_contains mac_locations mac) then
      location <- lift (py_get record "location" (JStr "unknown location")) ;;
      ret (mac_counts, dict_set mac_locations mac location)
    else ret (mac_counts, mac_locations).

(** The body of the second loop: one item of [mac_counts]. *)
Definition report_mac (mac_locations : dict json) (missing_checkins : list (json * json))
  (item : json * Z) : M (list (json * json)) :=
  let '(mac, count) := item in
  logger_info ("MAC: " +++ py_str mac +++ ", Location: "
               +++ py_str (match dict_get mac_locations mac with
                           | Some l => l | None => JNull end)
               +++ ", Entries: " +++ str_of_int count) ;;
  if count <? MIN_CHECKINS then
    location <- lift (dict_getitem mac_locations mac) ;;
    ret (missing_checkins ++ [(mac, location)])
  else ret missing_checkins.

Definition analyze_sensor_data (json_output : string) : M (list (json * json)) :=
  if (strip json_output =? "")%string then ret []
  else
    match json_loads json_output with
    | Raise (JSONDecodeError _) =>
        logger_exception "Error parsing JSON output from database." ;;
        ret []
    | Raise e => raise e
    | Ok records =>
        items <- lift (py_iter records) ;;
        '(mac_counts, mac_locations) <- for_each items count_record ([], []) ;;
        for_each mac_counts (report_mac mac_locations) []
    end.

Definition main : M unit :=
  let required_vars :=
    [ ("NTFY_HOST", NTFY_HOST);
      ("NTFY_SENSOR_TOPIC", NTFY_SENSOR_TOPIC);
      ("SSH_HOST", SSH_HOST);
      ("SSH_USERNAME", SSH_USERNAME);
      ("DATABASE_PATH", DATABASE_PATH) ] in
  let missing_vars :=
    map fst (filter (fun nv => negb (env_truthy (snd nv))) required_vars) in
  match missing_vars with
  | _ :: _ =>
      logger_error ("Missing required environment variables: "
                    +++ join ", " missing_vars +++ ". Exiting.") ;;
      sys_exit 1
  | [] =>
      try_excepts
        (sql_query <- build_query ;;
         since <- lift (clock_since w MINUTES_AGO) ;;
         logger_info ("Querying for data since: " +++ since) ;;
         json_output <- execute_sql_query SSH_HOST SSH_USERNAME sql_query ;;
         logger_debug ("JSON output: " +++ json_output) ;;
         if (strip json_output =? "")%string then
           logger_warning "No sensor data found in time period. All sensors may be offline." ;;
           send_notification
             "Sensor Check-in Alert"
             ("No sensor data received in the last " +++ str_of_int MINUTES_AGO
              +++ " minutes. All sensors may be offline.")
             ["warning"; "thermometer"]
             "4"
         else
           missing_checkins <- analyze_sensor_data json_output ;;
           match missing_checkins with
           | _ :: _ =>
               logger_warning ("Missing check-ins detected for "
                               +++ str_of_int (Z.of_nat (List.length missing_checkins))
                               +++ " sensor(s).") ;;
               let missing_sensors_str :=
                 join newline
                   (map (fun '(mac, location) =>
                           py_str mac +++ " (" +++ py_str location +++ ")")
                        missing_checkins) in
               let message :=
                 "Missing check-ins detected for "
                 +++ str_of_int (Z.of_nat (List.length missing_checkins))
                 +++ " sensor(s):" +++ newline +++ missing_sensors_str in
               send_notification
                 "Sensor Check-in Alert"
                 message
                 ["warning"; "thermometer"]
                 "2"
           | [] =>
               logger_info ("All sensors have sufficient check-ins in the last "
                            +++ str_of_int MINUTES_AGO +++ " minutes.")
           end)
        [ (is_Exception,
           fun _ =>
             logger_exception "An unhandled error occurred during script execution." ;;
             sys_exit 1) ]
  end.

End Script.

End sensors_check.

(** * rklb-price.py *)

Module rklb_price.

Import Floats.SpecFloat.

(** The values of the quote's fields: [None], [bool], [int], [float]
    (IEEE 754 binary64) and [str]. *)
Inductive qval : Type :=
| QNone
| QBool (b : bool)
| QInt (n : Z)
| QFloat (f : spec_float)
| QStr (s : string).

Definition qtype_name (v : qval) : string :=
  match v with
  | QNone => "NoneType"
  | QBool _ => "bool"
  | QInt _ => "int"
  | QFloat _ => "float"
  | QStr _ => "str"
  end.

(** [v > 0] *)
Definition py_gt0 (v : qval) : result bool :=
  match v with
  | QBool b => Ok b
  | QInt n => Ok (0 <? n)
  | QFloat f => Ok (SFltb (S754_zero false) f)
  | _ => Raise (TypeError ("'>' not supported between instances of '"
                           +++ qtype_name v +++ "' and 'int'"))
  end.

(** [v < 0] *)
Definition py_lt0 (v : qval) : result bool :=
  match v with
  | QBool b => Ok false
  | QInt n => Ok (n <? 0)
  | QFloat f => Ok (SFltb f (S754_zero false))
  | _ => Raise (TypeError ("'<' not supported between instances of '"
                           +++ qtype_name v +++ "' and 'int'"))
  end.

(** [v == 0] *)
Definition py_eq0 (v : qval) : bool :=
  match v with
  | QBool b => negb b
  | QInt n => n =? 0
  | QFloat f => SFeqb f (S754_zero false)
  | _ => false
  end.

(** [v is None] *)
Definition QNone_dec (v : qval) : {v = QNone} + {v <> QNone}.
Proof. destruct v; [left; reflexivity|right; discriminate..]. Defined.

(** [info.get(name)] on the quote's dict *)
Fixpoint info_get (info : list (string * qval)) (name : string) : qval :=
  match info with
  | [] => QNone
  | (n, v) :: rest => if (n =? name)%string then v else info_get rest name
  end.

Class Formatter : Type := {
  (** [f"{v:.2f}"]: the text, or the exception the format raises. *)
  format_2f : qval -> result string
}.

Record world : Type := {
  (** the [n]-th read of [yf.Ticker("RKLB").info] in a run *)
  ticker_info : nat -> result (list (string * qval));
  (** [client.post(url, data=..., headers=...)] *)
  http_post : http_request -> result http_response
}.

Section Script.

Context {lib : Library} {fmt : Formatter}.

(** [os.getenv] of the four settings the script reads. *)
Variable NTFY_USERNAME : option string.
Variable NTFY_PASSWORD : option string.
Variable NTFY_HOST : option string.
Variable NTFY_EOD_TOPIC : option string.

Variable w : world.

(** [priority] is [str(priority)]. *)
Definition send_notification (title message : string) (emojis : list string)
  (priority : string) : M unit :=
  try_excepts
    (logger_info ("Seeing NTFY auth " +++ str_of_env NTFY_USERNAME
                  +++ "/" +++ str_of_env NTFY_PASSWORD) ;;
     auth <- lift (BasicAuth NTFY_USERNAME NTFY_PASSWORD) ;;
     logger_info ("Sending notification to " +++ str_of_env NTFY_HOST
                  +++ "/" +++ str_of_env NTFY_EOD_TOPIC) ;;
     let request :=
       {| url := str_of_env NTFY_HOST +++ "/" +++ str_of_env NTFY_EOD_TOPIC;
          auth := Some auth;
          data := message;
          headers :=
            [ ("Title", title);
              ("Priority", priority);
              ("Tags", match emojis with [] => "" | _ => join "," emojis end);
              ("Click", "https://finance.yahoo.com/quote/RKLB/") ] |} in
     emit (HttpPost request) ;;
     response <- lift (http_post w request) ;;
     lift (raise_for_status response) ;;
     logger_info ("Notification sent successfully: " +++ text response))
    [ (is_Exception,
       fun e => logger_error ("Failed to send notification: " +++ error_str e)) ].

(** The default of the [priority] parameter. *)
Definition default_priority : string := "3".

Definition main : M unit :=
  try_excepts
    (info1 <- lift (ticker_info w 0%nat) ;;
     let current_price := info_get info1 "regularMarketPrice" in
     info2 <- lift (ticker_info w 1%nat) ;;
     let price_change := info_get info2 "regularMarketChangePercent" in
     match current_price with
     | QNone =>
         logger_error "Unable to fetch RKLB quote" ;;
         send_notification "RKLB quote error" "Yahoo data error?" ["skull"] "4"
     | _ =>
         price_text <- lift (format_2f current_price) ;;
         let formatted_price := "$" +++ price_text in
         change_text <- lift (format_2f price_change) ;;
         let formatted_change := change_text +++ "%" in
         up <- lift (py_gt0 price_change) ;;
         emoji <- (if up then ret "arrow_up"
                   else
                     down <- lift (py_lt0 price_change) ;;
                     if down then ret "arrow_down" else ret "arrow_up_down") ;;
         logger_info ("RKLB current price: " +++ formatted_price
                      +++ " / " +++ formatted_change) ;;
         send_notification "RKLB quote" (formatted_price +++ " / " +++ formatted_change)
           [emoji] default_priority
     end)
    [ (is_Exception,
       fun e =>
         logger_error ("Error in main function: " +++ error_str e) ;;
         send_notification "RKLB quote error" "Yahoo down?" ["skull"] (str_of_int 4)) ].

End Script.

End rklb_price.

(** * What the claims speak about *)

(** [hash(v)] succeeds. *)
Definition hashable (v : json) : bool :=
  match py_hash v with Ok _ => true | Raise _ => false end.

(** The record's identifier [record.get('mac')] is [k], as a dict key. *)
Definition has_mac (k : json) (record : json) : bool :=
  match py_get record "mac" JNull with
  | Ok mac => py_eqb mac k
  | Raise _ => false
  end.

(** The occurrence count of the identifier [k] in the records. *)
Definition occurrences (k : json) (records : list json) : Z :=
  Z.of_nat (List.length (filter (has_mac k) records)).

(** The first record, in input order, whose identifier is [k]. *)
Definition first_occurrence (k : json) (records : list json) : option json :=
  find (has_mac k) records.

(** The entries of an output list for the identifier [k]. *)
Definition entries_of (k : json) (out : list (json * json)) : list (json * json) :=
  filter (fun entry => py_eqb (fst entry) k) out.

(** A record the counting loop can take: a dict whose ['mac'] is absent,
    falsy or hashable. *)
Definition record_ok (record : json) : bool :=
  match py_get record "mac" JNull with
  | Ok mac => negb (truthy mac) || hashable mac
  | Raise _ => false
  end.

(** The HTTP requests of a trace, and the value of one of their headers. *)
Fixpoint posts (t : list event) : list http_request :=
  match t with
  | [] => []
  | HttpPost req :: t' => req :: posts t'
  | _ :: t' => posts t'
  end.

Fixpoint header (name : string) (hs : list (string * string)) : option string :=
  match hs with
  | [] => None
  | (n, v) :: hs' => if (n =? name)%string then Some v else header name hs'
  end.

(** The attempts to reach the remote host in a trace. *)
Fixpoint connects (t : list event) : nat :=
  match t with
  | [] => 0%nat
  | SshConnect _ _ :: t' => S (connects t')
  | _ :: t' => connects t'
  end.

(** No two keys of the list are the same dict key. *)
Fixpoint distinct_keys (ks : list json) : Prop :=
  match ks with
  | [] => True
  | k :: ks' => (forall k', In k' ks' -> py_eqb k k' = false) /\ distinct_keys ks'
  end.

(** What [mac_counts] and [mac_locations] hold once the records [seen]
    have been counted. *)
Record tables_ok (seen : list json) (mac_counts : dict Z) (mac_locations : dict json)
  : Prop := {
  counts_ok :
    forall k, truthy k = true ->
      dict_get mac_counts k =
      if occurrences k seen =? 0 then None else Some (occurrences k seen);
  locations_ok :
    forall k, truthy k = true ->
      match first_occurrence k seen with
      | None => dict_get mac_locations k = None
      | Some r =>
          exists l, py_get r "location" (JStr "unknown location") = Ok l
                    /\ dict_get mac_locations k = Some l
      end;
  keys_ok : distinct_keys (map fst mac_counts);
  items_ok :
    forall k c, In (k, c) mac_counts ->
      truthy k = true /\ c = occurrences k seen
      /\ exists r, first_occurrence k seen = Some r /\ py_get r "mac" JNull = Ok k
}.

(** What one item of [mac_counts] adds to [missing_checkins]. *)
Definition missing_entry (MIN_CHECKINS : Z) (mac_locations : dict json) (item : json * Z)
  : list (json * json) :=
  if snd item <? MIN_CHECKINS
  then match dict_get mac_locations (fst item) with
       | Some l => [(fst item, l)]
       | None => []
       end
  else [].

(** All five required settings are present and non-empty. *)
Definition configured (NTFY_HOST NTFY_SENSOR_TOPIC SSH_HOST SSH_USERNAME DATABASE_PATH
                       : option string) : bool :=
  env_truthy NTFY_HOST && env_truthy NTFY_SENSOR_TOPIC && env_truthy SSH_HOST
  && env_truthy SSH_USERNAME && env_truthy DATABASE_PATH.

(** A run that ends in one call of [send_notification], with no HTTP
    request before it. *)
Definition ends_notifying (run call : M unit) : Prop :=
  exists prelude,
    posts prelude = [] /\ run = (prelude ++ trace_of call, result_of call).

(** One run of the sensor script in a configuration and a world. *)
Definition sensor_run {lib : Library} (MINUTES_AGO MIN_CHECKINS : Z)
  (NTFY_HOST NTFY_SENSOR_TOPIC NTFY_USERNAME NTFY_PASSWORD : option string)
  (SSH_HOST SSH_USERNAME DATABASE_PATH : option string) (w : sensors_check.world)
  : M unit :=
  sensors_check.main MINUTES_AGO MIN_CHECKINS NTFY_HOST NTFY_SENSOR_TOPIC
    NTFY_USERNAME NTFY_PASSWORD SSH_HOST SSH_USERNAME DATABASE_PATH w.

(** One call of [send_notification] of the quote script. *)
Definition quote_notification {lib : Library}
  (NTFY_USERNAME NTFY_PASSWORD NTFY_HOST NTFY_EOD_TOPIC : option string)
  (w : rklb_price.world) (title message : string) (emojis : list string)
  (priority : string) : M unit :=
  rklb_price.send_notification NTFY_USERNAME NTFY_PASSWORD NTFY_HOST NTFY_EOD_TOPIC w
    title message emojis priority.

(** One run of the quote script. *)
Definition quote_run {lib : Library} {fmt : rklb_price.Formatter}
  (NTFY_USERNAME NTFY_PASSWORD NTFY_HOST NTFY_EOD_TOPIC : option string)
  (w : rklb_price.world) : M unit :=
  rklb_price.main NTFY_USERNAME NTFY_PASSWORD NTFY_HOST NTFY_EOD_TOPIC w.

(** The [auth] of the sensor script's notifier: credentials when both
    username and password are set, none otherwise. *)
Definition notification_auth {lib : Library} (NTFY_USERNAME NTFY_PASSWORD : option string)
  : result (option (string * string)) :=
  if env_truthy NTFY_USERNAME && env_truthy NTFY_PASSWORD
  then match BasicAuth NTFY_USERNAME NTFY_PASSWORD with
       | Ok credentials => Ok (Some credentials)
       | Raise e => Raise e
       end
  else Ok None.

(** * What the further properties speak about *)

(** The identifier and the location the analyzer reads off a record. *)
Definition mac_of (record : json) : json :=
  match py_get record "mac" JNull with
  | Ok mac => mac
  | Raise _ => JNull
  end.

Definition location_of (record : json) : json :=
  match py_get record "location" (JStr "unknown location") with
  | Ok location => location
  | Raise _ => JNull
  end.

(** The records of [items] that are the first of their truthy identifier,
    in input order; [seen] holds the records before [items]. *)
Fixpoint first_records (seen items : list json) : list json :=
  match items with
  | [] => []
  | record :: rest =>
      (if truthy (mac_of record) && (occurrences (mac_of record) seen =? 0)
       then [record] else [])
      ++ first_records (seen ++ [record]) rest
  end.

(** What the docstring of [analyze_sensor_data] promises, made precise:
    the sensors with fewer than [MIN_CHECKINS] check-ins, each as the
    identifier and location of its first record, in the order in which
    the sensors first appear. *)
Definition expected_missing (MIN_CHECKINS : Z) (items : list json) : list (json * json) :=
  map (fun record => (mac_of record, location_of record))
      (filter (fun record => occurrences (mac_of record) items <? MIN_CHECKINS)
              (first_records [] items)).

(** A world with another notification server. *)
Definition with_http_post (w : sensors_check.world)
  (post : http_request -> result http_response) : sensors_check.world := {|
  sensors_check.clock_cutoff := sensors_check.clock_cutoff w;
  sensors_check.clock_since := sensors_check.clock_since w;
  sensors_check.ssh_connect := sensors_check.ssh_connect w;
  sensors_check.ssh_run := sensors_check.ssh_run w;
  sensors_check.http_post := post
|}.

(** The log records of a trace. *)
Fixpoint logs (t : list event) : list (level * string) :=
  match t with
  | [] => []
  | Log lvl msg :: t' => (lvl, msg) :: logs t'
  | _ :: t' => logs t'
  end.

(** The remote commands of a trace. *)
Fixpoint commands (t : list event) : list string :=
  match t with
  | [] => []
  | SshRun command :: t' => command :: commands t'
  | _ :: t' => commands t'
  end.

(** The SSH connections of a trace: host and username. *)
Fixpoint connections (t : list event) : list (option string * option string) :=
  match t with
  | [] => []
  | SshConnect host username :: t' => (host, username) :: connections t'
  | _ :: t' => connections t'
  end.

(** The record the analyzer logs for the sensor first seen in [record]. *)
Definition summary_line {lib : Library} (items : list json) (record : json) : event :=
  Log INFO ("MAC: " +++ py_str (mac_of record)
            +++ ", Location: " +++ py_str (location_of record)
            +++ ", Entries: " +++ str_of_int (occurrences (mac_of record) items)).

(** * The claims that fail, as the spec words them *)

(** C2 as the spec words it, at one input: every identifier of the parsed
    records counted fewer than [MIN_CHECKINS] times appears exactly once
    in the output, paired with the location of its first occurrence. *)
Definition below_minimum_reported_once (lib : Library) (MIN_CHECKINS : Z)
  (json_output : string) : Prop :=
  forall (records : json) (items : list json) (mac : json),
    json_loads json_output = Ok records ->
    py_iter records = Ok items ->
    0 < occurrences mac items < MIN_CHECKINS ->
    exists first mac0 location out,
      first_occurrence mac items = Some first
      /\ py_get first "mac" JNull = Ok mac0
      /\ py_get first "location" (JStr "unknown location") = Ok location
      /\ result_of (sensors_check.analyze_sensor_data MIN_CHECKINS json_output) = Returns out
      /\ entries_of mac out = [(mac0, location)].


(** C4 as the spec words it, for one run in which the remote query fails
    with a connection error: the error is logged, a notification is
    posted, the connection is tried once and the exit status is not 0. *)
Definition connection_error_notified (run : M unit) : Prop :=
  (exists msg, In (Log ERROR msg) (trace_of run))
  /\ posts (trace_of run) <> []
  /\ connects (trace_of run) = 1%nat
  /\ exit_status (result_of run) <> 0.

(** * Sample library, documents and worlds *)

(** Writes a JSON document with ['] for the quotation mark. *)
Definition json_text (s : string) : string :=
  string_of_list_ascii
    (map (fun c => if (c =? "'")%char then ascii_of_nat 34 else c)
         (list_ascii_of_string s)).

(** A record with an identifier and a location. *)
Definition wine (mac location : string) : json :=
  JObj [("mac", JStr mac); ("location", JStr location)].

(** Sample documents: one check-in; three check-ins of A and one of B; a
    record with an empty identifier; records without ['mac'] or without
    ['location']; the last one without its middle record. *)
Definition doc_single : string :=
  json_text "[{'mac': 'A', 'location': 'wine'}]".
Definition doc_mixed : string :=
  json_text "[{'mac': 'A', 'location': 'wine'}, {'mac': 'A', 'location': 'wine'}, {'mac': 'B', 'location': 'attic'}, {'mac': 'A', 'location': 'wine'}]".
Definition doc_empty_mac : string :=
  json_text "[{'mac': '', 'location': 'cellar'}]".
Definition doc_partial : string :=
  json_text "[{'mac': 'A', 'location': 'wine'}, {'location': 'attic'}, {'mac': 'B'}]".
Definition doc_partial_less : string :=
  json_text "[{'mac': 'A', 'location': 'wine'}, {'mac': 'B'}]".

(** Documents and the values [json.loads] decodes them to. *)
Definition sample_documents : list (string * json) :=
  [ (doc_single, JArr [wine "A" "wine"]);
    (doc_mixed,
     JArr [wine "A" "wine"; wine "A" "wine"; wine "B" "attic"; wine "A" "wine"]);
    (doc_empty_mac, JArr [wine "" "cellar"]);
    (doc_partial,
     JArr [wine "A" "wine"; JObj [("location", JStr "attic")]; JObj [("mac", JStr "B")]]);
    (doc_partial_less,
     JArr [wine "A" "wine"; JObj [("mac", JStr "B")]]);
    ("[]", JArr []);
    ("[{}, 5]", JArr [JObj []; JInt 5]);
    ("{}", JObj []) ].

(** A decoder that agrees with [json.loads] on the sample documents and on
    blank text; any other text counts as malformed. *)
Definition sample_loads (s : string) : result json :=
  if (strip s =? "")%string
  then Raise (JSONDecodeError "Expecting value: line 1 column 1 (char 0)")
  else match find (fun d => (fst d =? s)%string) sample_documents with
       | Some d => Ok (snd d)
       | None => Raise (JSONDecodeError "Expecting value: line 1 column 1 (char 0)")
       end.

(** [str(v)] for [None], [bool], [int] and [str]; floats, lists and dicts
    are abbreviated. *)
Definition sample_str (v : json) : string :=
  match v with
  | JNull => "None"
  | JBool true => "True"
  | JBool false => "False"
  | JInt n => str_of_int n
  | JFloat _ => "<float>"
  | JStr s => s
  | JArr _ => "[...]"
  | JObj _ => "{...}"
  end.

Definition sample_repr (v : json) : string :=
  match v with
  | JStr s => "'" +++ s +++ "'"
  | _ => sample_str v
  end.

Definition sample_BasicAuth (username password : option string) : result (string * string) :=
  match username, password with
  | Some u, Some p => Ok (u, p)
  | _, _ => Raise (TypeError "sequence item 0: expected a bytes-like object, NoneType found")
  end.

(** The sample library; its decoder rejects blank text, as the class asks. *)
Definition sample_library : Library.
Proof.
  refine {| json_loads := sample_loads;
            json_loads_blank := _;
            py_str := sample_str;
            py_repr := sample_repr;
            BasicAuth := sample_BasicAuth;
            status_error_message :=
              fun r => "HTTP status " +++ str_of_int (status_code r) |}.
  intros s Hs. unfold sample_loads. rewrite Hs. simpl. eauto.
Defined.

(** The same decoder with a library that renders every value as [?]. *)
Definition terse_library : Library :=
  {| json_loads := sample_loads;
     json_loads_blank := @json_loads_blank sample_library;
     py_str := fun _ => "?";
     py_repr := fun _ => "?";
     BasicAuth := sample_BasicAuth;
     status_error_message := fun _ => "?" |}.






(** A world whose remote host answers [stdout] and whose notification
    server accepts every request. *)
Definition online_world (stdout : string) : sensors_check.world := {|
  sensors_check.clock_cutoff := fun _ => Ok "2025-06-30 00:50:00";
  sensors_check.clock_since := fun _ => Ok "2025-06-30 00:50:00.000000+00:00";
  sensors_check.ssh_connect := fun _ _ => Ok tt;
  sensors_check.ssh_run := fun _ => Ok stdout;
  sensors_check.http_post := fun _ => Ok {| status_code := 200; text := "ok" |}
|}.

(** A world whose remote host refuses the connection. *)
Definition offline_world : sensors_check.world := {|
  sensors_check.clock_cutoff := fun _ => Ok "2025-06-30 00:50:00";
  sensors_check.clock_since := fun _ => Ok "2025-06-30 00:50:00.000000+00:00";
  sensors_check.ssh_connect := fun _ _ => Raise (AsyncsshError "Permission denied");
  sensors_check.ssh_run := fun _ => Ok "";
  sensors_check.http_post := fun _ => Ok {| status_code := 200; text := "ok" |}
|}.

(** A run with the sample library and a full configuration without
    credentials. *)
Definition sample_run (w : sensors_check.world) : M unit :=
  sensor_run (lib := sample_library) 45 2
    (Some "https://ntfy.example") (Some "sensors") None None
    (Some "db.example") (Some "pi") (Some "/data/sensors.db") w.

Definition two_digits (n : Z) : string :=
  (if n <? 10 then "0" else "") +++ str_of_int n.

Definition fixed_2 (negative : bool) (hundredths : Z) : string :=
  (if negative then "-" else "") +++ str_of_int (hundredths / 100)
  +++ "." +++ two_digits (hundredths mod 100).

(** [num / den] rounded to the nearest integer, ties to even. *)
Definition round_half_even (num den : Z) : Z :=
  let q := num / den in
  let r := num mod den in
  if (den <? 2 * r) || ((den =? 2 * r) && Z.odd q) then q + 1 else q.

(** The [:.2f] format of [None], [str], [bool], [float] and of the ints a
    float holds exactly (up to 2^53 in size), as Python gives it; a larger
    int is outside the sample. *)
Definition sample_format_2f (v : rklb_price.qval) : result string :=
  match v with
  | rklb_price.QNone =>
      Raise (TypeError "unsupported format string passed to NoneType.__format__")
  | rklb_price.QStr _ =>
      Raise (ValueError "Unknown format code 'f' for object of type 'str'")
  | rklb_price.QBool b => Ok (if b then "1.00" else "0.00")
  | rklb_price.QInt n =>
      if Z.abs n <=? 2 ^ 53
      then Ok (fixed_2 (n <? 0) (Z.abs n * 100))
      else Raise (OtherError "outside the sample")
  | rklb_price.QFloat f =>
      match f with
      | SpecFloat.S754_zero s => Ok (fixed_2 s 0)
      | SpecFloat.S754_infinity s => Ok (if s then "-inf" else "inf")
      | SpecFloat.S754_nan => Ok "nan"
      | SpecFloat.S754_finite s m e =>
          Ok (fixed_2 s (if 0 <=? e then Z.pos m * 2 ^ e * 100
                         else round_half_even (Z.pos m * 100) (2 ^ (- e))))
      end
  end.

Definition sample_formatter : rklb_price.Formatter :=
  {| rklb_price.format_2f := sample_format_2f |}.

(** A world in which the quote service answers [info] and the notification
    server accepts every request. *)
Definition quote_world (info : list (string * rklb_price.qval)) : rklb_price.world := {|
  rklb_price.ticker_info := fun _ => Ok info;
  rklb_price.http_post := fun _ => Ok {| status_code := 200; text := "ok" |}
|}.

(** A quote without a price, and a quote of 25.5 that has not moved. *)
Definition quote_without_price : list (string * rklb_price.qval) :=
  [("symbol", rklb_price.QStr "RKLB")].
Definition quote_unchanged : list (string * rklb_price.qval) :=
  [("symbol", rklb_price.QStr "RKLB");
   ("regularMarketPrice", rklb_price.QFloat (SpecFloat.S754_finite false 51 (-1)));
   ("regularMarketChangePercent", rklb_price.QFloat (SpecFloat.S754_zero false))].

(** A quote of 25.5 that has fallen by 1.5 percent, and a quote with a
    price and no change. *)
Definition quote_fallen : list (string * rklb_price.qval) :=
  [("symbol", rklb_price.QStr "RKLB");
   ("regularMarketPrice", rklb_price.QFloat (SpecFloat.S754_finite false 51 (-1)));
   ("regularMarketChangePercent", rklb_price.QFloat (SpecFloat.S754_finite true 3 (-1)))].
Definition quote_without_change : list (string * rklb_price.qval) :=
  [("symbol", rklb_price.QStr "RKLB");
   ("regularMarketPrice", rklb_price.QFloat (SpecFloat.S754_finite false 51 (-1)))].

(** A run of the quote script with the sample library and formatter. *)
Definition sample_quote_run (info : list (string * rklb_price.qval)) : M unit :=
  quote_run (lib := sample_library) (fmt := sample_formatter)
    (Some "user") (Some "secret") (Some "https://ntfy.example") (Some "eod")
    (quote_world info).

(** * Facts about the monad *)

Lemma result_of_bind {A B} (m : M A) (k : A -> M B) :
  result_of (bind m k) =
  match result_of m with
  | Returns a => result_of (k a)
  | Raises e => Raises e
  | Exits c => Exits c
  end.
Proof.
  destruct m as [t [a | e | c]]; simpl; try reflexivity.
  destruct (k a); reflexivity.
Qed.

Lemma trace_of_bind {A B} (m : M A) (k : A -> M B) :
  trace_of (bind m k) =
  trace_of m ++ match result_of m with
                | Returns a => trace_of (k a)
                | _ => []
                end.
Proof.
  destruct m as [t [a | e | c]]; simpl; try (now rewrite app_nil_r).
  destruct (k a); reflexivity.
Qed.

Lemma bind_returns {A B} (t : list event) (a : A) (k : A -> M B) :
  bind (t, Returns a) k = (t ++ trace_of (k a), result_of (k a)).
Proof. simpl. destruct (k a); reflexivity. Qed.

Lemma bind_ret {A B} (a : A) (k : A -> M B) : bind (ret a) k = k a.
Proof. unfold ret. rewrite bind_returns. destruct (k a); reflexivity. Qed.

Lemma bind_lift_Ok {A B} (a : A) (k : A -> M B) : bind (lift (Ok a)) k = k a.
Proof. apply bind_ret. Qed.

Lemma bind_emit {B} (ev : event) (k : unit -> M B) :
  bind (emit ev) k = (ev :: trace_of (k tt), result_of (k tt)).
Proof. unfold emit. rewrite bind_returns. reflexivity. Qed.

Lemma M_eta {A} (m : M A) : m = (trace_of m, result_of m).
Proof. destruct m; reflexivity. Qed.

(** * Facts about the equality of dict keys *)

Lemma number_eqb_eq (x y : number) : number_eqb x y = true <-> x = y.
Proof.
  destruct x as [|s|m e], y as [|t|m' e']; simpl; split; intros H;
    try discriminate; try reflexivity.
  - apply Bool.eqb_prop in H. subst. reflexivity.
  - inversion H; subst. apply Bool.eqb_reflx.
  - apply andb_true_iff in H. destruct H as [H1 H2].
    apply Z.eqb_eq in H1. apply Z.eqb_eq in H2. subst. reflexivity.
  - inversion H; subst. rewrite !Z.eqb_refl. reflexivity.
Qed.

Lemma key_eqb_eq (a b : key) : key_eqb a b = true <-> a = b.
Proof.
  destruct a as [|s|x], b as [|t|y]; simpl; split; intros H;
    try discriminate; try reflexivity.
  - apply String.eqb_eq in H. subst. reflexivity.
  - inversion H; subst. apply String.eqb_refl.
  - apply number_eqb_eq in H. subst. reflexivity.
  - inversion H; subst. apply number_eqb_eq. reflexivity.
Qed.

Lemma py_eqb_keys (a b : json) :
  py_eqb a b = true <-> exists k, py_key a = Some k /\ py_key b = Some k.
Proof.
  unfold py_eqb. destruct (py_key a) as [x|], (py_key b) as [y|]; split;
    try discriminate; try (intros (k & H1 & H2); discriminate).
  - intros H. apply key_eqb_eq in H. subst. eauto.
  - intros (k & H1 & H2). inversion H1; inversion H2; subst. apply key_eqb_eq.
    reflexivity.
Qed.

Lemma py_eqb_sym (a b : json) : py_eqb a b = py_eqb b a.
Proof.
  destruct (py_eqb a b) eqn:E1.
  - apply py_eqb_keys in E1. destruct E1 as (k & H1 & H2).
    symmetry. apply py_eqb_keys. eauto.
  - destruct (py_eqb b a) eqn:E2; [|reflexivity].
    apply py_eqb_keys in E2. destruct E2 as (k & H1 & H2).
    rewrite <- E1. apply py_eqb_keys. eauto.
Qed.

Lemma py_eqb_trans (a b c : json) :
  py_eqb a b = true -> py_eqb b c = true -> py_eqb a c = true.
Proof.
  intros H1 H2. apply py_eqb_keys in H1. apply py_eqb_keys in H2.
  destruct H1 as (k & Ha & Hb). destruct H2 as (k' & Hb' & Hc).
  apply py_eqb_keys. exists k. split; [assumption|]. congruence.
Qed.

Lemma py_key_hashable (a : json) : hashable a = true <-> exists k, py_key a = Some k.
Proof.
  destruct a; simpl; split; intros H; try reflexivity; eauto;
    try discriminate; destruct H as [k H]; discriminate.
Qed.

Lemma py_eqb_hashable (a b : json) :
  py_eqb a b = true -> hashable a = true /\ hashable b = true.
Proof.
  intros H. apply py_eqb_keys in H. destruct H as (k & Ha & Hb).
  split; apply py_key_hashable; eauto.
Qed.

Lemma py_eqb_refl (a : json) : hashable a = true -> py_eqb a a = true.
Proof.
  intros H. apply py_key_hashable in H. destruct H as [k H].
  apply py_eqb_keys. eauto.
Qed.

Lemma dyadic_truthy (negative : bool) (m : positive) (e : Z) :
  key_truthy (KeyNum (dyadic negative m e)) = true.
Proof.
  unfold dyadic. destruct (strip_twos m e) as [m' e'].
  destruct negative; reflexivity.
Qed.

Lemma py_key_truthy (a : json) (k : key) :
  py_key a = Some k -> truthy a = key_truthy k.
Proof.
  destruct a as [|b|n|x|s|items|fields]; simpl; intros H; inversion H; subst;
    try reflexivity.
  - destruct b; reflexivity.
  - destruct n; simpl; try reflexivity; symmetry; apply dyadic_truthy.
  - destruct x; simpl; try reflexivity. symmetry. apply dyadic_truthy.
Qed.

Lemma py_eqb_truthy (a b : json) : py_eqb a b = true -> truthy a = truthy b.
Proof.
  intros H. apply py_eqb_keys in H. destruct H as (k & Ha & Hb).
  rewrite (py_key_truthy a k Ha), (py_key_truthy b k Hb). reflexivity.
Qed.

(** Keys equal to the same key are looked up alike. *)
Lemma py_eqb_congr (a b c : json) : py_eqb a b = true -> py_eqb a c = py_eqb b c.
Proof.
  intros Hab. destruct (py_eqb b c) eqn:Hbc.
  - eapply py_eqb_trans; eassumption.
  - destruct (py_eqb a c) eqn:Hac; [|reflexivity].
    rewrite <- Hbc. symmetry. eapply py_eqb_trans; [|eassumption].
    rewrite py_eqb_sym. assumption.
Qed.

(** * Facts about dicts *)

Lemma dict_get_set {V} (d : dict V) (m k : json) (v : V) :
  hashable m = true ->
  dict_get (dict_set d m v) k = if py_eqb m k then Some v else dict_get d k.
Proof.
  intros Hm. induction d as [|[k1 v1] d IH]; simpl.
  - reflexivity.
  - destruct (py_eqb k1 m) eqn:E1; simpl.
    + rewrite (py_eqb_congr k1 m k E1). destruct (py_eqb m k); reflexivity.
    + rewrite IH. destruct (py_eqb k1 k) eqn:E2; [|reflexivity].
      destruct (py_eqb m k) eqn:E3; [|reflexivity].
      rewrite py_eqb_sym in E3.
      rewrite (py_eqb_trans k1 k m E2 E3) in E1. discriminate.
Qed.

Lemma dict_get_None_keys {V} (d : dict V) (m : json) :
  dict_get d m = None -> forall k, In k (map fst d) -> py_eqb k m = false.
Proof.
  induction d as [|[k1 v1] d IH]; simpl; intros H k Hk; [contradiction|].
  destruct (py_eqb k1 m) eqn:E1; [discriminate|].
  destruct Hk as [<-|Hk]; auto.
Qed.

Lemma dict_get_Some_In {V} (d : dict V) (k : json) (v : V) :
  dict_get d k = Some v -> exists k0, In (k0, v) d /\ py_eqb k0 k = true.
Proof.
  induction d as [|[k1 v1] d IH]; simpl; intros H; [discriminate|].
  destruct (py_eqb k1 k) eqn:E1.
  - inversion H; subst. eauto.
  - destruct (IH H) as (k0 & Hin & Heq). eauto.
Qed.

Lemma In_dict_get {V} (d : dict V) (k : json) (v : V) :
  distinct_keys (map fst d) -> hashable k = true ->
  In (k, v) d -> dict_get d k = Some v.
Proof.
  induction d as [|[k1 v1] d IH]; simpl; intros Hd Hk Hin; [contradiction|].
  destruct Hd as [Hk1 Hd]. destruct Hin as [Heq|Hin].
  - inversion Heq; subst. rewrite py_eqb_refl by assumption. reflexivity.
  - rewrite (Hk1 k) by (apply (in_map fst) in Hin; exact Hin). auto.
Qed.

Lemma keys_dict_set {V} (d : dict V) (m : json) (v : V) :
  map fst (dict_set d m v) =
  if dict_contains d m then map fst d else map fst d ++ [m].
Proof.
  unfold dict_contains. induction d as [|[k1 v1] d IH]; simpl; [reflexivity|].
  destruct (py_eqb k1 m) eqn:E1; simpl; [reflexivity|].
  rewrite IH. destruct (dict_get d m); reflexivity.
Qed.

Lemma distinct_keys_snoc (ks : list json) (m : json) :
  distinct_keys ks -> (forall k, In k ks -> py_eqb k m = false) ->
  distinct_keys (ks ++ [m]).
Proof.
  induction ks as [|k ks IH]; simpl; intros Hd Hm.
  - split; [intros k' []|exact I].
  - destruct Hd as [Hk Hd]. split.
    + intros k' Hin. apply in_app_or in Hin. destruct Hin as [Hin|[<-|[]]]; auto.
    + apply IH; auto.
Qed.

Lemma In_dict_set {V} (d : dict V) (m k : json) (v c : V) :
  distinct_keys (map fst d) ->
  In (k, c) (dict_set d m v) ->
  (In (k, c) d /\ py_eqb k m = false)
  \/ (c = v /\ py_eqb k m = true /\ exists c0, In (k, c0) d)
  \/ (c = v /\ k = m /\ dict_get d m = None).
Proof.
  induction d as [|[k1 c1] d IH]; simpl; intros Hd Hin.
  - destruct Hin as [Heq|[]]. inversion Heq; subst. right. right. auto.
  - destruct Hd as [Hk1 Hd]. destruct (py_eqb k1 m) eqn:E1; simpl in Hin.
    + destruct Hin as [Heq|Hin].
      * inversion Heq; subst. right. left. repeat split; eauto.
      * left. split; [auto|].
        destruct (py_eqb k m) eqn:E2; [|reflexivity].
        rewrite py_eqb_sym in E2.
        rewrite <- (Hk1 k) by (apply (in_map fst) in Hin; exact Hin).
        symmetry. eapply py_eqb_trans; eassumption.
    + destruct Hin as [Heq|Hin].
      * inversion Heq; subst. left. auto.
      * destruct (IH Hd Hin) as [[H1 H2]|[(H1 & H2 & c0 & H3)|(H1 & H2 & H3)]].
        -- left. auto.
        -- right. left. repeat split; eauto.
        -- right. right. auto.
Qed.

(** * Facts about occurrence counts and first occurrences *)

Lemma has_mac_congr (k k' r : json) :
  py_eqb k k' = true -> has_mac k r = has_mac k' r.
Proof.
  intros H. unfold has_mac. destruct (py_get r "mac" JNull) as [mac|]; [|reflexivity].
  rewrite (py_eqb_sym mac k), (py_eqb_sym mac k'). apply py_eqb_congr. exact H.
Qed.

Lemma occurrences_app (k : json) (a b : list json) :
  occurrences k (a ++ b) = occurrences k a + occurrences k b.
Proof.
  unfold occurrences. rewrite filter_app, length_app. lia.
Qed.

Lemma occurrences_nonneg (k : json) (l : list json) : 0 <= occurrences k l.
Proof. unfold occurrences. lia. Qed.

Lemma occurrences_one (k r : json) :
  occurrences k [r] = if has_mac k r then 1 else 0.
Proof. unfold occurrences. simpl. destruct (has_mac k r); reflexivity. Qed.

Lemma occurrences_congr (k k' : json) (l : list json) :
  py_eqb k k' = true -> occurrences k l = occurrences k' l.
Proof.
  intros H. unfold occurrences. f_equal. f_equal.
  apply filter_ext. intros r. apply has_mac_congr. exact H.
Qed.

Lemma first_occurrence_congr (k k' : json) (l : list json) :
  py_eqb k k' = true -> first_occurrence k l = first_occurrence k' l.
Proof.
  intros H. unfold first_occurrence. induction l as [|r l IH]; simpl; [reflexivity|].
  rewrite (has_mac_congr k k' r H), IH. reflexivity.
Qed.

Lemma first_occurrence_app (k : json) (a b : list json) :
  first_occurrence k (a ++ b) =
  match first_occurrence k a with
  | Some r => Some r
  | None => first_occurrence k b
  end.
Proof.
  unfold first_occurrence. induction a as [|r a IH]; simpl; [reflexivity|].
  destruct (has_mac k r); auto.
Qed.

Lemma first_occurrence_has_mac (k r : json) (l : list json) :
  first_occurrence k l = Some r -> has_mac k r = true /\ In r l.
Proof.
  unfold first_occurrence. intros H. apply find_some in H. tauto.
Qed.

Lemma occurrences_zero_iff (k : json) (l : list json) :
  occurrences k l = 0 <-> first_occurrence k l = None.
Proof.
  unfold occurrences, first_occurrence.
  induction l as [|r l IH]; simpl; [tauto|].
  destruct (has_mac k r); simpl.
  - split; [lia|discriminate].
  - exact IH.
Qed.

(** * The counting loop *)

Section Analyzer.

Context {lib : Library}.
Variable MIN_CHECKINS : Z.

Import sensors_check.

Lemma tables_ok_nil : tables_ok [] [] [].
Proof.
  split; simpl; auto; intros; contradiction.
Qed.

(** The loop body logs nothing; it either raises or returns the tables
    described here. *)
Lemma count_record_cases (mac_counts : dict Z) (mac_locations : dict json) (record : json) :
  trace_of (count_record (mac_counts, mac_locations) record) = []
  /\ forall st',
      result_of (count_record (mac_counts, mac_locations) record) = Returns st' ->
      exists mac,
        py_get record "mac" JNull = Ok mac
        /\ ((truthy mac = false /\ st' = (mac_counts, mac_locations))
            \/ (truthy mac = true /\ hashable mac = true
                /\ exists location,
                    py_get record "location" (JStr "unknown location") = Ok location
                    /\ st' =
                       (dict_set mac_counts mac
                          (match dict_get mac_counts mac with Some c => c | None => 0 end + 1),
                        if dict_contains mac_locations mac then mac_locations
                        else dict_set mac_locations mac location))).
Proof.
  unfold count_record.
  destruct record as [| | | | | |fields]; simpl;
    try (split; [reflexivity|intros st' H; discriminate]).
  set (mac := match fields_get fields "mac" with Some v => v | None => JNull end).
  destruct (truthy mac) eqn:Ht; simpl.
  - unfold defaultdict_incr. destruct (py_hash mac) as [[]|e] eqn:Hh; simpl.
    + assert (Hm : hashable mac = true) by (unfold hashable; rewrite Hh; reflexivity).
      destruct (dict_contains mac_locations mac) eqn:Hc; simpl;
        (split; [reflexivity|]; intros st' H; inversion H; subst;
         exists mac; split; [reflexivity|]; right;
         split; [exact Ht|]; split; [exact Hm|];
         eexists; split; [reflexivity|]; rewrite ?Hc; reflexivity).
    + split; [reflexivity|]. intros st' H. discriminate.
  - split; [reflexivity|]. intros st' H. inversion H; subst.
    exists mac. split; [reflexivity|]. left. auto.
Qed.

(** One step of the loop keeps the tables right. *)
Lemma count_record_tables (seen : list json) (mac_counts : dict Z)
  (mac_locations : dict json) (record : json) (st' : dict Z * dict json) :
  tables_ok seen mac_counts mac_locations ->
  result_of (count_record (mac_counts, mac_locations) record) = Returns st' ->
  tables_ok (seen ++ [record]) (fst st') (snd st').
Proof.
  intros [Hc Hl Hk Hi] Hres.
  destruct (count_record_cases mac_counts mac_locations record) as [_ Hcases].
  destruct (Hcases st' Hres)
    as (mac & Hget & [[Ht Hst]|(Ht & Hh & location & Hloc & Hst)]); subst st'; simpl.
  - (* the record is skipped *)
    assert (Hno : forall k, truthy k = true -> has_mac k record = false).
    { intros k Hk'. unfold has_mac. rewrite Hget.
      destruct (py_eqb mac k) eqn:E; [|reflexivity].
      apply py_eqb_truthy in E. congruence. }
    assert (Hocc : forall k, truthy k = true ->
                     occurrences k (seen ++ [record]) = occurrences k seen).
    { intros k Hk'. rewrite occurrences_app, occurrences_one, Hno by assumption. lia. }
    assert (Hfirst : forall k, truthy k = true ->
                       first_occurrence k (seen ++ [record]) = first_occurrence k seen).
    { intros k Hk'. rewrite first_occurrence_app.
      destruct (first_occurrence k seen); [reflexivity|].
      unfold first_occurrence. simpl. rewrite Hno by assumption. reflexivity. }
    split.
    + intros k Hk'. rewrite Hocc by assumption. exact (Hc k Hk').
    + intros k Hk'. rewrite Hfirst by assumption. exact (Hl k Hk').
    + assumption.
    + intros k c Hin. destruct (Hi k c Hin) as (H1 & H2 & r & H3 & H4).
      rewrite Hocc, Hfirst by assumption. eauto.
  - (* the record is counted *)
    set (old := match dict_get mac_counts mac with Some c => c | None => 0 end).
    assert (Hold : old = occurrences mac seen).
    { unfold old. rewrite (Hc mac Ht).
      destruct (occurrences mac seen =? 0) eqn:E; [apply Z.eqb_eq in E; lia|reflexivity]. }
    assert (Hocc : forall k, occurrences k (seen ++ [record]) =
                             occurrences k seen + if py_eqb mac k then 1 else 0).
    { intros k. rewrite occurrences_app, occurrences_one. unfold has_mac.
      rewrite Hget. reflexivity. }
    assert (Hfirst : forall k, first_occurrence k (seen ++ [record]) =
                               match first_occurrence k seen with
                               | Some r => Some r
                               | None => if py_eqb mac k then Some record else None
                               end).
    { intros k. rewrite first_occurrence_app.
      destruct (first_occurrence k seen); [reflexivity|].
      unfold first_occurrence, has_mac. simpl. rewrite Hget. reflexivity. }
    pose proof (occurrences_nonneg mac seen) as Hnn.
    split.
    + intros k Hk'. rewrite dict_get_set by assumption. rewrite Hocc.
      destruct (py_eqb mac k) eqn:E.
      * rewrite <- (occurrences_congr mac k seen E), <- Hold.
        destruct (old + 1 =? 0) eqn:E0; [apply Z.eqb_eq in E0; lia|reflexivity].
      * rewrite Z.add_0_r. apply Hc; assumption.
    + intros k Hk'. rewrite Hfirst.
      pose proof (Hl mac Ht) as Hlm. pose proof (Hl k Hk') as Hlk.
      destruct (dict_contains mac_locations mac) eqn:Hcon; unfold dict_contains in Hcon.
      * destruct (first_occurrence k seen) as [r|] eqn:Fk; [exact Hlk|].
        destruct (py_eqb mac k) eqn:E; [|exact Hlk].
        rewrite (first_occurrence_congr mac k seen E), Fk in Hlm.
        rewrite Hlm in Hcon. discriminate.
      * rewrite dict_get_set by assumption.
        destruct (py_eqb mac k) eqn:E.
        -- rewrite <- (first_occurrence_congr mac k seen E).
           destruct (first_occurrence mac seen) as [r|] eqn:Fm.
           ++ destruct Hlm as (l & _ & Hl'). rewrite Hl' in Hcon. discriminate.
           ++ exists location. auto.
        -- destruct (first_occurrence k seen); exact Hlk.
    + rewrite keys_dict_set.
      destruct (dict_contains mac_counts mac) eqn:Hcon; [assumption|].
      apply distinct_keys_snoc; [assumption|]. apply dict_get_None_keys.
      unfold dict_contains in Hcon.
      destruct (dict_get mac_counts mac); [discriminate|reflexivity].
    + intros k c Hin. apply In_dict_set in Hin; [|assumption].
      destruct Hin as [[Hin E]|[(-> & E & c0 & Hin)|(-> & -> & Hnone)]].
      * destruct (Hi k c Hin) as (H1 & H2 & r & H3 & H4).
        rewrite Hocc, Hfirst, H3. rewrite py_eqb_sym in E. rewrite E.
        split; [assumption|]. split; [lia|]. eauto.
      * destruct (Hi k c0 Hin) as (H1 & H2 & r & H3 & H4).
        rewrite Hocc, Hfirst, H3. rewrite py_eqb_sym in E. rewrite E.
        split; [assumption|]. split; [|eauto].
        rewrite <- (occurrences_congr mac k seen E). lia.
      * rewrite Hocc, Hfirst. rewrite (py_eqb_refl mac Hh).
        split; [assumption|]. split; [lia|].
        assert (Hf : first_occurrence mac seen = None).
        { apply occurrences_zero_iff. specialize (Hc mac Ht). rewrite Hnone in Hc.
          destruct (occurrences mac seen =? 0) eqn:E0;
            [apply Z.eqb_eq in E0; assumption|discriminate]. }
        rewrite Hf. eauto.
Qed.

Lemma counting_loop_trace (items : list json) (st : dict Z * dict json) :
  trace_of (for_each items count_record st) = [].
Proof.
  revert st. induction items as [|record items IH]; intros [mac_counts mac_locations];
    cbn [for_each]; [reflexivity|].
  rewrite trace_of_bind.
  destruct (count_record_cases mac_counts mac_locations record) as [-> _].
  rewrite app_nil_l.
  destruct (result_of (count_record (mac_counts, mac_locations) record)); auto.
Qed.

Lemma counting_loop (items seen : list json) (st st' : dict Z * dict json) :
  tables_ok seen (fst st) (snd st) ->
  result_of (for_each items count_record st) = Returns st' ->
  tables_ok (seen ++ items) (fst st') (snd st').
Proof.
  revert seen st. induction items as [|record items IH]; intros seen st Hst;
    cbn [for_each].
  - intros H. inversion H; subst. rewrite app_nil_r. assumption.
  - rewrite result_of_bind.
    destruct (result_of (count_record st record)) as [st1| |] eqn:Hstep;
      try discriminate.
    intros H. replace (seen ++ record :: items) with ((seen ++ [record]) ++ items)
      by (rewrite <- app_assoc; reflexivity).
    apply (IH (seen ++ [record]) st1); [|assumption].
    destruct st as [mac_counts mac_locations].
    eapply count_record_tables; eassumption.
Qed.

(** On records that are dicts with a usable ['mac'], the loop returns. *)
Lemma counting_loop_total (items : list json) (st : dict Z * dict json) :
  Forall (fun record => record_ok record = true) items ->
  exists st', result_of (for_each items count_record st) = Returns st'.
Proof.
  intros Hok. revert st.
  induction Hok as [|record items Hrec _ IH]; intros st; cbn [for_each].
  - eexists. reflexivity.
  - rewrite result_of_bind.
    assert (Hstep : exists st1, result_of (count_record st record) = Returns st1).
    { destruct st as [mac_counts mac_locations]. unfold count_record.
      unfold record_ok in Hrec.
      destruct record as [| | | | | |fields]; simpl in *; try discriminate.
      set (mac := match fields_get fields "mac" with Some v => v | None => JNull end) in *.
      destruct (truthy mac); simpl in *; [|eauto].
      unfold hashable in Hrec. unfold defaultdict_incr.
      destruct (py_hash mac) as [[]|]; [|discriminate]. simpl.
      destruct (dict_contains mac_locations mac); simpl; eauto. }
    destruct Hstep as [st1 ->]. apply IH.
Qed.

(** Conversely, a loop that returned has met such records only. *)
Lemma counting_loop_records (items : list json) (st st' : dict Z * dict json) :
  result_of (for_each items count_record st) = Returns st' ->
  Forall (fun record => record_ok record = true) items.
Proof.
  revert st. induction items as [|record items IH]; intros st; cbn [for_each];
    [constructor|].
  rewrite result_of_bind.
  destruct (result_of (count_record st record)) as [st1| |] eqn:Hstep; try discriminate.
  intros H. constructor; [|eapply IH; eassumption].
  destruct st as [mac_counts mac_locations].
  destruct (count_record_cases mac_counts mac_locations record) as [_ Hcases].
  destruct (Hcases st1 Hstep) as (mac & Hget & [[Ht _]|(Ht & Hh & _)]);
    unfold record_ok; rewrite Hget.
  - rewrite Ht. reflexivity.
  - rewrite Hh. apply orb_true_r.
Qed.

(** * The reporting loop *)

Lemma reporting_loop (mac_locations : dict json) (mac_counts : dict Z)
  (missing_checkins : list (json * json)) :
  (forall k c, In (k, c) mac_counts -> exists l, dict_get mac_locations k = Some l) ->
  result_of (for_each mac_counts (report_mac MIN_CHECKINS mac_locations) missing_checkins)
  = Returns (missing_checkins ++ flat_map (missing_entry MIN_CHECKINS mac_locations) mac_counts).
Proof.
  revert missing_checkins.
  induction mac_counts as [|[mac count] mac_counts IH]; intros missing_checkins Hin;
    cbn [for_each flat_map].
  - rewrite app_nil_r. reflexivity.
  - rewrite result_of_bind. unfold report_mac at 1.
    destruct (Hin mac count (or_introl eq_refl)) as [l Hl].
    unfold logger_info. rewrite bind_emit. unfold result_of at 1. simpl snd.
    unfold missing_entry at 1. simpl fst. simpl snd.
    destruct (count <? MIN_CHECKINS).
    + unfold dict_getitem. rewrite Hl. rewrite bind_lift_Ok. simpl.
      rewrite IH by (intros; eapply Hin; right; eassumption).
      rewrite <- app_assoc. reflexivity.
    + simpl. rewrite IH by (intros; eapply Hin; right; eassumption).
      reflexivity.
Qed.

(** The reporting loop only logs. *)
Lemma reporting_loop_trace (mac_locations : dict json) (mac_counts : dict Z)
  (missing_checkins : list (json * json)) :
  Forall (fun ev => exists msg, ev = Log INFO msg)
    (trace_of (for_each mac_counts (report_mac MIN_CHECKINS mac_locations) missing_checkins)).
Proof.
  revert missing_checkins.
  induction mac_counts as [|[mac count] mac_counts IH]; intros missing_checkins;
    cbn [for_each].
  - constructor.
  - rewrite trace_of_bind. apply Forall_app. split.
    + unfold report_mac, logger_info. rewrite bind_emit. simpl.
      constructor; [eauto|].
      destruct (count <? MIN_CHECKINS); simpl; [|constructor].
      rewrite trace_of_bind. unfold dict_getitem.
      destruct (dict_get mac_locations mac); simpl; constructor.
    + destruct (result_of _); auto.
Qed.

Lemma entries_of_app (k : json) (a b : list (json * json)) :
  entries_of k (a ++ b) = entries_of k a ++ entries_of k b.
Proof. apply filter_app. Qed.

Lemma entries_none (mac_locations : dict json) (mac_counts : dict Z) (k : json) :
  (forall k1 c1, In (k1, c1) mac_counts -> py_eqb k1 k = true ->
                 (c1 <? MIN_CHECKINS) = false) ->
  entries_of k (flat_map (missing_entry MIN_CHECKINS mac_locations) mac_counts) = [].
Proof.
  induction mac_counts as [|[k1 c1] mac_counts IH]; intros H; cbn [flat_map];
    [reflexivity|].
  rewrite entries_of_app, IH by (intros; eapply H; [right|]; eassumption).
  rewrite app_nil_r. unfold missing_entry. cbn [fst snd].
  destruct (c1 <? MIN_CHECKINS) eqn:E; [|reflexivity].
  destruct (dict_get mac_locations k1); [|reflexivity].
  unfold entries_of. cbn [filter fst].
  destruct (py_eqb k1 k) eqn:E1; [|reflexivity].
  rewrite (H k1 c1 (or_introl eq_refl) E1) in E. discriminate.
Qed.

Lemma entries_one (mac_locations : dict json) (mac_counts : dict Z)
  (k k0 : json) (c0 : Z) (l : json) :
  distinct_keys (map fst mac_counts) ->
  In (k0, c0) mac_counts -> py_eqb k0 k = true ->
  (c0 <? MIN_CHECKINS) = true -> dict_get mac_locations k0 = Some l ->
  entries_of k (flat_map (missing_entry MIN_CHECKINS mac_locations) mac_counts) = [(k0, l)].
Proof.
  intros Hd Hin Hk Hc Hl.
  induction mac_counts as [|[k1 c1] mac_counts IH]; [contradiction|].
  cbn [flat_map map fst] in *. destruct Hd as [Hk1 Hd]. rewrite entries_of_app.
  destruct Hin as [Heq|Hin].
  - inversion Heq; subst k1 c1. clear Heq.
    rewrite entries_none.
    + unfold missing_entry. cbn [fst snd]. rewrite Hc, Hl.
      unfold entries_of. cbn [filter fst]. rewrite Hk. reflexivity.
    + intros k2 c2 Hin2 Hk2. exfalso.
      assert (Hf : py_eqb k0 k2 = false)
        by (apply Hk1; apply (in_map fst) in Hin2; exact Hin2).
      rewrite py_eqb_sym in Hk2. rewrite (py_eqb_trans k0 k k2 Hk Hk2) in Hf.
      discriminate.
  - rewrite (IH Hd Hin).
    assert (Hf : py_eqb k1 k0 = false)
      by (apply Hk1; apply (in_map fst) in Hin; exact Hin).
    unfold missing_entry. cbn [fst snd].
    destruct (c1 <? MIN_CHECKINS); [|reflexivity].
    destruct (dict_get mac_locations k1); [|reflexivity].
    unfold entries_of. cbn [filter fst].
    destruct (py_eqb k1 k) eqn:E1; [|reflexivity].
    rewrite py_eqb_sym in Hk. rewrite (py_eqb_trans k1 k k0 E1 Hk) in Hf.
    discriminate.
Qed.

(** * The analyzer on decoded text *)

Lemma decoded_not_blank (json_output : string) (records : json) :
  json_loads json_output = Ok records -> (strip json_output =? "")%string = false.
Proof.
  intros H. destruct (strip json_output =? "")%string eqn:E; [|reflexivity].
  apply String.eqb_eq in E. destruct (json_loads_blank json_output E) as [msg Hm].
  congruence.
Qed.

Lemma analyze_decoded (json_output : string) (records : json) (items : list json) :
  json_loads json_output = Ok records -> py_iter records = Ok items ->
  analyze_sensor_data MIN_CHECKINS json_output =
  ('(mac_counts, mac_locations) <- for_each items count_record ([], []) ;;
   for_each mac_counts (report_mac MIN_CHECKINS mac_locations) []).
Proof.
  intros Hl Hi. unfold analyze_sensor_data.
  rewrite (decoded_not_blank _ _ Hl), Hl, Hi, bind_lift_Ok. reflexivity.
Qed.

(** When the counting loop returns, so does the analyzer, with the entries
    of the counts below [MIN_CHECKINS], in the order of [mac_counts]. *)
Lemma analyze_counted (json_output : string) (records : json) (items : list json)
  (mac_counts : dict Z) (mac_locations : dict json) :
  json_loads json_output = Ok records -> py_iter records = Ok items ->
  result_of (for_each items count_record ([], [])) = Returns (mac_counts, mac_locations) ->
  tables_ok items mac_counts mac_locations
  /\ result_of (analyze_sensor_data MIN_CHECKINS json_output)
     = Returns (flat_map (missing_entry MIN_CHECKINS mac_locations) mac_counts).
Proof.
  intros Hl Hi Hloop.
  assert (Ht : tables_ok items mac_counts mac_locations).
  { apply (counting_loop items [] ([], []) (mac_counts, mac_locations));
      [apply tables_ok_nil|assumption]. }
  split; [assumption|].
  rewrite (analyze_decoded _ _ _ Hl Hi), result_of_bind, Hloop.
  rewrite reporting_loop; [reflexivity|].
  intros k c Hin. destruct Ht as [_ Hlocs _ Hitems].
  destruct (Hitems k c Hin) as (Hk & _ & r & Hr & _).
  specialize (Hlocs k Hk). rewrite Hr in Hlocs.
  destruct Hlocs as (l & _ & Hget). eauto.
Qed.

(** An analyzer that returned has run the counting loop to its end. *)
Lemma analyze_returned (json_output : string) (records : json) (items : list json)
  (out : list (json * json)) :
  json_loads json_output = Ok records -> py_iter records = Ok items ->
  result_of (analyze_sensor_data MIN_CHECKINS json_output) = Returns out ->
  exists mac_counts mac_locations,
    result_of (for_each items count_record ([], [])) = Returns (mac_counts, mac_locations)
    /\ tables_ok items mac_counts mac_locations
    /\ out = flat_map (missing_entry MIN_CHECKINS mac_locations) mac_counts.
Proof.
  intros Hl Hi Hout.
  destruct (result_of (for_each items count_record ([], [])))
    as [[mac_counts mac_locations]|e|c] eqn:Hloop.
  - destruct (analyze_counted _ _ _ _ _ Hl Hi Hloop) as [Ht Hres].
    exists mac_counts, mac_locations.
    split; [reflexivity|]. split; [exact Ht|].
    rewrite Hres in Hout. inversion Hout. reflexivity.
  - rewrite (analyze_decoded _ _ _ Hl Hi), result_of_bind, Hloop in Hout. discriminate.
  - rewrite (analyze_decoded _ _ _ Hl Hi), result_of_bind, Hloop in Hout. discriminate.
Qed.

End Analyzer.

(** * The claims about the analyzer *)

(** C1. For every input to the analyzer and every identifier [mac] of the
    parsed records whose occurrence count is at least [MIN_CHECKINS], the
    identifier is not in the analyzer's output: whenever the analyzer
    returns a list, no entry of the list carries an identifier equal to
    [mac].  (The analyzer does return a list when every record is a dict
    with a usable ['mac'].) *)
Theorem C1_enough_checkins_not_reported :
  forall (lib : Library) (MIN_CHECKINS : Z) (json_output : string)
         (records : json) (items : list json) (mac : json),
    json_loads json_output = Ok records ->
    py_iter records = Ok items ->
    MIN_CHECKINS <= occurrences mac items ->
    (Forall (fun record => record_ok record = true) items ->
     exists out,
       result_of (sensors_check.analyze_sensor_data MIN_CHECKINS json_output) = Returns out)
    /\ (forall out,
          result_of (sensors_check.analyze_sensor_data MIN_CHECKINS json_output) = Returns out ->
          entries_of mac out = [] /\ forall location, ~ In (mac, location) out).
Proof.
  intros lib MIN_CHECKINS json_output records items mac Hl Hi Hcount. split.
  - intros Hok.
    destruct (counting_loop_total items ([], []) Hok) as [[mac_counts mac_locations] Hloop].
    destruct (analyze_counted MIN_CHECKINS _ _ _ _ _ Hl Hi Hloop) as [_ Hres]. eauto.
  - intros out Hout.
    destruct (analyze_returned MIN_CHECKINS _ _ _ _ Hl Hi Hout)
      as (mac_counts & mac_locations & _ & Ht & ->).
    assert (Hnone : entries_of mac (flat_map (missing_entry MIN_CHECKINS mac_locations) mac_counts) = []).
    { apply entries_none. intros k1 c1 Hin Hk.
      destruct (items_ok _ _ _ Ht k1 c1 Hin) as (_ & -> & _).
      rewrite (occurrences_congr k1 mac items Hk). apply Z.ltb_ge. exact Hcount. }
    split; [exact Hnone|].
    intros location Hin.
    assert (Hin' : In (mac, location)
                      (entries_of mac (flat_map (missing_entry MIN_CHECKINS mac_locations) mac_counts))).
    { apply filter_In. split; [exact Hin|]. cbn [fst].
      apply in_flat_map in Hin. destruct Hin as ([k c] & Hkc & Hentry).
      unfold missing_entry in Hentry. cbn [fst snd] in Hentry.
      destruct (c <? MIN_CHECKINS); [|contradiction].
      destruct (dict_get mac_locations k); [|contradiction].
      destruct Hentry as [Heq|[]]. inversion Heq; subst.
      destruct (items_ok _ _ _ Ht mac c Hkc) as (_ & _ & r & Hr & Hget).
      apply first_occurrence_has_mac in Hr. destruct Hr as [Hr _].
      unfold has_mac in Hr. rewrite Hget in Hr. exact Hr. }
    rewrite Hnone in Hin'. contradiction.
Qed.

(** C2 (amended). For every input that decodes to records the counting
    loop can take (dicts whose ['mac'] is absent, falsy or hashable) and
    every truthy identifier [mac] (not [None], not empty) counted at least
    once and fewer than [MIN_CHECKINS] times, the analyzer returns a list
    in which exactly one entry carries an identifier equal to [mac]: the
    ['mac'] of the first record with that identifier, paired with that
    record's location. *)
Theorem C2_below_minimum_reported_once :
  forall (lib : Library) (MIN_CHECKINS : Z) (json_output : string)
         (records : json) (items : list json) (mac : json),
    json_loads json_output = Ok records ->
    py_iter records = Ok items ->
    Forall (fun record => record_ok record = true) items ->
    truthy mac = true ->
    0 < occurrences mac items < MIN_CHECKINS ->
    exists first mac0 location out,
      first_occurrence mac items = Some first
      /\ py_get first "mac" JNull = Ok mac0
      /\ py_get first "location" (JStr "unknown location") = Ok location
      /\ result_of (sensors_check.analyze_sensor_data MIN_CHECKINS json_output) = Returns out
      /\ entries_of mac out = [(mac0, location)].
Proof.
  intros lib MIN_CHECKINS json_output records items mac Hl Hi Hok Ht [Hpos Hlt].
  destruct (counting_loop_total items ([], []) Hok) as [[mac_counts mac_locations] Hloop].
  destruct (analyze_counted MIN_CHECKINS _ _ _ _ _ Hl Hi Hloop) as [Htab Hres].
  pose proof (counts_ok _ _ _ Htab mac Ht) as Hget.
  destruct (occurrences mac items =? 0) eqn:E0; [apply Z.eqb_eq in E0; lia|].
  destruct (dict_get_Some_In _ _ _ Hget) as (mac0 & Hin & Heq).
  destruct (items_ok _ _ _ Htab mac0 _ Hin) as (Ht0 & _ & first & Hfirst & Hmac0).
  pose proof (locations_ok _ _ _ Htab mac0 Ht0) as Hloc. rewrite Hfirst in Hloc.
  destruct Hloc as (location & Hlocation & Hlget).
  exists first, mac0, location, (flat_map (missing_entry MIN_CHECKINS mac_locations) mac_counts).
  split; [rewrite <- (first_occurrence_congr mac0 mac items Heq); exact Hfirst|].
  split; [exact Hmac0|]. split; [exact Hlocation|]. split; [exact Hres|].
  eapply entries_one; try eassumption.
  - exact (keys_ok _ _ _ Htab).
  - apply Z.ltb_lt. exact Hlt.
Qed.


(** C9. The analyzer is deterministic: two runs on the same text with the
    same [MIN_CHECKINS], in which [json.loads] decodes that text alike,
    end alike, with the same output list in the same order. *)
Theorem C9_analyzer_deterministic :
  forall (lib1 lib2 : Library) (MIN1 MIN2 : Z) (json_output1 json_output2 : string),
    json_output1 = json_output2 ->
    MIN1 = MIN2 ->
    @json_loads lib1 json_output1 = @json_loads lib2 json_output2 ->
    result_of (@sensors_check.analyze_sensor_data lib1 MIN1 json_output1)
    = result_of (@sensors_check.analyze_sensor_data lib2 MIN2 json_output2).
Proof.
  intros lib1 lib2 MIN ? s ? <- <- Hl.
  destruct (@json_loads lib2 s) as [records|e] eqn:H2.
  - destruct (py_iter records) as [items|e] eqn:Hi.
    + destruct (result_of (for_each items sensors_check.count_record ([], [])))
        as [[mac_counts mac_locations]|e|c] eqn:Hloop.
      * destruct (@analyze_counted lib1 MIN _ _ _ _ _ Hl Hi Hloop) as [_ ->].
        destruct (@analyze_counted lib2 MIN _ _ _ _ _ H2 Hi Hloop) as [_ ->].
        reflexivity.
      * rewrite (@analyze_decoded lib1 MIN _ _ _ Hl Hi),
          (@analyze_decoded lib2 MIN _ _ _ H2 Hi), !result_of_bind, Hloop.
        reflexivity.
      * rewrite (@analyze_decoded lib1 MIN _ _ _ Hl Hi),
          (@analyze_decoded lib2 MIN _ _ _ H2 Hi), !result_of_bind, Hloop.
        reflexivity.
    + unfold sensors_check.analyze_sensor_data.
      rewrite (@decoded_not_blank lib1 _ _ Hl), Hl, H2, Hi. reflexivity.
  - unfold sensors_check.analyze_sensor_data. rewrite Hl, H2.
    destruct (strip s =? "")%string; [reflexivity|].
    destruct e; reflexivity.
Qed.

(** C1 at the sample with three check-ins of A and one of B, minimum 2. *)
Lemma C1_witness :
  entries_of (JStr "A") [(JStr "B", JStr "attic")] = []
  /\ forall location, ~ In (JStr "A", location) [(JStr "B", JStr "attic")].
Proof.
  apply (proj2 (C1_enough_checkins_not_reported sample_library 2 doc_mixed
                  (JArr [wine "A" "wine"; wine "A" "wine"; wine "B" "attic"; wine "A" "wine"])
                  [wine "A" "wine"; wine "A" "wine"; wine "B" "attic"; wine "A" "wine"]
                  (JStr "A") eq_refl eq_refl ltac:(vm_compute; discriminate))).
  reflexivity.
Defined.

(** C2 as worded fails on a record whose identifier is the empty string:
    the identifier is counted once, below the minimum 2, and the output
    is empty. *)
Lemma C2_counterexample :
  ~ below_minimum_reported_once sample_library 2 doc_empty_mac.
Proof.
  intros H.
  destruct (H (JArr [wine "" "cellar"]) [wine "" "cellar"] (JStr "")
              eq_refl eq_refl ltac:(vm_compute; split; reflexivity))
    as (first & mac0 & location & out & _ & _ & _ & Hout & Hentries).
  vm_compute in Hout. inversion Hout; subst out. discriminate Hentries.
Qed.

(** C2 (amended) at the sample with three check-ins of A and one of B. *)
Lemma C2_witness :
  exists first mac0 location out,
    first_occurrence (JStr "B")
      [wine "A" "wine"; wine "A" "wine"; wine "B" "attic"; wine "A" "wine"] = Some first
    /\ py_get first "mac" JNull = Ok mac0
    /\ py_get first "location" (JStr "unknown location") = Ok location
    /\ result_of (sensors_check.analyze_sensor_data (lib := sample_library) 2 doc_mixed)
       = Returns out
    /\ entries_of (JStr "B") out = [(mac0, location)].
Proof.
  apply (C2_below_minimum_reported_once sample_library 2 doc_mixed
           (JArr [wine "A" "wine"; wine "A" "wine"; wine "B" "attic"; wine "A" "wine"])
           [wine "A" "wine"; wine "A" "wine"; wine "B" "attic"; wine "A" "wine"]
           (JStr "B") eq_refl eq_refl).
  - repeat constructor.
  - reflexivity.
  - vm_compute. split; reflexivity.
Defined.



(** C9 at two runs on the sample with three check-ins of A and one of B,
    under two libraries that decode alike and render differently. *)
Lemma C9_witness :
  result_of (sensors_check.analyze_sensor_data (lib := sample_library) 2 doc_mixed)
  = result_of (sensors_check.analyze_sensor_data (lib := terse_library) 2 doc_mixed).
Proof.
  apply (C9_analyzer_deterministic sample_library terse_library 2 2 doc_mixed doc_mixed);
    reflexivity.
Defined.

(** * Records that are skipped *)

Lemma bind_ext {A B} (m : M A) (k1 k2 : A -> M B) :
  (forall a, k1 a = k2 a) -> bind m k1 = bind m k2.
Proof.
  intros H. destruct m as [t [a| |]]; simpl; try reflexivity. rewrite H. reflexivity.
Qed.

(** A record whose ['mac'] is falsy leaves both tables as they are. *)
Lemma count_record_falsy (st : dict Z * dict json) (record mac : json) :
  py_get record "mac" JNull = Ok mac -> truthy mac = false ->
  sensors_check.count_record st record = ret st.
Proof.
  intros Hget Ht. destruct st as [mac_counts mac_locations].
  unfold sensors_check.count_record. rewrite Hget, bind_lift_Ok, Ht. reflexivity.
Qed.

Lemma for_each_skip {A S} (body : S -> A -> M S) (pre post : list A) (x : A) :
  (forall st, body st x = ret st) ->
  forall st, for_each (pre ++ x :: post) body st = for_each (pre ++ post) body st.
Proof.
  intros Hx. induction pre as [|y pre IH]; intros st; cbn [app for_each].
  - rewrite Hx, bind_ret. reflexivity.
  - apply bind_ext. intros st'. apply IH.
Qed.

(** C10. A parsed record whose ['mac'] field is absent, null or the empty
    string is skipped entirely: the loop body leaves [mac_counts] and
    [mac_locations] unchanged, the record counts for no truthy identifier,
    and the analyzer runs exactly as on the input without that record.
    And a counted record without a ['location'] field that is the first
    occurrence of its identifier gives that identifier the location
    ["unknown location"] in the output. *)
Theorem C10_records_without_mac_skipped :
  forall (lib : Library) (MIN_CHECKINS : Z),
    (forall fields : list (string * json),
        fields_get fields "mac" = None
        \/ fields_get fields "mac" = Some JNull
        \/ fields_get fields "mac" = Some (JStr "") ->
        (forall st, sensors_check.count_record st (JObj fields) = ret st)
        /\ (forall mac, truthy mac = true -> has_mac mac (JObj fields) = false)
        /\ (forall (json_output json_output' : string) (records records' : json)
                   (pre post : list json),
               json_loads json_output = Ok records ->
               py_iter records = Ok (pre ++ JObj fields :: post) ->
               json_loads json_output' = Ok records' ->
               py_iter records' = Ok (pre ++ post) ->
               sensors_check.analyze_sensor_data MIN_CHECKINS json_output
               = sensors_check.analyze_sensor_data MIN_CHECKINS json_output'))
    /\ (forall (json_output : string) (records : json) (pre post : list json)
               (fields : list (string * json)) (mac : json),
           json_loads json_output = Ok records ->
           py_iter records = Ok (pre ++ JObj fields :: post) ->
           Forall (fun record => record_ok record = true) (pre ++ JObj fields :: post) ->
           fields_get fields "mac" = Some mac ->
           truthy mac = true ->
           fields_get fields "location" = None ->
           occurrences mac pre = 0 ->
           exists out,
             result_of (sensors_check.analyze_sensor_data MIN_CHECKINS json_output)
             = Returns out
             /\ entries_of mac out =
                if occurrences mac (pre ++ JObj fields :: post) <? MIN_CHECKINS
                then [(mac, JStr "unknown location")]
                else []).
Proof.
  intros lib MIN_CHECKINS. split.
  - intros fields Hmac.
    assert (Hfalsy : exists mac, py_get (JObj fields) "mac" JNull = Ok mac
                                 /\ truthy mac = false).
    { cbn [py_get]. destruct Hmac as [->|[->| ->]]; eexists; split; reflexivity. }
    destruct Hfalsy as (mac0 & Hget & Ht0).
    split; [|split].
    + intros st. eapply count_record_falsy; eassumption.
    + intros mac Ht. unfold has_mac. rewrite Hget.
      destruct (py_eqb mac0 mac) eqn:E; [|reflexivity].
      apply py_eqb_truthy in E. congruence.
    + intros json_output json_output' records records' pre post Hl Hi Hl' Hi'.
      rewrite (analyze_decoded MIN_CHECKINS _ _ _ Hl Hi),
        (analyze_decoded MIN_CHECKINS _ _ _ Hl' Hi').
      rewrite for_each_skip; [reflexivity|].
      intros st. eapply count_record_falsy; eassumption.
  - intros json_output records pre post fields mac Hl Hi Hok Hmac Ht Hloc Hfirst0.
    set (items := pre ++ JObj fields :: post) in *.
    destruct (counting_loop_total items ([], []) Hok) as [[mac_counts mac_locations] Hloop].
    destruct (analyze_counted MIN_CHECKINS _ _ _ _ _ Hl Hi Hloop) as [Htab Hres].
    exists (flat_map (missing_entry MIN_CHECKINS mac_locations) mac_counts).
    split; [exact Hres|].
    assert (Hget : py_get (JObj fields) "mac" JNull = Ok mac)
      by (cbn [py_get]; rewrite Hmac; reflexivity).
    assert (Hh : hashable mac = true).
    { unfold items in Hok. apply Forall_app in Hok. destruct Hok as [_ Hok].
      inversion Hok as [|? ? Hrec _]; subst. unfold record_ok in Hrec.
      rewrite Hget, Ht in Hrec. exact Hrec. }
    assert (Hrecord : first_occurrence mac items = Some (JObj fields)).
    { unfold items. rewrite first_occurrence_app.
      apply occurrences_zero_iff in Hfirst0. rewrite Hfirst0.
      unfold first_occurrence, has_mac. cbn [find]. rewrite Hget, (py_eqb_refl mac Hh).
      reflexivity. }
    destruct (occurrences mac items <? MIN_CHECKINS) eqn:Hlt.
    + assert (Hpos : occurrences mac items <> 0).
      { intros H0. apply occurrences_zero_iff in H0. congruence. }
      pose proof (counts_ok _ _ _ Htab mac Ht) as Hc.
      destruct (occurrences mac items =? 0) eqn:E0; [apply Z.eqb_eq in E0; contradiction|].
      destruct (dict_get_Some_In _ _ _ Hc) as (mac0 & Hin & Heq).
      destruct (items_ok _ _ _ Htab mac0 _ Hin) as (Ht0 & _ & first & Hf & Hmac0).
      rewrite (first_occurrence_congr mac0 mac items Heq), Hrecord in Hf.
      inversion Hf; subst first. rewrite Hget in Hmac0. inversion Hmac0; subst mac0.
      pose proof (locations_ok _ _ _ Htab mac Ht) as Hl0. rewrite Hrecord in Hl0.
      destruct Hl0 as (l & Hl1 & Hl2). cbn [py_get] in Hl1. rewrite Hloc in Hl1.
      inversion Hl1; subst l.
      eapply entries_one; try eassumption. exact (keys_ok _ _ _ Htab).
    + apply entries_none. intros k1 c1 Hin Hk.
      destruct (items_ok _ _ _ Htab k1 c1 Hin) as (_ & -> & _).
      rewrite (occurrences_congr k1 mac items Hk). exact Hlt.
Qed.

(** C10 at the sample whose middle record has no ['mac'] and whose last
    record has no ['location']. *)
Lemma C10_witness :
  sensors_check.analyze_sensor_data (lib := sample_library) 2 doc_partial
  = sensors_check.analyze_sensor_data (lib := sample_library) 2 doc_partial_less
  /\ exists out,
      result_of (sensors_check.analyze_sensor_data (lib := sample_library) 2 doc_partial)
      = Returns out
      /\ entries_of (JStr "B") out = [(JStr "B", JStr "unknown location")].
Proof.
  split.
  - apply (proj2 (proj2 (proj1 (C10_records_without_mac_skipped sample_library 2)
                           [("location", JStr "attic")] (or_introl eq_refl)))
             doc_partial doc_partial_less
             (JArr [wine "A" "wine"; JObj [("location", JStr "attic")]; JObj [("mac", JStr "B")]])
             (JArr [wine "A" "wine"; JObj [("mac", JStr "B")]])
             [wine "A" "wine"] [JObj [("mac", JStr "B")]]);
      reflexivity.
  - apply (proj2 (C10_records_without_mac_skipped sample_library 2)
             doc_partial
             (JArr [wine "A" "wine"; JObj [("location", JStr "attic")]; JObj [("mac", JStr "B")]])
             [wine "A" "wine"; JObj [("location", JStr "attic")]] []
             [("mac", JStr "B")] (JStr "B"));
      try reflexivity.
    repeat constructor.
Defined.

(** * The sensor workflow *)

Lemma try_excepts_returns {A} (m : M A) (a : A)
  (clauses : list ((error -> bool) * (error -> M A))) :
  result_of m = Returns a -> try_excepts m clauses = m.
Proof. destruct m as [t r]. simpl. intros ->. reflexivity. Qed.

Lemma posts_app (t1 t2 : list event) : posts (t1 ++ t2) = posts t1 ++ posts t2.
Proof.
  induction t1 as [|ev t1 IH]; simpl; [reflexivity|].
  destruct ev; simpl; rewrite IH; reflexivity.
Qed.

Lemma connects_app (t1 t2 : list event) :
  connects (t1 ++ t2) = (connects t1 + connects t2)%nat.
Proof.
  induction t1 as [|ev t1 IH]; simpl; [reflexivity|].
  destruct ev; simpl; rewrite IH; reflexivity.
Qed.

Section SensorWorkflow.

Context {lib : Library}.
Variables (MINUTES_AGO MIN_CHECKINS : Z).
Variables (NTFY_HOST NTFY_SENSOR_TOPIC NTFY_USERNAME NTFY_PASSWORD : option string).
Variables (SSH_HOST SSH_USERNAME DATABASE_PATH : option string).
Variable w : sensors_check.world.

(** [send_notification] never raises, and what it posts carries the title,
    the priority and the message it was called with. *)
Lemma send_notification_result (title message : string) (emojis : list string)
  (priority : string) :
  result_of (sensors_check.send_notification NTFY_HOST NTFY_SENSOR_TOPIC NTFY_USERNAME
               NTFY_PASSWORD w title message emojis priority) = Returns tt.
Proof.
  unfold sensors_check.send_notification.
  destruct (negb (env_truthy NTFY_HOST) || negb (env_truthy NTFY_SENSOR_TOPIC));
    [reflexivity|].
  destruct (env_truthy NTFY_USERNAME && env_truthy NTFY_PASSWORD).
  - destruct (BasicAuth NTFY_USERNAME NTFY_PASSWORD) as [c|e]; [|destruct e; reflexivity].
    cbn. destruct (sensors_check.http_post w _) as [response|e]; [|destruct e; reflexivity].
    cbn. unfold raise_for_status.
    destruct ((200 <=? status_code response) && (status_code response <? 300));
      reflexivity.
  - cbn. destruct (sensors_check.http_post w _) as [response|e]; [|destruct e; reflexivity].
    cbn. unfold raise_for_status.
    destruct ((200 <=? status_code response) && (status_code response <? 300));
      reflexivity.
Qed.

Lemma send_notification_posts (title message : string) (emojis : list string)
  (priority : string) (req : http_request) :
  In req (posts (trace_of (sensors_check.send_notification NTFY_HOST NTFY_SENSOR_TOPIC
                             NTFY_USERNAME NTFY_PASSWORD w title message emojis priority))) ->
  header "Title" (headers req) = Some title
  /\ header "Priority" (headers req) = Some priority
  /\ data req = message.
Proof.
  unfold sensors_check.send_notification.
  destruct (negb (env_truthy NTFY_HOST) || negb (env_truthy NTFY_SENSOR_TOPIC));
    [intros []|].
  destruct (env_truthy NTFY_USERNAME && env_truthy NTFY_PASSWORD).
  - destruct (BasicAuth NTFY_USERNAME NTFY_PASSWORD) as [c|e];
      [|destruct e; intros []].
    cbn. destruct (sensors_check.http_post w _) as [response|e].
    + cbn. unfold raise_for_status.
      destruct ((200 <=? status_code response) && (status_code response <? 300));
        cbn; (intros [<-|[]]; repeat split; reflexivity).
    + destruct e; cbn; (intros [<-|[]]; repeat split; reflexivity).
  - cbn. destruct (sensors_check.http_post w _) as [response|e].
    + cbn. unfold raise_for_status.
      destruct ((200 <=? status_code response) && (status_code response <? 300));
        cbn; (intros [<-|[]]; repeat split; reflexivity).
    + destruct e; cbn; (intros [<-|[]]; repeat split; reflexivity).
Qed.

(** The remote query posts nothing and connects once. *)
Lemma execute_sql_query_trace (sql : string) :
  posts (trace_of (sensors_check.execute_sql_query DATABASE_PATH w SSH_HOST SSH_USERNAME sql)) = []
  /\ connects (trace_of (sensors_check.execute_sql_query DATABASE_PATH w SSH_HOST SSH_USERNAME sql))
     = 1%nat.
Proof.
  unfold sensors_check.execute_sql_query, logger_debug. rewrite bind_emit.
  destruct (sensors_check.ssh_connect w SSH_HOST SSH_USERNAME) as [[]|e1].
  - rewrite bind_emit, bind_lift_Ok, bind_emit.
    destruct (sensors_check.ssh_run w _) as [stdout|e2]; [split; reflexivity|].
    destruct e2; split; reflexivity.
  - destruct e1; split; reflexivity.
Qed.

(** A connection error of the remote query is logged where it is caught. *)
Lemma execute_sql_query_connection_error (sql : string) (e : error) :
  result_of (sensors_check.execute_sql_query DATABASE_PATH w SSH_HOST SSH_USERNAME sql)
  = Raises e ->
  is_asyncssh_Error e = true ->
  In (Log ERROR ("SSH connection error: " +++ error_str e))
     (trace_of (sensors_check.execute_sql_query DATABASE_PATH w SSH_HOST SSH_USERNAME sql)).
Proof.
  unfold sensors_check.execute_sql_query, logger_debug. rewrite bind_emit.
  destruct (sensors_check.ssh_connect w SSH_HOST SSH_USERNAME) as [[]|e1].
  - rewrite bind_emit, bind_lift_Ok, bind_emit.
    destruct (sensors_check.ssh_run w _) as [stdout|e2]; [discriminate|].
    destruct e2; cbn; intros H He; inversion H; subst; try discriminate He.
    right. right. right. left. reflexivity.
  - destruct e1; cbn; intros H He; inversion H; subst; try discriminate He.
    right. right. left. reflexivity.
Qed.

Lemma configured_true :
  configured NTFY_HOST NTFY_SENSOR_TOPIC SSH_HOST SSH_USERNAME DATABASE_PATH = true ->
  env_truthy NTFY_HOST = true /\ env_truthy NTFY_SENSOR_TOPIC = true
  /\ env_truthy SSH_HOST = true /\ env_truthy SSH_USERNAME = true
  /\ env_truthy DATABASE_PATH = true.
Proof.
  unfold configured. intros H.
  repeat (apply andb_true_iff in H; destruct H as [H ?]). auto.
Qed.

(** The run when the remote query raises. *)
Lemma sensor_run_query_raises (sql since : string) (e : error) :
  configured NTFY_HOST NTFY_SENSOR_TOPIC SSH_HOST SSH_USERNAME DATABASE_PATH = true ->
  sensors_check.build_query MINUTES_AGO w = ret sql ->
  sensors_check.clock_since w MINUTES_AGO = Ok since ->
  result_of (sensors_check.execute_sql_query DATABASE_PATH w SSH_HOST SSH_USERNAME sql)
  = Raises e ->
  (sensor_run MINUTES_AGO MIN_CHECKINS NTFY_HOST NTFY_SENSOR_TOPIC NTFY_USERNAME
     NTFY_PASSWORD SSH_HOST SSH_USERNAME DATABASE_PATH w) =
  (Log INFO ("Querying for data since: " +++ since)
     :: trace_of (sensors_check.execute_sql_query DATABASE_PATH w SSH_HOST SSH_USERNAME sql)
     ++ [Log ERROR "An unhandled error occurred during script execution."],
   Exits 1).
Proof.
  intros Hc Hq Hs He. apply configured_true in Hc.
  destruct Hc as (E1 & E2 & E3 & E4 & E5).
  unfold sensor_run, sensors_check.main. cbn [filter map fst snd].
  rewrite E1, E2, E3, E4, E5. cbn [negb map fst].
  rewrite Hq, bind_ret, Hs, bind_lift_Ok. unfold logger_info at 1. rewrite bind_emit.
  rewrite (M_eta (sensors_check.execute_sql_query _ _ _ _ _)), He.
  reflexivity.
Qed.

(** The analyzer only logs. *)
Lemma posts_of_logs (t : list event) :
  Forall (fun ev => exists lvl msg, ev = Log lvl msg) t -> posts t = [].
Proof.
  induction 1 as [|ev t (lvl & msg & ->) _ IH]; simpl; auto.
Qed.

Lemma analyze_sensor_data_logs (json_output : string) :
  Forall (fun ev => exists lvl msg, ev = Log lvl msg)
    (trace_of (sensors_check.analyze_sensor_data MIN_CHECKINS json_output)).
Proof.
  unfold sensors_check.analyze_sensor_data.
  destruct (strip json_output =? "")%string; [constructor|].
  destruct (json_loads json_output) as [records|e].
  - rewrite trace_of_bind. destruct (py_iter records) as [items|e]; [|constructor].
    cbn [lift trace_of result_of fst snd app]. rewrite trace_of_bind.
    rewrite counting_loop_trace. cbn [app].
    destruct (result_of (for_each items sensors_check.count_record ([], [])))
      as [[mac_counts mac_locations]| |]; try constructor.
    eapply Forall_impl; [|apply reporting_loop_trace].
    intros ev [msg ->]. eauto.
  - destruct e; repeat constructor. eauto.
Qed.

End SensorWorkflow.

Section SensorNotifier.

Context {lib : Library}.
Variables (NTFY_HOST NTFY_SENSOR_TOPIC NTFY_USERNAME NTFY_PASSWORD : option string).
Variable w : sensors_check.world.
Variables (title message : string) (emojis : list string) (priority : string).

(** The requests of one call: they do not depend on what the server
    answers. *)
Lemma send_notification_requests :
  posts (trace_of (sensors_check.send_notification NTFY_HOST NTFY_SENSOR_TOPIC
                     NTFY_USERNAME NTFY_PASSWORD w title message emojis priority))
  = if env_truthy NTFY_HOST && env_truthy NTFY_SENSOR_TOPIC then
      match (if env_truthy NTFY_USERNAME && env_truthy NTFY_PASSWORD
             then match BasicAuth NTFY_USERNAME NTFY_PASSWORD with
                  | Ok c => Ok (Some c)
                  | Raise e => Raise e
                  end
             else Ok None) with
      | Ok credentials =>
          [ {| url := str_of_env NTFY_HOST +++ "/" +++ str_of_env NTFY_SENSOR_TOPIC;
               auth := credentials;
               data := message;
               headers := [("Title", title); ("Priority", priority)]
                          ++ match emojis with
                             | [] => []
                             | _ => [("Tags", join "," emojis)]
                             end |} ]
      | Raise _ => []
      end
    else [].
Proof.
  unfold sensors_check.send_notification.
  destruct (env_truthy NTFY_HOST), (env_truthy NTFY_SENSOR_TOPIC); cbn [negb orb andb];
    try reflexivity.
  destruct (env_truthy NTFY_USERNAME && env_truthy NTFY_PASSWORD).
  - destruct (BasicAuth NTFY_USERNAME NTFY_PASSWORD) as [c|e]; [|destruct e; reflexivity].
    cbn. destruct (sensors_check.http_post w _) as [response|e]; [|destruct e; reflexivity].
    cbn. unfold raise_for_status.
    destruct ((200 <=? status_code response) && (status_code response <? 300));
      reflexivity.
  - cbn. destruct (sensors_check.http_post w _) as [response|e]; [|destruct e; reflexivity].
    cbn. unfold raise_for_status.
    destruct ((200 <=? status_code response) && (status_code response <? 300));
      reflexivity.
Qed.

(** The notifier talks to the notification server only. *)
Lemma send_notification_no_ssh :
  connects (trace_of (sensors_check.send_notification NTFY_HOST NTFY_SENSOR_TOPIC
                        NTFY_USERNAME NTFY_PASSWORD w title message emojis priority))
  = 0%nat
  /\ commands (trace_of (sensors_check.send_notification NTFY_HOST NTFY_SENSOR_TOPIC
                           NTFY_USERNAME NTFY_PASSWORD w title message emojis priority))
     = [].
Proof.
  unfold sensors_check.send_notification.
  destruct (negb (env_truthy NTFY_HOST) || negb (env_truthy NTFY_SENSOR_TOPIC));
    [split; reflexivity|].
  destruct (env_truthy NTFY_USERNAME && env_truthy NTFY_PASSWORD).
  - destruct (BasicAuth NTFY_USERNAME NTFY_PASSWORD) as [c|e];
      [|destruct e; split; reflexivity].
    cbn. destruct (sensors_check.http_post w _) as [response|e];
      [|destruct e; split; reflexivity].
    cbn. unfold raise_for_status.
    destruct ((200 <=? status_code response) && (status_code response <? 300));
      split; reflexivity.
  - cbn. destruct (sensors_check.http_post w _) as [response|e];
      [|destruct e; split; reflexivity].
    cbn. unfold raise_for_status.
    destruct ((200 <=? status_code response) && (status_code response <? 300));
      split; reflexivity.
Qed.

End SensorNotifier.

(** C6. If a required setting (notification host or topic, remote host or
    user, database path) is missing or empty, the run logs the missing
    names and exits with status 1; it connects nowhere and posts nothing. *)
Theorem C6_missing_configuration_exits :
  forall (lib : Library) (MINUTES_AGO MIN_CHECKINS : Z)
         (NTFY_HOST NTFY_SENSOR_TOPIC NTFY_USERNAME NTFY_PASSWORD : option string)
         (SSH_HOST SSH_USERNAME DATABASE_PATH : option string)
         (w : sensors_check.world),
    configured NTFY_HOST NTFY_SENSOR_TOPIC SSH_HOST SSH_USERNAME DATABASE_PATH = false ->
    (exists msg,
        sensor_run MINUTES_AGO MIN_CHECKINS NTFY_HOST NTFY_SENSOR_TOPIC NTFY_USERNAME
          NTFY_PASSWORD SSH_HOST SSH_USERNAME DATABASE_PATH w
        = ([Log ERROR msg], Exits 1))
    /\ exit_status
         (result_of (sensor_run MINUTES_AGO MIN_CHECKINS NTFY_HOST NTFY_SENSOR_TOPIC
                       NTFY_USERNAME NTFY_PASSWORD SSH_HOST SSH_USERNAME DATABASE_PATH w))
       = 1
    /\ connects
         (trace_of (sensor_run MINUTES_AGO MIN_CHECKINS NTFY_HOST NTFY_SENSOR_TOPIC
                      NTFY_USERNAME NTFY_PASSWORD SSH_HOST SSH_USERNAME DATABASE_PATH w))
       = 0%nat
    /\ posts
         (trace_of (sensor_run MINUTES_AGO MIN_CHECKINS NTFY_HOST NTFY_SENSOR_TOPIC
                      NTFY_USERNAME NTFY_PASSWORD SSH_HOST SSH_USERNAME DATABASE_PATH w))
       = [].
Proof.
  intros lib MINUTES_AGO MIN_CHECKINS NTFY_HOST NTFY_SENSOR_TOPIC NTFY_USERNAME
    NTFY_PASSWORD SSH_HOST SSH_USERNAME DATABASE_PATH w.
  unfold configured, sensor_run, sensors_check.main. intros H.
  cbn [filter map fst snd].
  destruct (env_truthy NTFY_HOST), (env_truthy NTFY_SENSOR_TOPIC),
    (env_truthy SSH_HOST), (env_truthy SSH_USERNAME), (env_truthy DATABASE_PATH);
    try discriminate H; cbn [negb map fst];
    (split; [eexists; reflexivity|repeat split]).
Qed.

(** C5. On empty or blank text (and on an empty list of records) the
    analyzer returns the empty list.  When the remote query returns blank
    text, the run ends in one notification of priority 4 that says no data
    was received, without consulting the analyzer; when the analyzer
    reports missing check-ins, the run ends in one notification of
    priority 2.  In both cases, unless the credentials that are set are
    refused, the run posts exactly one request, to [host/topic], with the
    message and that priority in its headers.  Priority 4 ranks above
    priority 2. *)
Theorem C5_no_data_is_a_distinct_louder_alert :
  forall (lib : Library) (MINUTES_AGO MIN_CHECKINS : Z)
         (NTFY_HOST NTFY_SENSOR_TOPIC NTFY_USERNAME NTFY_PASSWORD : option string)
         (SSH_HOST SSH_USERNAME DATABASE_PATH : option string)
         (w : sensors_check.world) (sql since stdout : string),
    configured NTFY_HOST NTFY_SENSOR_TOPIC SSH_HOST SSH_USERNAME DATABASE_PATH = true ->
    sensors_check.build_query MINUTES_AGO w = ret sql ->
    sensors_check.clock_since w MINUTES_AGO = Ok since ->
    result_of (sensors_check.execute_sql_query DATABASE_PATH w SSH_HOST SSH_USERNAME sql)
    = Returns stdout ->
    (forall json_output,
        strip json_output = "" \/ json_loads json_output = Ok (JArr []) ->
        sensors_check.analyze_sensor_data MIN_CHECKINS json_output = ret [])
    /\ (strip stdout = "" ->
        ends_notifying
          (sensor_run MINUTES_AGO MIN_CHECKINS NTFY_HOST NTFY_SENSOR_TOPIC NTFY_USERNAME
             NTFY_PASSWORD SSH_HOST SSH_USERNAME DATABASE_PATH w)
          (sensors_check.send_notification NTFY_HOST NTFY_SENSOR_TOPIC NTFY_USERNAME
             NTFY_PASSWORD w
             "Sensor Check-in Alert"
             ("No sensor data received in the last " +++ str_of_int MINUTES_AGO
              +++ " minutes. All sensors may be offline.")
             ["warning"; "thermometer"] "4")
        /\ forall credentials,
            notification_auth NTFY_USERNAME NTFY_PASSWORD = Ok credentials ->
            posts (trace_of (sensor_run MINUTES_AGO MIN_CHECKINS NTFY_HOST
                               NTFY_SENSOR_TOPIC NTFY_USERNAME NTFY_PASSWORD SSH_HOST
                               SSH_USERNAME DATABASE_PATH w))
            = [ {| url := str_of_env NTFY_HOST +++ "/" +++ str_of_env NTFY_SENSOR_TOPIC;
                   auth := credentials;
                   data := "No sensor data received in the last "
                           +++ str_of_int MINUTES_AGO
                           +++ " minutes. All sensors may be offline.";
                   headers := [ ("Title", "Sensor Check-in Alert");
                                ("Priority", "4");
                                ("Tags", "warning,thermometer") ] |} ])
    /\ (forall missing,
          strip stdout <> "" ->
          result_of (sensors_check.analyze_sensor_data MIN_CHECKINS stdout) = Returns missing ->
          missing <> [] ->
          ends_notifying
            (sensor_run MINUTES_AGO MIN_CHECKINS NTFY_HOST NTFY_SENSOR_TOPIC NTFY_USERNAME
               NTFY_PASSWORD SSH_HOST SSH_USERNAME DATABASE_PATH w)
            (sensors_check.send_notification NTFY_HOST NTFY_SENSOR_TOPIC NTFY_USERNAME
               NTFY_PASSWORD w
               "Sensor Check-in Alert"
               ("Missing check-ins detected for "
                +++ str_of_int (Z.of_nat (List.length missing)) +++ " sensor(s):"
                +++ newline
                +++ join newline
                      (map (fun '(mac, location) =>
                              py_str mac +++ " (" +++ py_str location +++ ")")
                           missing))
               ["warning"; "thermometer"] "2")
          /\ forall credentials,
              notification_auth NTFY_USERNAME NTFY_PASSWORD = Ok credentials ->
              posts (trace_of (sensor_run MINUTES_AGO MIN_CHECKINS NTFY_HOST
                                 NTFY_SENSOR_TOPIC NTFY_USERNAME NTFY_PASSWORD SSH_HOST
                                 SSH_USERNAME DATABASE_PATH w))
              = [ {| url := str_of_env NTFY_HOST +++ "/" +++ str_of_env NTFY_SENSOR_TOPIC;
                     auth := credentials;
                     data := "Missing check-ins detected for "
                             +++ str_of_int (Z.of_nat (List.length missing))
                             +++ " sensor(s):" +++ newline
                             +++ join newline
                                   (map (fun '(mac, location) =>
                                           py_str mac +++ " (" +++ py_str location
                                           +++ ")")
                                        missing);
                     headers := [ ("Title", "Sensor Check-in Alert");
                                  ("Priority", "2");
                                  ("Tags", "warning,thermometer") ] |} ])
    /\ priority_rank "2" < priority_rank "4".
Proof.
  intros lib MINUTES_AGO MIN_CHECKINS NTFY_HOST NTFY_SENSOR_TOPIC NTFY_USERNAME
    NTFY_PASSWORD SSH_HOST SSH_USERNAME DATABASE_PATH w sql since stdout Hc Hq Hs He.
  pose proof (configured_true _ _ _ _ _ Hc) as (E1 & E2 & E3 & E4 & E5).
  assert (Hposted : forall (run : M unit) message priority credentials,
    ends_notifying run
      (sensors_check.send_notification NTFY_HOST NTFY_SENSOR_TOPIC NTFY_USERNAME
         NTFY_PASSWORD w "Sensor Check-in Alert" message ["warning"; "thermometer"]
         priority) ->
    notification_auth NTFY_USERNAME NTFY_PASSWORD = Ok credentials ->
    posts (trace_of run)
    = [ {| url := str_of_env NTFY_HOST +++ "/" +++ str_of_env NTFY_SENSOR_TOPIC;
           auth := credentials;
           data := message;
           headers := [ ("Title", "Sensor Check-in Alert");
                        ("Priority", priority);
                        ("Tags", "warning,thermometer") ] |} ]).
  { intros run message priority credentials (prelude & Hprelude & ->) Hauth.
    cbn [trace_of fst]. rewrite posts_app, Hprelude, send_notification_requests, E1, E2.
    cbn [andb app]. unfold notification_auth in Hauth.
    destruct (env_truthy NTFY_USERNAME && env_truthy NTFY_PASSWORD).
    - destruct (BasicAuth NTFY_USERNAME NTFY_PASSWORD) as [c|e]; [|discriminate Hauth].
      inversion Hauth; subst credentials. reflexivity.
    - inversion Hauth; subst credentials. reflexivity. }
  split; [|split; [|split]].
  - intros json_output [Hblank|Hempty].
    + unfold sensors_check.analyze_sensor_data. rewrite Hblank. reflexivity.
    + rewrite (analyze_decoded MIN_CHECKINS _ _ [] Hempty eq_refl). reflexivity.
  - intros Hblank.
    assert (Hend :
      ends_notifying
        (sensor_run MINUTES_AGO MIN_CHECKINS NTFY_HOST NTFY_SENSOR_TOPIC NTFY_USERNAME
           NTFY_PASSWORD SSH_HOST SSH_USERNAME DATABASE_PATH w)
        (sensors_check.send_notification NTFY_HOST NTFY_SENSOR_TOPIC NTFY_USERNAME
           NTFY_PASSWORD w
           "Sensor Check-in Alert"
           ("No sensor data received in the last " +++ str_of_int MINUTES_AGO
            +++ " minutes. All sensors may be offline.")
           ["warning"; "thermometer"] "4")).
    { unfold sensor_run, sensors_check.main. cbn [filter map fst snd].
      rewrite E1, E2, E3, E4, E5. cbn [negb map fst].
      rewrite Hq, bind_ret, Hs, bind_lift_Ok. unfold logger_info at 1. rewrite bind_emit.
      rewrite (M_eta (sensors_check.execute_sql_query _ _ _ _ _)), He, bind_returns.
      unfold logger_debug at 1. rewrite bind_emit. rewrite Hblank.
      cbn [String.eqb]. unfold logger_warning at 1. rewrite bind_emit.
      cbn [trace_of result_of fst snd].
      rewrite !result_of_bind. cbn [logger_debug logger_warning emit result_of snd].
      rewrite send_notification_result. cbn [try_excepts].
      exists (Log INFO ("Querying for data since: " +++ since)
                :: trace_of (sensors_check.execute_sql_query DATABASE_PATH w SSH_HOST
                               SSH_USERNAME sql)
                ++ [Log DEBUG ("JSON output: " +++ stdout);
                    Log WARNING "No sensor data found in time period. All sensors may be offline."]).
      split.
      + cbn [posts]. rewrite posts_app.
        destruct (execute_sql_query_trace SSH_HOST SSH_USERNAME DATABASE_PATH w sql) as [-> _]. reflexivity.
      + rewrite send_notification_result. cbn [app]. rewrite <- app_assoc. reflexivity. }
    split; [exact Hend|].
    intros credentials Hauth. exact (Hposted _ _ _ _ Hend Hauth).
  - intros missing Hnb Hres Hne.
    assert (Hend :
      ends_notifying
        (sensor_run MINUTES_AGO MIN_CHECKINS NTFY_HOST NTFY_SENSOR_TOPIC NTFY_USERNAME
           NTFY_PASSWORD SSH_HOST SSH_USERNAME DATABASE_PATH w)
        (sensors_check.send_notification NTFY_HOST NTFY_SENSOR_TOPIC NTFY_USERNAME
           NTFY_PASSWORD w
           "Sensor Check-in Alert"
           ("Missing check-ins detected for "
            +++ str_of_int (Z.of_nat (List.length missing)) +++ " sensor(s):"
            +++ newline
            +++ join newline
                  (map (fun '(mac, location) =>
                          py_str mac +++ " (" +++ py_str location +++ ")")
                       missing))
           ["warning"; "thermometer"] "2")).
    { unfold sensor_run, sensors_check.main. cbn [filter map fst snd].
      rewrite E1, E2, E3, E4, E5. cbn [negb map fst].
      rewrite Hq, bind_ret, Hs, bind_lift_Ok. unfold logger_info at 1. rewrite bind_emit.
      rewrite (M_eta (sensors_check.execute_sql_query _ _ _ _ _)), He, bind_returns.
      unfold logger_debug at 1. rewrite bind_emit.
      destruct (strip stdout =? "")%string eqn:Eb;
        [apply String.eqb_eq in Eb; contradiction|].
      rewrite (M_eta (sensors_check.analyze_sensor_data _ _)), Hres, bind_returns.
      destruct missing as [|entry missing]; [contradiction|].
      unfold logger_warning at 1. rewrite bind_emit.
      cbn [trace_of result_of fst snd].
      rewrite !result_of_bind. cbn [logger_debug logger_warning emit result_of snd].
      rewrite !send_notification_result. cbn [try_excepts].
      exists (Log INFO ("Querying for data since: " +++ since)
                :: trace_of (sensors_check.execute_sql_query DATABASE_PATH w SSH_HOST
                               SSH_USERNAME sql)
                ++ Log DEBUG ("JSON output: " +++ stdout)
                :: trace_of (sensors_check.analyze_sensor_data MIN_CHECKINS stdout)
                ++ [Log WARNING ("Missing check-ins detected for "
                                 +++ str_of_int (Z.of_nat (List.length (entry :: missing)))
                                 +++ " sensor(s).")]).
      split.
      + cbn [posts]. rewrite posts_app. cbn [posts]. rewrite posts_app.
        destruct (execute_sql_query_trace SSH_HOST SSH_USERNAME DATABASE_PATH w sql) as [-> _].
        rewrite (posts_of_logs _ (analyze_sensor_data_logs MIN_CHECKINS stdout)). reflexivity.
      + rewrite send_notification_result. cbn [app].
        rewrite <- !app_assoc. cbn [app]. rewrite <- !app_assoc. reflexivity. }
    split; [exact Hend|].
    intros credentials Hauth. exact (Hposted _ _ _ _ Hend Hauth).
  - reflexivity.
Qed.

(** C4 (amended). When the remote query fails with a connection error
    ([asyncssh.Error]), the run logs the error where it is caught and
    again in [main], posts no notification, connects once, decodes nothing
    (it is the same run whatever the library functions are) and exits with
    status 1. *)
Theorem C4_connection_error_exits_without_notification :
  forall (lib : Library) (MINUTES_AGO MIN_CHECKINS : Z)
         (NTFY_HOST NTFY_SENSOR_TOPIC NTFY_USERNAME NTFY_PASSWORD : option string)
         (SSH_HOST SSH_USERNAME DATABASE_PATH : option string)
         (w : sensors_check.world) (sql since : string) (e : error),
    configured NTFY_HOST NTFY_SENSOR_TOPIC SSH_HOST SSH_USERNAME DATABASE_PATH = true ->
    sensors_check.build_query MINUTES_AGO w = ret sql ->
    sensors_check.clock_since w MINUTES_AGO = Ok since ->
    result_of (sensors_check.execute_sql_query DATABASE_PATH w SSH_HOST SSH_USERNAME sql)
    = Raises e ->
    is_asyncssh_Error e = true ->
    In (Log ERROR ("SSH connection error: " +++ error_str e))
       (trace_of (sensor_run MINUTES_AGO MIN_CHECKINS NTFY_HOST NTFY_SENSOR_TOPIC
                    NTFY_USERNAME NTFY_PASSWORD SSH_HOST SSH_USERNAME DATABASE_PATH w))
    /\ In (Log ERROR "An unhandled error occurred during script execution.")
         (trace_of (sensor_run MINUTES_AGO MIN_CHECKINS NTFY_HOST NTFY_SENSOR_TOPIC
                      NTFY_USERNAME NTFY_PASSWORD SSH_HOST SSH_USERNAME DATABASE_PATH w))
    /\ posts (trace_of (sensor_run MINUTES_AGO MIN_CHECKINS NTFY_HOST NTFY_SENSOR_TOPIC
                          NTFY_USERNAME NTFY_PASSWORD SSH_HOST SSH_USERNAME DATABASE_PATH w))
       = []
    /\ connects (trace_of (sensor_run MINUTES_AGO MIN_CHECKINS NTFY_HOST NTFY_SENSOR_TOPIC
                             NTFY_USERNAME NTFY_PASSWORD SSH_HOST SSH_USERNAME DATABASE_PATH w))
       = 1%nat
    /\ exit_status (result_of (sensor_run MINUTES_AGO MIN_CHECKINS NTFY_HOST
                                 NTFY_SENSOR_TOPIC NTFY_USERNAME NTFY_PASSWORD SSH_HOST
                                 SSH_USERNAME DATABASE_PATH w))
       = 1
    /\ forall lib' : Library,
        @sensor_run lib' MINUTES_AGO MIN_CHECKINS NTFY_HOST NTFY_SENSOR_TOPIC
          NTFY_USERNAME NTFY_PASSWORD SSH_HOST SSH_USERNAME DATABASE_PATH w
        = @sensor_run lib MINUTES_AGO MIN_CHECKINS NTFY_HOST NTFY_SENSOR_TOPIC
            NTFY_USERNAME NTFY_PASSWORD SSH_HOST SSH_USERNAME DATABASE_PATH w.
Proof.
  intros lib MINUTES_AGO MIN_CHECKINS NTFY_HOST NTFY_SENSOR_TOPIC NTFY_USERNAME
    NTFY_PASSWORD SSH_HOST SSH_USERNAME DATABASE_PATH w sql since e Hc Hq Hs He Hssh.
  pose proof (fun l : Library =>
                @sensor_run_query_raises l MINUTES_AGO MIN_CHECKINS NTFY_HOST
                  NTFY_SENSOR_TOPIC NTFY_USERNAME NTFY_PASSWORD SSH_HOST SSH_USERNAME
                  DATABASE_PATH w sql since e Hc Hq Hs He) as Hrun.
  destruct (execute_sql_query_trace SSH_HOST SSH_USERNAME DATABASE_PATH w sql)
    as [Hposts Hconnects].
  pose proof (execute_sql_query_connection_error SSH_HOST SSH_USERNAME DATABASE_PATH w
                sql e He Hssh) as Hlogged.
  rewrite (Hrun lib). cbn [trace_of result_of fst snd exit_status].
  split; [right; apply in_or_app; left; exact Hlogged|].
  split; [right; apply in_or_app; right; left; reflexivity|].
  split; [cbn [posts]; rewrite posts_app, Hposts; reflexivity|].
  split; [cbn [connects]; rewrite connects_app, Hconnects; reflexivity|].
  split; [reflexivity|].
  intros lib'. apply Hrun.
Qed.

(** C4 as worded fails when the remote host refuses the connection: the
    run posts nothing, although the notification server would accept. *)
Lemma C4_counterexample : ~ connection_error_notified (sample_run offline_world).
Proof.
  intros (_ & Hposts & _). apply Hposts. reflexivity.
Qed.

(** C4 (amended) at the run against the host that refuses the connection. *)
Lemma C4_witness :
  posts (trace_of (sample_run offline_world)) = []
  /\ connects (trace_of (sample_run offline_world)) = 1%nat
  /\ exit_status (result_of (sample_run offline_world)) = 1.
Proof.
  pose proof (C4_connection_error_exits_without_notification sample_library 45 2
                (Some "https://ntfy.example") (Some "sensors") None None
                (Some "db.example") (Some "pi") (Some "/data/sensors.db")
                offline_world _ _ (AsyncsshError "Permission denied")
                eq_refl eq_refl eq_refl eq_refl eq_refl)
    as (_ & _ & Hposts & Hconnects & Hexit & _).
  exact (conj Hposts (conj Hconnects Hexit)).
Defined.

(** C5 at the run against a host that answers nothing and at the run
    against a host that answers one check-in of A. *)
Lemma C5_witness :
  posts (trace_of (sample_run (online_world "")))
  = [ {| url := "https://ntfy.example/sensors";
         auth := None;
         data := "No sensor data received in the last 45 minutes. All sensors may be offline.";
         headers := [ ("Title", "Sensor Check-in Alert");
                      ("Priority", "4");
                      ("Tags", "warning,thermometer") ] |} ]
  /\ posts (trace_of (sample_run (online_world doc_single)))
     = [ {| url := "https://ntfy.example/sensors";
            auth := None;
            data := "Missing check-ins detected for 1 sensor(s):" +++ newline
                    +++ "A (wine)";
            headers := [ ("Title", "Sensor Check-in Alert");
                         ("Priority", "2");
                         ("Tags", "warning,thermometer") ] |} ]
  /\ priority_rank "2" < priority_rank "4".
Proof.
  split; [|split].
  - apply (proj2 (proj1 (proj2 (C5_no_data_is_a_distinct_louder_alert sample_library 45 2
                                  (Some "https://ntfy.example") (Some "sensors") None None
                                  (Some "db.example") (Some "pi")
                                  (Some "/data/sensors.db")
                                  (online_world "") _ _ ""
                                  eq_refl eq_refl eq_refl eq_refl))
                   eq_refl) None eq_refl).
  - apply (proj2 (proj1 (proj2 (proj2 (C5_no_data_is_a_distinct_louder_alert
                                         sample_library 45 2
                                         (Some "https://ntfy.example") (Some "sensors")
                                         None None
                                         (Some "db.example") (Some "pi")
                                         (Some "/data/sensors.db")
                                         (online_world doc_single) _ _ doc_single
                                         eq_refl eq_refl eq_refl eq_refl)))
                   [(JStr "A", JStr "wine")]
                   ltac:(vm_compute; discriminate) eq_refl ltac:(discriminate))
             None eq_refl).
  - apply (C5_no_data_is_a_distinct_louder_alert sample_library 45 2
             (Some "https://ntfy.example") (Some "sensors") None None
             (Some "db.example") (Some "pi") (Some "/data/sensors.db")
             (online_world "") _ _ "" eq_refl eq_refl eq_refl eq_refl).
Defined.

(** C6 at a configuration with an empty topic and no remote user. *)
Lemma C6_witness :
  exit_status (result_of (sensor_run (lib := sample_library) 45 2
                            (Some "https://ntfy.example") (Some "") None None
                            (Some "db.example") None (Some "/data/sensors.db")
                            offline_world)) = 1
  /\ connects (trace_of (sensor_run (lib := sample_library) 45 2
                           (Some "https://ntfy.example") (Some "") None None
                           (Some "db.example") None (Some "/data/sensors.db")
                           offline_world)) = 0%nat
  /\ posts (trace_of (sensor_run (lib := sample_library) 45 2
                        (Some "https://ntfy.example") (Some "") None None
                        (Some "db.example") None (Some "/data/sensors.db")
                        offline_world)) = [].
Proof.
  apply (proj2 (C6_missing_configuration_exits sample_library 45 2
                  (Some "https://ntfy.example") (Some "") None None
                  (Some "db.example") None (Some "/data/sensors.db")
                  offline_world eq_refl)).
Defined.

(** * The quote workflow *)

(** A value equal to 0 is neither above nor below 0. *)
Lemma zero_is_neutral (v : rklb_price.qval) :
  rklb_price.py_eq0 v = true ->
  rklb_price.py_gt0 v = Ok false /\ rklb_price.py_lt0 v = Ok false.
Proof.
  destruct v as [|b|n|f|s]; simpl; try discriminate.
  - destruct b; [discriminate|]. auto.
  - intros H. apply Z.eqb_eq in H. subst n. auto.
  - destruct f as [s|s| |s m e]; simpl; try discriminate; auto.
    + destruct s; discriminate.
    + destruct s; discriminate.
Qed.

Section QuoteWorkflow.

Context {lib : Library} {fmt : rklb_price.Formatter}.
Variables (NTFY_USERNAME NTFY_PASSWORD NTFY_HOST NTFY_EOD_TOPIC : option string).
Variable w : rklb_price.world.

Lemma quote_notification_result (title message : string) (emojis : list string)
  (priority : string) :
  result_of (quote_notification NTFY_USERNAME NTFY_PASSWORD NTFY_HOST NTFY_EOD_TOPIC w
      title message emojis priority) = Returns tt.
Proof.
  unfold quote_notification, rklb_price.send_notification, logger_info.
  rewrite bind_emit.
  destruct (BasicAuth NTFY_USERNAME NTFY_PASSWORD) as [c|e]; [|destruct e; reflexivity].
  cbn. destruct (rklb_price.http_post w _) as [response|e]; [|destruct e; reflexivity].
  cbn. unfold raise_for_status.
  destruct ((200 <=? status_code response) && (status_code response <? 300));
    reflexivity.
Qed.

Lemma quote_notification_posts (title message : string) (emojis : list string)
  (priority : string) (req : http_request) :
  In req (posts (trace_of (quote_notification NTFY_USERNAME NTFY_PASSWORD NTFY_HOST NTFY_EOD_TOPIC w
      title message emojis priority))) ->
  header "Priority" (headers req) = Some priority
  /\ header "Tags" (headers req)
     = Some (match emojis with [] => "" | _ => join "," emojis end).
Proof.
  unfold quote_notification, rklb_price.send_notification, logger_info.
  rewrite bind_emit.
  destruct (BasicAuth NTFY_USERNAME NTFY_PASSWORD) as [c|e];
    [|destruct e; intros []].
  cbn. destruct (rklb_price.http_post w _) as [response|e].
  - cbn. unfold raise_for_status.
    destruct ((200 <=? status_code response) && (status_code response <? 300));
      cbn; (intros [<-|[]]; split; reflexivity).
  - destruct e; cbn; (intros [<-|[]]; split; reflexivity).
Qed.

(** An exception in [main] ends the run in the error notification. *)
Lemma quote_run_failed (t : list event) (e : error) (body : M unit) :
  body = (t, Raises e) ->
  try_excepts body
    [ (is_Exception,
       fun e =>
         logger_error ("Error in main function: " +++ error_str e) ;;
         quote_notification NTFY_USERNAME NTFY_PASSWORD NTFY_HOST NTFY_EOD_TOPIC w
      "RKLB quote error" "Yahoo down?" ["skull"] (str_of_int 4)) ]
  = ((t ++ [Log ERROR ("Error in main function: " +++ error_str e)])
       ++ trace_of (quote_notification NTFY_USERNAME NTFY_PASSWORD NTFY_HOST NTFY_EOD_TOPIC w
      "RKLB quote error" "Yahoo down?" ["skull"] "4"),
     result_of (quote_notification NTFY_USERNAME NTFY_PASSWORD NTFY_HOST NTFY_EOD_TOPIC w
      "RKLB quote error" "Yahoo down?" ["skull"] "4")).
Proof.
  intros ->. cbn [try_excepts first_clause is_Exception].
  unfold logger_error. rewrite bind_emit. rewrite <- app_assoc. reflexivity.
Qed.

End QuoteWorkflow.

Section QuoteNotifier.

Context {lib : Library}.
Variables (NTFY_USERNAME NTFY_PASSWORD NTFY_HOST NTFY_EOD_TOPIC : option string).
Variable w : rklb_price.world.
Variables (title message : string) (emojis : list string) (priority : string).

(** The requests of one call of the quote script's notifier. *)
Lemma quote_notification_requests :
  posts (trace_of (quote_notification NTFY_USERNAME NTFY_PASSWORD NTFY_HOST NTFY_EOD_TOPIC
                     w title message emojis priority))
  = match BasicAuth NTFY_USERNAME NTFY_PASSWORD with
    | Ok credentials =>
        [ {| url := str_of_env NTFY_HOST +++ "/" +++ str_of_env NTFY_EOD_TOPIC;
             auth := Some credentials;
             data := message;
             headers :=
               [ ("Title", title);
                 ("Priority", priority);
                 ("Tags", match emojis with [] => "" | _ => join "," emojis end);
                 ("Click", "https://finance.yahoo.com/quote/RKLB/") ] |} ]
    | Raise _ => []
    end.
Proof.
  unfold quote_notification, rklb_price.send_notification, logger_info.
  rewrite bind_emit.
  destruct (BasicAuth NTFY_USERNAME NTFY_PASSWORD) as [c|e]; [|destruct e; reflexivity].
  cbn. destruct (rklb_price.http_post w _) as [response|e]; [|destruct e; reflexivity].
  cbn. unfold raise_for_status.
  destruct ((200 <=? status_code response) && (status_code response <? 300));
    reflexivity.
Qed.

(** A log record followed by one call of the notifier. *)
Lemma quote_run_ends (lvl : level) (msg : string) :
  ends_notifying
    (Log lvl msg
       :: trace_of (quote_notification NTFY_USERNAME NTFY_PASSWORD NTFY_HOST NTFY_EOD_TOPIC
                      w title message emojis priority),
     Returns tt)
    (quote_notification NTFY_USERNAME NTFY_PASSWORD NTFY_HOST NTFY_EOD_TOPIC w
       title message emojis priority)
  /\ (List.length
        (posts (Log lvl msg
                  :: trace_of (quote_notification NTFY_USERNAME NTFY_PASSWORD NTFY_HOST
                                 NTFY_EOD_TOPIC w title message emojis priority)))
      <= 1)%nat.
Proof.
  split.
  - exists [Log lvl msg]. split; [reflexivity|].
    rewrite quote_notification_result. reflexivity.
  - cbn [posts]. rewrite quote_notification_requests.
    destruct (BasicAuth NTFY_USERNAME NTFY_PASSWORD); cbn; lia.
Qed.

End QuoteNotifier.

(** C7. If the quote has no price ([regularMarketPrice] is [None]), the
    run ends in one error notification with priority 4, above the default
    3, tagged [skull], which is none of the direction tags; when the
    credentials are accepted it posts exactly one request, with that
    title, priority and tag; it formats nothing (it is the same run
    whatever the formatter is) and the process exits with status 0. *)
Theorem C7_no_price_sends_error_notification :
  forall (lib : Library) (fmt : rklb_price.Formatter)
         (NTFY_USERNAME NTFY_PASSWORD NTFY_HOST NTFY_EOD_TOPIC : option string)
         (w : rklb_price.world) (info : list (string * rklb_price.qval)),
    rklb_price.ticker_info w 0%nat = Ok info ->
    rklb_price.info_get info "regularMarketPrice" = rklb_price.QNone ->
    (exists message,
        ends_notifying
          (quote_run NTFY_USERNAME NTFY_PASSWORD NTFY_HOST NTFY_EOD_TOPIC w)
          (quote_notification NTFY_USERNAME NTFY_PASSWORD NTFY_HOST NTFY_EOD_TOPIC w
             "RKLB quote error" message ["skull"] "4"))
    /\ (forall credentials,
          BasicAuth NTFY_USERNAME NTFY_PASSWORD = Ok credentials ->
          posts (trace_of (quote_run NTFY_USERNAME NTFY_PASSWORD NTFY_HOST
                             NTFY_EOD_TOPIC w))
          = [ {| url := str_of_env NTFY_HOST +++ "/" +++ str_of_env NTFY_EOD_TOPIC;
                 auth := Some credentials;
                 data := match rklb_price.ticker_info w 1%nat with
                         | Ok _ => "Yahoo data error?"
                         | Raise _ => "Yahoo down?"
                         end;
                 headers := [ ("Title", "RKLB quote error");
                              ("Priority", "4");
                              ("Tags", "skull");
                              ("Click", "https://finance.yahoo.com/quote/RKLB/") ] |} ])
    /\ (forall req,
          In req (posts (trace_of (quote_run NTFY_USERNAME NTFY_PASSWORD NTFY_HOST
                                     NTFY_EOD_TOPIC w))) ->
          header "Priority" (headers req) = Some "4"
          /\ header "Tags" (headers req) = Some "skull")
    /\ priority_rank rklb_price.default_priority < priority_rank "4"
    /\ ~ In "skull" ["arrow_up"; "arrow_down"; "arrow_up_down"]
    /\ (forall fmt' : rklb_price.Formatter,
          @quote_run lib fmt' NTFY_USERNAME NTFY_PASSWORD NTFY_HOST NTFY_EOD_TOPIC w
          = @quote_run lib fmt NTFY_USERNAME NTFY_PASSWORD NTFY_HOST NTFY_EOD_TOPIC w)
    /\ exit_status (result_of (quote_run NTFY_USERNAME NTFY_PASSWORD NTFY_HOST
                                 NTFY_EOD_TOPIC w)) = 0.
Proof.
  intros lib fmt NTFY_USERNAME NTFY_PASSWORD NTFY_HOST NTFY_EOD_TOPIC w info Hinfo Hprice.
  assert (Hrun : exists prelude,
             posts prelude = []
             /\ forall fmt0 : rklb_price.Formatter,
                 @quote_run lib fmt0 NTFY_USERNAME NTFY_PASSWORD NTFY_HOST NTFY_EOD_TOPIC w
                 = (prelude
                      ++ trace_of (quote_notification NTFY_USERNAME NTFY_PASSWORD NTFY_HOST
                                     NTFY_EOD_TOPIC w "RKLB quote error"
                                     (match rklb_price.ticker_info w 1%nat with
                                      | Ok _ => "Yahoo data error?"
                                      | Raise _ => "Yahoo down?"
                                      end)
                                     ["skull"] "4"),
                    Returns tt)).
  { destruct (rklb_price.ticker_info w 1%nat) as [info2|e] eqn:Hinfo2.
    - exists [Log ERROR "Unable to fetch RKLB quote"].
      split; [reflexivity|]. intros fmt0.
      unfold quote_run, rklb_price.main.
      rewrite Hinfo, bind_lift_Ok, Hinfo2, bind_lift_Ok, Hprice.
      unfold logger_error at 1. rewrite bind_emit.
      fold (quote_notification NTFY_USERNAME NTFY_PASSWORD NTFY_HOST NTFY_EOD_TOPIC w
              "RKLB quote error" "Yahoo data error?" ["skull"] "4").
      rewrite quote_notification_result. reflexivity.
    - exists [Log ERROR ("Error in main function: " +++ error_str e)].
      split; [reflexivity|]. intros fmt0.
      unfold quote_run, rklb_price.main.
      rewrite Hinfo, bind_lift_Ok, Hinfo2.
      fold (quote_notification NTFY_USERNAME NTFY_PASSWORD NTFY_HOST NTFY_EOD_TOPIC w
              "RKLB quote error" "Yahoo down?" ["skull"] (str_of_int 4)).
      rewrite (quote_run_failed _ _ _ _ _ [] e) by reflexivity.
      rewrite quote_notification_result. reflexivity. }
  destruct Hrun as (prelude & Hprelude & Hrun).
  split; [|split; [|split; [|split; [|split; [|split]]]]].
  - eexists. exists prelude. split; [exact Hprelude|].
    rewrite quote_notification_result. apply Hrun.
  - intros credentials Hauth. rewrite (Hrun fmt). cbn [trace_of fst].
    rewrite posts_app, Hprelude, quote_notification_requests, Hauth. reflexivity.
  - intros req. rewrite (Hrun fmt). cbn [trace_of fst]. rewrite posts_app, Hprelude.
    intros Hin. apply quote_notification_posts in Hin. exact Hin.
  - reflexivity.
  - intros [H|[H|[H|[]]]]; discriminate H.
  - intros fmt'. rewrite (Hrun fmt'), (Hrun fmt). reflexivity.
  - rewrite (Hrun fmt). reflexivity.
Qed.

(** C8. If the fetched price change is exactly 0, no request of the run is
    tagged [arrow_up] or [arrow_down]; and when the quote has a price and
    both numbers can be formatted, the run ends in the quote notification
    tagged with the neutral indicator [arrow_up_down]. *)
Theorem C8_zero_change_is_neutral :
  forall (lib : Library) (fmt : rklb_price.Formatter)
         (NTFY_USERNAME NTFY_PASSWORD NTFY_HOST NTFY_EOD_TOPIC : option string)
         (w : rklb_price.world) (info1 info2 : list (string * rklb_price.qval)),
    rklb_price.ticker_info w 0%nat = Ok info1 ->
    rklb_price.ticker_info w 1%nat = Ok info2 ->
    rklb_price.py_eq0 (rklb_price.info_get info2 "regularMarketChangePercent") = true ->
    (forall req,
        In req (posts (trace_of (quote_run NTFY_USERNAME NTFY_PASSWORD NTFY_HOST
                                   NTFY_EOD_TOPIC w))) ->
        header "Tags" (headers req) <> Some "arrow_up"
        /\ header "Tags" (headers req) <> Some "arrow_down")
    /\ (forall price_text change_text,
          rklb_price.info_get info1 "regularMarketPrice" <> rklb_price.QNone ->
          rklb_price.format_2f (rklb_price.info_get info1 "regularMarketPrice")
          = Ok price_text ->
          rklb_price.format_2f (rklb_price.info_get info2 "regularMarketChangePercent")
          = Ok change_text ->
          ends_notifying
            (quote_run NTFY_USERNAME NTFY_PASSWORD NTFY_HOST NTFY_EOD_TOPIC w)
            (quote_notification NTFY_USERNAME NTFY_PASSWORD NTFY_HOST NTFY_EOD_TOPIC w
               "RKLB quote"
               (("$" +++ price_text) +++ " / " +++ (change_text +++ "%"))
               ["arrow_up_down"] rklb_price.default_priority)).
Proof.
  intros lib fmt NTFY_USERNAME NTFY_PASSWORD NTFY_HOST NTFY_EOD_TOPIC w info1 info2
    Hinfo1 Hinfo2 Hzero.
  destruct (zero_is_neutral _ Hzero) as [Hgt Hlt].
  set (price := rklb_price.info_get info1 "regularMarketPrice") in *.
  set (change := rklb_price.info_get info2 "regularMarketChangePercent") in *.
  assert (Hshown : forall price_text change_text,
             price <> rklb_price.QNone ->
             rklb_price.format_2f price = Ok price_text ->
             rklb_price.format_2f change = Ok change_text ->
             quote_run NTFY_USERNAME NTFY_PASSWORD NTFY_HOST NTFY_EOD_TOPIC w
             = ([Log INFO ("RKLB current price: " +++ ("$" +++ price_text)
                           +++ " / " +++ (change_text +++ "%"))]
                  ++ trace_of (quote_notification NTFY_USERNAME NTFY_PASSWORD NTFY_HOST
                                 NTFY_EOD_TOPIC w "RKLB quote"
                                 (("$" +++ price_text) +++ " / " +++ (change_text +++ "%"))
                                 ["arrow_up_down"] rklb_price.default_priority),
                Returns tt)).
  { intros price_text change_text Hprice Hfp Hfc.
    unfold quote_run, rklb_price.main.
    rewrite Hinfo1, bind_lift_Ok, Hinfo2, bind_lift_Ok.
    fold price. fold change.
    assert (Hbody : forall (A B : M unit),
               match price with rklb_price.QNone => A | _ => B end = B)
      by (intros A B; destruct price; [contradiction|reflexivity..]).
    rewrite Hbody. rewrite Hfp, bind_lift_Ok, Hfc, bind_lift_Ok, Hgt, bind_lift_Ok.
    rewrite Hlt, bind_lift_Ok, bind_ret.
    unfold logger_info at 1. rewrite bind_emit.
    fold (quote_notification NTFY_USERNAME NTFY_PASSWORD NTFY_HOST NTFY_EOD_TOPIC w
            "RKLB quote" (("$" +++ price_text) +++ " / " +++ (change_text +++ "%"))
            ["arrow_up_down"] rklb_price.default_priority).
    rewrite quote_notification_result. reflexivity. }
  assert (Hfailed : forall e,
             (price = rklb_price.QNone
              \/ rklb_price.format_2f price = Raise e
              \/ (exists price_text, rklb_price.format_2f price = Ok price_text)
                 /\ rklb_price.format_2f change = Raise e) ->
             exists prelude message,
               posts prelude = []
               /\ quote_run NTFY_USERNAME NTFY_PASSWORD NTFY_HOST NTFY_EOD_TOPIC w
                  = (prelude
                       ++ trace_of (quote_notification NTFY_USERNAME NTFY_PASSWORD NTFY_HOST
                                      NTFY_EOD_TOPIC w "RKLB quote error" message
                                      ["skull"] "4"),
                     Returns tt)).
  { intros e Hcase.
    destruct (rklb_price.QNone_dec price) as [Hnone|Hsome].
    - exists [Log ERROR "Unable to fetch RKLB quote"], "Yahoo data error?".
      split; [reflexivity|].
      unfold quote_run, rklb_price.main.
      rewrite Hinfo1, bind_lift_Ok, Hinfo2, bind_lift_Ok. fold price. rewrite Hnone.
      unfold logger_error at 1. rewrite bind_emit.
      fold (quote_notification NTFY_USERNAME NTFY_PASSWORD NTFY_HOST NTFY_EOD_TOPIC w
              "RKLB quote error" "Yahoo data error?" ["skull"] "4").
      rewrite quote_notification_result. reflexivity.
    - assert (Hbody : forall (A B : M unit),
                 match price with rklb_price.QNone => A | _ => B end = B)
        by (intros A B; destruct price; [contradiction|reflexivity..]).
      destruct Hcase as [Hnone|[Hfp|[[price_text Hfp] Hfc]]]; [contradiction| |].
      + exists [Log ERROR ("Error in main function: " +++ error_str e)], "Yahoo down?".
        split; [reflexivity|].
        unfold quote_run, rklb_price.main.
        rewrite Hinfo1, bind_lift_Ok, Hinfo2, bind_lift_Ok. fold price. fold change.
        rewrite Hbody, Hfp.
        fold (quote_notification NTFY_USERNAME NTFY_PASSWORD NTFY_HOST NTFY_EOD_TOPIC w
                "RKLB quote error" "Yahoo down?" ["skull"] (str_of_int 4)).
        rewrite (quote_run_failed _ _ _ _ _ [] e) by reflexivity.
        rewrite quote_notification_result. reflexivity.
      + exists [Log ERROR ("Error in main function: " +++ error_str e)], "Yahoo down?".
        split; [reflexivity|].
        unfold quote_run, rklb_price.main.
        rewrite Hinfo1, bind_lift_Ok, Hinfo2, bind_lift_Ok. fold price. fold change.
        rewrite Hbody, Hfp, bind_lift_Ok, Hfc.
        fold (quote_notification NTFY_USERNAME NTFY_PASSWORD NTFY_HOST NTFY_EOD_TOPIC w
                "RKLB quote error" "Yahoo down?" ["skull"] (str_of_int 4)).
        rewrite (quote_run_failed _ _ _ _ _ [] e) by reflexivity.
        rewrite quote_notification_result. reflexivity. }
  split.
  - intros req Hin.
    assert (Htag : header "Tags" (headers req) = Some "skull"
                   \/ header "Tags" (headers req) = Some "arrow_up_down").
    { destruct (rklb_price.QNone_dec price) as [Hnone|Hsome].
      - destruct (Hfailed (OtherError "") (or_introl Hnone))
          as (prelude & message & Hp & Hrun).
        rewrite Hrun in Hin. cbn [trace_of fst] in Hin.
        rewrite posts_app, Hp in Hin. apply quote_notification_posts in Hin.
        left. apply Hin.
      - destruct (rklb_price.format_2f price) as [price_text|e] eqn:Hfp.
        + destruct (rklb_price.format_2f change) as [change_text|e] eqn:Hfc.
          * rewrite (Hshown price_text change_text Hsome eq_refl eq_refl) in Hin.
            cbn [trace_of fst] in Hin. rewrite posts_app in Hin.
            apply quote_notification_posts in Hin. right. apply Hin.
          * destruct (Hfailed e (or_intror (or_intror (conj (ex_intro _ price_text eq_refl) eq_refl))))
              as (prelude & message & Hp & Hrun).
            rewrite Hrun in Hin. cbn [trace_of fst] in Hin.
            rewrite posts_app, Hp in Hin. apply quote_notification_posts in Hin.
            left. apply Hin.
        + destruct (Hfailed e (or_intror (or_introl eq_refl)))
            as (prelude & message & Hp & Hrun).
          rewrite Hrun in Hin. cbn [trace_of fst] in Hin.
          rewrite posts_app, Hp in Hin. apply quote_notification_posts in Hin.
          left. apply Hin. }
    destruct Htag as [-> | ->]; split; discriminate.
  - intros price_text change_text Hprice Hfp Hfc.
    exists [Log INFO ("RKLB current price: " +++ ("$" +++ price_text)
                      +++ " / " +++ (change_text +++ "%"))].
    split; [reflexivity|].
    rewrite quote_notification_result. apply Hshown; assumption.
Qed.

(** C7 at the quote without a price. *)
Lemma C7_witness :
  posts (trace_of (sample_quote_run quote_without_price))
  = [ {| url := "https://ntfy.example/eod";
         auth := Some ("user", "secret");
         data := "Yahoo data error?";
         headers := [ ("Title", "RKLB quote error");
                      ("Priority", "4");
                      ("Tags", "skull");
                      ("Click", "https://finance.yahoo.com/quote/RKLB/") ] |} ]
  /\ exit_status (result_of (sample_quote_run quote_without_price)) = 0.
Proof.
  pose proof (C7_no_price_sends_error_notification sample_library sample_formatter
                (Some "user") (Some "secret") (Some "https://ntfy.example") (Some "eod")
                (quote_world quote_without_price) quote_without_price eq_refl eq_refl)
    as (_ & Hposted & _ & _ & _ & _ & Hexit).
  exact (conj (Hposted ("user", "secret") eq_refl) Hexit).
Defined.

(** C8 at the quote that has not moved. *)
Lemma C8_witness :
  ends_notifying (sample_quote_run quote_unchanged)
    (quote_notification (lib := sample_library)
       (Some "user") (Some "secret") (Some "https://ntfy.example") (Some "eod")
       (quote_world quote_unchanged)
       "RKLB quote" "$25.50 / 0.00%" ["arrow_up_down"] "3").
Proof.
  apply (proj2 (C8_zero_change_is_neutral sample_library sample_formatter
                  (Some "user") (Some "secret") (Some "https://ntfy.example") (Some "eod")
                  (quote_world quote_unchanged) quote_unchanged quote_unchanged
                  eq_refl eq_refl eq_refl) "25.50" "0.00").
  - discriminate.
  - reflexivity.
  - reflexivity.
Defined.

(** * Further properties of the two scripts *)

(** X1. The notifier never raises: whatever the credentials are and
    whatever the notification server answers, [send_notification] of
    either script returns. *)
Theorem X1_send_notification_never_raises :
  forall (lib : Library)
         (NTFY_HOST NTFY_TOPIC NTFY_USERNAME NTFY_PASSWORD : option string)
         (ws : sensors_check.world) (wq : rklb_price.world)
         (title message : string) (emojis : list string) (priority : string),
    result_of (sensors_check.send_notification NTFY_HOST NTFY_TOPIC NTFY_USERNAME
                 NTFY_PASSWORD ws title message emojis priority) = Returns tt
    /\ result_of (rklb_price.send_notification NTFY_USERNAME NTFY_PASSWORD NTFY_HOST
                    NTFY_TOPIC wq title message emojis priority) = Returns tt.
Proof.
  intros. split.
  - apply send_notification_result.
  - apply (quote_notification_result NTFY_USERNAME NTFY_PASSWORD NTFY_HOST NTFY_TOPIC wq).
Qed.

(** X2. On decoded text the analyzer raises at the first thing its loop
    cannot take: the [TypeError] of a decoded value that cannot be
    iterated (null, a boolean, a number); or, when the elements before it
    are dicts with a falsy or hashable ['mac'], the [AttributeError] of
    the first element that is no dict, or the [TypeError] of the first
    truthy unhashable ['mac'].  A decoded value without elements (an
    empty list, but also an empty object or an empty string) raises
    nothing: the analyzer returns the empty list and logs nothing. *)
Theorem X2_wrong_shape_raises :
  forall (lib : Library) (MIN_CHECKINS : Z) (json_output : string) (records : json),
    json_loads json_output = Ok records ->
    (forall e,
        (py_iter records = Raise e
         \/ exists pre record post,
             py_iter records = Ok (pre ++ record :: post)
             /\ Forall (fun r => record_ok r = true) pre
             /\ (py_get record "mac" JNull = Raise e
                 \/ exists mac, py_get record "mac" JNull = Ok mac
                                /\ truthy mac = true /\ py_hash mac = Raise e)) ->
        result_of (sensors_check.analyze_sensor_data MIN_CHECKINS json_output) = Raises e)
    /\ (py_iter records = Ok [] ->
        sensors_check.analyze_sensor_data MIN_CHECKINS json_output = ret []).
Proof.
  intros lib MIN_CHECKINS json_output records Hl. split.
  - intros e [Hi|(pre & record & post & Hi & Hpre & Hbad)].
    + unfold sensors_check.analyze_sensor_data.
      rewrite (decoded_not_blank _ _ Hl), Hl, Hi. reflexivity.
    + rewrite (analyze_decoded MIN_CHECKINS _ _ _ Hl Hi), result_of_bind.
      assert (Hloop : forall st,
                 result_of (for_each (pre ++ record :: post) sensors_check.count_record st)
                 = Raises e).
      { clear Hi.
        induction Hpre as [|r pre Hr _ IH]; intros st; cbn [app for_each];
          rewrite result_of_bind.
        - destruct st as [mac_counts mac_locations]. unfold sensors_check.count_record.
          destruct Hbad as [Hget|(mac & Hget & Ht & Hh)]; rewrite Hget; [reflexivity|].
          rewrite bind_lift_Ok, Ht. cbn [negb]. unfold defaultdict_incr. rewrite Hh.
          reflexivity.
        - destruct (counting_loop_total [r] st (Forall_cons r Hr (Forall_nil _)))
            as [st1 Hst1].
          cbn [for_each] in Hst1. rewrite result_of_bind in Hst1.
          destruct (result_of (sensors_check.count_record st r)) as [st2| |];
            try discriminate Hst1.
          apply IH. }
      rewrite Hloop. reflexivity.
  - intros Hi. rewrite (analyze_decoded MIN_CHECKINS _ _ [] Hl Hi). reflexivity.
Qed.

(** X2 at a list whose second element is a number, and at an empty
    object. *)
Lemma X2_witness :
  result_of (sensors_check.analyze_sensor_data (lib := sample_library) 2 "[{}, 5]")
  = Raises (AttributeError "'int' object has no attribute 'get'")
  /\ sensors_check.analyze_sensor_data (lib := sample_library) 2 "{}" = ret [].
Proof.
  split.
  - apply (proj1 (X2_wrong_shape_raises sample_library 2 "[{}, 5]"
                    (JArr [JObj []; JInt 5]) eq_refl)).
    right. exists [JObj []], (JInt 5), []. repeat split.
    + repeat constructor.
    + left. reflexivity.
  - exact (proj2 (X2_wrong_shape_raises sample_library 2 "{}" (JObj []) eq_refl)
             eq_refl).
Defined.



(** * The analyzer's output, entry by entry *)

Lemma first_records_app (seen a b : list json) :
  first_records seen (a ++ b) = first_records seen a ++ first_records (seen ++ a) b.
Proof.
  revert seen. induction a as [|r a IH]; intros seen; cbn [app first_records].
  - rewrite app_nil_r. reflexivity.
  - rewrite IH, <- !app_assoc. reflexivity.
Qed.

(** The keys of [mac_counts] are the identifiers of the first records, in
    their order. *)
Lemma counting_loop_keys (items seen : list json) (st st' : dict Z * dict json) :
  tables_ok seen (fst st) (snd st) ->
  result_of (for_each items sensors_check.count_record st) = Returns st' ->
  map fst (fst st') = map fst (fst st) ++ map mac_of (first_records seen items).
Proof.
  revert seen st. induction items as [|record items IH]; intros seen st Hst;
    cbn [for_each first_records].
  - intros H. inversion H; subst. rewrite app_nil_r. reflexivity.
  - rewrite result_of_bind.
    destruct (result_of (sensors_check.count_record st record)) as [st1| |] eqn:Hstep;
      try discriminate.
    intros H. destruct st as [mac_counts mac_locations].
    pose proof (count_record_tables _ _ _ _ _ Hst Hstep) as Hst1.
    rewrite (IH (seen ++ [record]) st1 Hst1 H). rewrite map_app, app_assoc. f_equal.
    destruct (count_record_cases mac_counts mac_locations record) as [_ Hcases].
    destruct (Hcases st1 Hstep)
      as (mac & Hget & [[Ht ->]|(Ht & Hh & location & Hloc & ->)]);
      unfold mac_of; rewrite Hget, Ht; cbn [fst snd andb map].
    + rewrite app_nil_r. reflexivity.
    + rewrite keys_dict_set. unfold dict_contains.
      pose proof (counts_ok _ _ _ Hst mac Ht) as Hc. cbn [fst] in Hc. rewrite Hc.
      destruct (occurrences mac seen =? 0); cbn [map]; [|rewrite app_nil_r];
        rewrite ?Hget; reflexivity.
Qed.

(** A first record is the first occurrence of its identifier. *)
Lemma first_records_first (seen items : list json) (record : json) :
  In record (first_records seen items) ->
  hashable (mac_of record) = true ->
  truthy (mac_of record) = true
  /\ first_occurrence (mac_of record) (seen ++ items) = Some record.
Proof.
  revert seen. induction items as [|r items IH]; intros seen; cbn [first_records];
    [intros []|].
  intros Hin Hh. apply in_app_or in Hin. destruct Hin as [Hin|Hin].
  - destruct (truthy (mac_of r)) eqn:Ht; [|contradiction].
    destruct (occurrences (mac_of r) seen =? 0) eqn:E0; [|contradiction].
    destruct Hin as [<-|[]]. split; [assumption|].
    apply Z.eqb_eq in E0. apply occurrences_zero_iff in E0.
    rewrite first_occurrence_app, E0. unfold first_occurrence. cbn [find].
    assert (Hhas : has_mac (mac_of r) r = true).
    { unfold has_mac, mac_of in *. destruct (py_get r "mac" JNull) as [mac|e].
      - apply py_eqb_refl. assumption.
      - discriminate Ht. }
    rewrite Hhas. reflexivity.
  - destruct (IH (seen ++ [r]) Hin Hh) as [Ht Hf]. split; [assumption|].
    rewrite <- app_assoc in Hf. exact Hf.
Qed.

Lemma pairs_of_keys {V} (d : dict V) (f : json -> V) :
  (forall k c, In (k, c) d -> c = f k) -> d = map (fun k => (k, f k)) (map fst d).
Proof.
  induction d as [|[k c] d IH]; intros H; cbn [map fst]; [reflexivity|].
  rewrite <- IH by (intros; apply H; right; assumption).
  rewrite (H k c (or_introl eq_refl)). reflexivity.
Qed.

Lemma flat_map_select {A B} (p : A -> bool) (g : A -> B) (f : A -> list B) (l : list A) :
  (forall x, In x l -> f x = if p x then [g x] else []) ->
  flat_map f l = map g (filter p l).
Proof.
  induction l as [|x l IH]; intros H; cbn [flat_map filter map]; [reflexivity|].
  rewrite IH by (intros; apply H; right; assumption).
  rewrite (H x (or_introl eq_refl)). destruct (p x); reflexivity.
Qed.

(** The identifiers of the first records can be hashed when the records
    are ones the counting loop can take. *)
Lemma first_records_ok (seen items : list json) (record : json) :
  Forall (fun r => record_ok r = true) items ->
  In record (first_records seen items) ->
  hashable (mac_of record) = true.
Proof.
  intros Hok. revert seen. induction Hok as [|r items Hr _ IH]; intros seen;
    cbn [first_records]; [intros []|].
  intros Hin. apply in_app_or in Hin. destruct Hin as [Hin|Hin]; [|eapply IH; eassumption].
  destruct (truthy (mac_of r)) eqn:Ht; [|contradiction].
  destruct (occurrences (mac_of r) seen =? 0); [|contradiction].
  destruct Hin as [<-|[]].
  unfold record_ok in Hr. unfold mac_of in *.
  destruct (py_get r "mac" JNull) as [mac|e]; [|discriminate].
  rewrite Ht in Hr. exact Hr.
Qed.

(** The analyzer's result on records the counting loop can take. *)
Lemma analyze_expected_missing {lib : Library} (MIN_CHECKINS : Z) (json_output : string)
  (records : json) (items : list json) :
  json_loads json_output = Ok records ->
  py_iter records = Ok items ->
  Forall (fun record => record_ok record = true) items ->
  result_of (sensors_check.analyze_sensor_data MIN_CHECKINS json_output)
  = Returns (expected_missing MIN_CHECKINS items).
Proof.
  intros Hl Hi Hok.
  destruct (counting_loop_total items ([], []) Hok) as [[mac_counts mac_locations] Hloop].
  destruct (analyze_counted MIN_CHECKINS _ _ _ _ _ Hl Hi Hloop) as [Htab ->].
  f_equal.
  pose proof (counting_loop_keys items [] ([], []) _ tables_ok_nil Hloop) as Hkeys.
  cbn [fst map app] in Hkeys.
  rewrite (pairs_of_keys mac_counts (fun k => occurrences k items))
    by (intros k c Hin; apply (items_ok _ _ _ Htab k c Hin)).
  rewrite Hkeys, map_map, flat_map_concat_map, map_map, <- flat_map_concat_map.
  unfold expected_missing. apply flat_map_select.
  intros record Hin.
  pose proof (first_records_ok [] items record Hok Hin) as Hh.
  destruct (first_records_first [] items record Hin Hh) as [Ht Hfirst].
  cbn [app] in Hfirst.
  unfold missing_entry. cbn [fst snd].
  destruct (occurrences (mac_of record) items <? MIN_CHECKINS); [|reflexivity].
  pose proof (locations_ok _ _ _ Htab (mac_of record) Ht) as Hloc.
  rewrite Hfirst in Hloc. destruct Hloc as (l & Hl1 & ->).
  unfold location_of. rewrite Hl1. reflexivity.
Qed.

(** X4. On every input that decodes to records the counting loop can
    take, the analyzer returns exactly the list its docstring describes:
    the sensors with fewer than [MIN_CHECKINS] check-ins, each with the
    identifier and the location of its first record, in the order in
    which the sensors first appear in the input. *)
Theorem X4_analyzer_returns_expected_missing :
  forall (lib : Library) (MIN_CHECKINS : Z) (json_output : string)
         (records : json) (items : list json),
    json_loads json_output = Ok records ->
    py_iter records = Ok items ->
    Forall (fun record => record_ok record = true) items ->
    result_of (sensors_check.analyze_sensor_data MIN_CHECKINS json_output)
    = Returns (expected_missing MIN_CHECKINS items).
Proof.
  intros lib MIN_CHECKINS json_output records items.
  apply analyze_expected_missing.
Qed.

(** X4 at the sample whose last record has no ['location']. *)
Lemma X4_witness :
  result_of (sensors_check.analyze_sensor_data (lib := sample_library) 2 doc_partial)
  = Returns [(JStr "A", JStr "wine"); (JStr "B", JStr "unknown location")].
Proof.
  apply (X4_analyzer_returns_expected_missing sample_library 2 doc_partial
           (JArr [wine "A" "wine"; JObj [("location", JStr "attic")]; JObj [("mac", JStr "B")]])
           [wine "A" "wine"; JObj [("location", JStr "attic")]; JObj [("mac", JStr "B")]]
           eq_refl eq_refl).
  repeat constructor.
Defined.

(** An entry of the output comes from an item of [mac_counts] below the
    minimum. *)
Lemma In_missing_entries (MIN_CHECKINS : Z) (mac_locations : dict json)
  (mac_counts : dict Z) (mac location : json) :
  In (mac, location) (flat_map (missing_entry MIN_CHECKINS mac_locations) mac_counts) ->
  exists count,
    In (mac, count) mac_counts /\ count < MIN_CHECKINS
    /\ dict_get mac_locations mac = Some location.
Proof.
  intros Hin. apply in_flat_map in Hin. destruct Hin as ([k c] & Hkc & Hentry).
  unfold missing_entry in Hentry. cbn [fst snd] in Hentry.
  destruct (c <? MIN_CHECKINS) eqn:E; [|contradiction].
  destruct (dict_get mac_locations k) as [l|] eqn:Hl; [|contradiction].
  destruct Hentry as [Heq|[]]. inversion Heq; subst.
  exists c. repeat split; auto. apply Z.ltb_lt. exact E.
Qed.

Lemma distinct_keys_missing (MIN_CHECKINS : Z) (mac_locations : dict json)
  (mac_counts : dict Z) :
  distinct_keys (map fst mac_counts) ->
  distinct_keys (map fst (flat_map (missing_entry MIN_CHECKINS mac_locations) mac_counts)).
Proof.
  induction mac_counts as [|[k c] mac_counts IH]; cbn [map fst flat_map distinct_keys];
    [trivial|].
  intros [Hk Hd]. rewrite map_app.
  unfold missing_entry at 1. cbn [fst snd].
  destruct (c <? MIN_CHECKINS); [|apply IH; exact Hd].
  destruct (dict_get mac_locations k); [|apply IH; exact Hd].
  cbn [map fst app distinct_keys]. split; [|apply IH; exact Hd].
  intros k' Hin. apply Hk. apply in_map_iff in Hin. destruct Hin as ([k1 l1] & <- & Hin).
  apply In_missing_entries in Hin. destruct Hin as (c1 & Hin & _).
  apply (in_map fst) in Hin. exact Hin.
Qed.

(** X5. Whenever the analyzer returns, every entry of its output is
    sound: its identifier is truthy, occurs in the input at least once and
    fewer than [MIN_CHECKINS] times, and is paired with the ['mac'] and
    the location of the first record of that identifier; and no two
    entries carry the same identifier. *)
Theorem X5_reported_entries_are_sound :
  forall (lib : Library) (MIN_CHECKINS : Z) (json_output : string)
         (records : json) (items : list json) (out : list (json * json)),
    json_loads json_output = Ok records ->
    py_iter records = Ok items ->
    result_of (sensors_check.analyze_sensor_data MIN_CHECKINS json_output) = Returns out ->
    distinct_keys (map fst out)
    /\ forall mac location,
        In (mac, location) out ->
        truthy mac = true
        /\ 0 < occurrences mac items < MIN_CHECKINS
        /\ exists record,
            first_occurrence mac items = Some record
            /\ py_get record "mac" JNull = Ok mac
            /\ py_get record "location" (JStr "unknown location") = Ok location.
Proof.
  intros lib MIN_CHECKINS json_output records items out Hl Hi Hout.
  destruct (analyze_returned MIN_CHECKINS _ _ _ _ Hl Hi Hout)
    as (mac_counts & mac_locations & _ & Htab & ->).
  split.
  - apply distinct_keys_missing. exact (keys_ok _ _ _ Htab).
  - intros mac location Hin.
    apply In_missing_entries in Hin. destruct Hin as (count & Hin & Hlt & Hloc).
    destruct (items_ok _ _ _ Htab mac count Hin) as (Ht & -> & record & Hfirst & Hmac).
    split; [exact Ht|]. split.
    + split; [|exact Hlt].
      destruct (Z.eq_dec (occurrences mac items) 0) as [E0|E0].
      * apply occurrences_zero_iff in E0. congruence.
      * pose proof (occurrences_nonneg mac items). lia.
    + exists record. split; [exact Hfirst|]. split; [exact Hmac|].
      pose proof (locations_ok _ _ _ Htab mac Ht) as Hl0. rewrite Hfirst in Hl0.
      destruct Hl0 as (l & Hl1 & Hl2). congruence.
Qed.

(** X5 at the sample with three check-ins of A and one of B. *)
Lemma X5_witness :
  distinct_keys (map fst [(JStr "B", JStr "attic")])
  /\ forall mac location,
      In (mac, location) [(JStr "B", JStr "attic")] ->
      truthy mac = true
      /\ 0 < occurrences mac
               [wine "A" "wine"; wine "A" "wine"; wine "B" "attic"; wine "A" "wine"] < 2
      /\ exists record,
          first_occurrence mac
            [wine "A" "wine"; wine "A" "wine"; wine "B" "attic"; wine "A" "wine"]
          = Some record
          /\ py_get record "mac" JNull = Ok mac
          /\ py_get record "location" (JStr "unknown location") = Ok location.
Proof.
  exact (X5_reported_entries_are_sound sample_library 2 doc_mixed
           (JArr [wine "A" "wine"; wine "A" "wine"; wine "B" "attic"; wine "A" "wine"])
           [wine "A" "wine"; wine "A" "wine"; wine "B" "attic"; wine "A" "wine"]
           [(JStr "B", JStr "attic")] eq_refl eq_refl eq_refl).
Defined.

(** X6. With [MIN_CHECKINS] at most 1 the analyzer reports nothing: a
    sensor is counted only when it has a record, so no count is below 1.
    On records the counting loop can take it returns the empty list. *)
Theorem X6_minimum_of_one_reports_nothing :
  forall (lib : Library) (MIN_CHECKINS : Z) (json_output : string)
         (records : json) (items : list json),
    json_loads json_output = Ok records ->
    py_iter records = Ok items ->
    MIN_CHECKINS <= 1 ->
    (forall out,
        result_of (sensors_check.analyze_sensor_data MIN_CHECKINS json_output) = Returns out ->
        out = [])
    /\ (Forall (fun record => record_ok record = true) items ->
        result_of (sensors_check.analyze_sensor_data MIN_CHECKINS json_output) = Returns []).
Proof.
  intros lib MIN_CHECKINS json_output records items Hl Hi Hmin.
  assert (Hnone : forall out,
             result_of (sensors_check.analyze_sensor_data MIN_CHECKINS json_output)
             = Returns out -> out = []).
  { intros out Hout.
    destruct (analyze_returned MIN_CHECKINS _ _ _ _ Hl Hi Hout)
      as (mac_counts & mac_locations & _ & Htab & ->).
    destruct (flat_map (missing_entry MIN_CHECKINS mac_locations) mac_counts)
      as [|[mac location] rest] eqn:E; [reflexivity|].
    exfalso.
    assert (Hin : In (mac, location)
                     (flat_map (missing_entry MIN_CHECKINS mac_locations) mac_counts))
      by (rewrite E; left; reflexivity).
    apply In_missing_entries in Hin. destruct Hin as (count & Hin & Hlt & _).
    destruct (items_ok _ _ _ Htab mac count Hin) as (_ & -> & record & Hfirst & _).
    destruct (Z.eq_dec (occurrences mac items) 0) as [E0|E0].
    - apply occurrences_zero_iff in E0. congruence.
    - pose proof (occurrences_nonneg mac items). lia. }
  split; [exact Hnone|].
  intros Hok.
  destruct (counting_loop_total items ([], []) Hok) as [[mac_counts mac_locations] Hloop].
  destruct (analyze_counted MIN_CHECKINS _ _ _ _ _ Hl Hi Hloop) as [_ Hres].
  rewrite Hres. f_equal. apply Hnone. exact Hres.
Qed.

(** X6 at the sample with a single check-in and the minimum 1. *)
Lemma X6_witness :
  result_of (sensors_check.analyze_sensor_data (lib := sample_library) 1 doc_single)
  = Returns [].
Proof.
  apply (proj2 (X6_minimum_of_one_reports_nothing sample_library 1 doc_single
                  (JArr [wine "A" "wine"]) [wine "A" "wine"] eq_refl eq_refl
                  ltac:(vm_compute; discriminate))).
  repeat constructor.
Defined.

Lemma missing_entries_filter (MIN1 MIN2 : Z) (mac_locations : dict json)
  (mac_counts : dict Z) (f : json -> Z) :
  MIN1 <= MIN2 ->
  (forall k c, In (k, c) mac_counts -> c = f k) ->
  flat_map (missing_entry MIN1 mac_locations) mac_counts
  = filter (fun entry => f (fst entry) <? MIN1)
      (flat_map (missing_entry MIN2 mac_locations) mac_counts).
Proof.
  intros Hle. induction mac_counts as [|[k c] mac_counts IH]; intros Hf;
    cbn [flat_map]; [reflexivity|].
  rewrite filter_app, <- IH by (intros; apply Hf; right; assumption).
  f_equal. rewrite (Hf k c (or_introl eq_refl)).
  unfold missing_entry. cbn [fst snd].
  destruct (f k <? MIN1) eqn:E1.
  - assert (E2 : (f k <? MIN2) = true) by (apply Z.ltb_lt; apply Z.ltb_lt in E1; lia).
    rewrite E2. destruct (dict_get mac_locations k); [|reflexivity].
    cbn [filter fst]. rewrite E1. reflexivity.
  - destruct (f k <? MIN2); [|reflexivity].
    destruct (dict_get mac_locations k); [|reflexivity].
    cbn [filter fst]. rewrite E1. reflexivity.
Qed.

(** X7. Lowering [MIN_CHECKINS] only removes entries: on the same input,
    the output for a smaller minimum is the output for a larger one with
    the sensors that reach the smaller minimum left out, in the same
    order. *)
Theorem X7_lower_minimum_reports_less :
  forall (lib : Library) (MIN1 MIN2 : Z) (json_output : string)
         (records : json) (items : list json),
    json_loads json_output = Ok records ->
    py_iter records = Ok items ->
    Forall (fun record => record_ok record = true) items ->
    MIN1 <= MIN2 ->
    exists out1 out2,
      result_of (sensors_check.analyze_sensor_data MIN1 json_output) = Returns out1
      /\ result_of (sensors_check.analyze_sensor_data MIN2 json_output) = Returns out2
      /\ out1 = filter (fun entry => occurrences (fst entry) items <? MIN1) out2.
Proof.
  intros lib MIN1 MIN2 json_output records items Hl Hi Hok Hle.
  destruct (counting_loop_total items ([], []) Hok) as [[mac_counts mac_locations] Hloop].
  destruct (analyze_counted MIN1 _ _ _ _ _ Hl Hi Hloop) as [Htab Hres1].
  destruct (analyze_counted MIN2 _ _ _ _ _ Hl Hi Hloop) as [_ Hres2].
  eexists. eexists. split; [exact Hres1|]. split; [exact Hres2|].
  apply (missing_entries_filter MIN1 MIN2 mac_locations mac_counts
           (fun mac => occurrences mac items) Hle).
  intros k c Hin. apply (items_ok _ _ _ Htab k c Hin).
Qed.

(** X7 at the sample with three check-ins of A and one of B, for the
    minimums 2 and 4. *)
Lemma X7_witness :
  exists out1 out2,
    result_of (sensors_check.analyze_sensor_data (lib := sample_library) 2 doc_mixed)
    = Returns out1
    /\ result_of (sensors_check.analyze_sensor_data (lib := sample_library) 4 doc_mixed)
       = Returns out2
    /\ out1 = filter (fun entry =>
                        occurrences (fst entry)
                          [wine "A" "wine"; wine "A" "wine"; wine "B" "attic"; wine "A" "wine"]
                        <? 2) out2.
Proof.
  apply (X7_lower_minimum_reports_less sample_library 2 4 doc_mixed
           (JArr [wine "A" "wine"; wine "A" "wine"; wine "B" "attic"; wine "A" "wine"])
           [wine "A" "wine"; wine "A" "wine"; wine "B" "attic"; wine "A" "wine"]
           eq_refl eq_refl).
  - repeat constructor.
  - vm_compute. discriminate.
Defined.

(** * What the analyzer logs *)

Lemma reporting_loop_lines {lib : Library} (MIN_CHECKINS : Z) (mac_locations : dict json)
  (mac_counts : dict Z) (missing_checkins : list (json * json)) :
  (forall k c, In (k, c) mac_counts -> exists l, dict_get mac_locations k = Some l) ->
  trace_of (for_each mac_counts (sensors_check.report_mac MIN_CHECKINS mac_locations)
              missing_checkins)
  = map (fun item =>
           Log INFO ("MAC: " +++ py_str (fst item) +++ ", Location: "
                     +++ py_str (match dict_get mac_locations (fst item) with
                                 | Some l => l | None => JNull end)
                     +++ ", Entries: " +++ str_of_int (snd item)))
        mac_counts.
Proof.
  revert missing_checkins.
  induction mac_counts as [|[mac count] mac_counts IH]; intros missing_checkins Hin;
    cbn [for_each map]; [reflexivity|].
  rewrite trace_of_bind.
  destruct (Hin mac count (or_introl eq_refl)) as [l Hl].
  unfold sensors_check.report_mac at 1 2, logger_info. rewrite bind_emit.
  cbn [trace_of result_of fst snd].
  destruct (count <? MIN_CHECKINS).
  - unfold dict_getitem. rewrite Hl, bind_lift_Ok.
    cbn [ret trace_of result_of fst snd app].
    rewrite IH by (intros; eapply Hin; right; eassumption). reflexivity.
  - cbn [ret trace_of result_of fst snd app].
    rewrite IH by (intros; eapply Hin; right; eassumption). reflexivity.
Qed.

(** X8. On decoded text that is a list of dicts whose truthy ['mac']
    values are hashable, the analyzer logs one record per sensor and
    nothing else: in the order in which the sensors first appear, the
    identifier, the location of the sensor's first record and the number
    of records of the sensor in the whole input; the log does not depend
    on [MIN_CHECKINS]. *)
Theorem X8_analyzer_logs_one_line_per_sensor :
  forall (lib : Library) (MIN_CHECKINS : Z) (json_output : string)
         (records : json) (items : list json),
    json_loads json_output = Ok records ->
    py_iter records = Ok items ->
    Forall (fun record => record_ok record = true) items ->
    trace_of (sensors_check.analyze_sensor_data MIN_CHECKINS json_output)
    = map (summary_line items) (first_records [] items).
Proof.
  intros lib MIN_CHECKINS json_output records items Hl Hi Hok.
  destruct (counting_loop_total items ([], []) Hok) as [[mac_counts mac_locations] Hloop].
  destruct (analyze_counted MIN_CHECKINS _ _ _ _ _ Hl Hi Hloop) as [Htab _].
  rewrite (analyze_decoded MIN_CHECKINS _ _ _ Hl Hi), trace_of_bind, Hloop.
  rewrite counting_loop_trace. cbn [app].
  rewrite reporting_loop_lines.
  - pose proof (counting_loop_keys items [] ([], []) _ tables_ok_nil Hloop) as Hkeys.
    cbn [fst map app] in Hkeys.
    rewrite (pairs_of_keys mac_counts (fun k => occurrences k items))
      by (intros k c Hin; apply (items_ok _ _ _ Htab k c Hin)).
    rewrite Hkeys, !map_map. apply map_ext_in.
    intros record Hin. cbn [fst snd]. unfold summary_line.
    pose proof (first_records_ok [] items record Hok Hin) as Hh.
    destruct (first_records_first [] items record Hin Hh) as [Ht Hfirst].
    cbn [app] in Hfirst.
    pose proof (locations_ok _ _ _ Htab (mac_of record) Ht) as Hloc.
    rewrite Hfirst in Hloc. destruct Hloc as (l & Hl1 & ->).
    unfold location_of. rewrite Hl1. reflexivity.
  - intros k c Hin.
    destruct (items_ok _ _ _ Htab k c Hin) as (Hk & _ & r & Hr & _).
    pose proof (locations_ok _ _ _ Htab k Hk) as Hloc. rewrite Hr in Hloc.
    destruct Hloc as (l & _ & Hl2). eauto.
Qed.

(** X8 at the sample with three check-ins of A and one of B. *)
Lemma X8_witness :
  trace_of (sensors_check.analyze_sensor_data (lib := sample_library) 2 doc_mixed)
  = [Log INFO "MAC: A, Location: wine, Entries: 3";
     Log INFO "MAC: B, Location: attic, Entries: 1"].
Proof.
  apply (X8_analyzer_logs_one_line_per_sensor sample_library 2 doc_mixed
           (JArr [wine "A" "wine"; wine "A" "wine"; wine "B" "attic"; wine "A" "wine"])
           [wine "A" "wine"; wine "A" "wine"; wine "B" "attic"; wine "A" "wine"]
           eq_refl eq_refl).
  repeat constructor.
Defined.

(** * The remote query and the notifier of the sensor script *)

Lemma commands_app (t1 t2 : list event) : commands (t1 ++ t2) = commands t1 ++ commands t2.
Proof.
  induction t1 as [|ev t1 IH]; simpl; [reflexivity|].
  destruct ev; simpl; rewrite IH; reflexivity.
Qed.

Lemma logs_app (t1 t2 : list event) : logs (t1 ++ t2) = logs t1 ++ logs t2.
Proof.
  induction t1 as [|ev t1 IH]; simpl; [reflexivity|].
  destruct ev; simpl; rewrite IH; reflexivity.
Qed.

Lemma connects_of_logs (t : list event) :
  Forall (fun ev => exists lvl msg, ev = Log lvl msg) t -> connects t = 0%nat.
Proof.
  induction 1 as [|ev t (lvl & msg & ->) _ IH]; simpl; auto.
Qed.

Lemma commands_of_logs (t : list event) :
  Forall (fun ev => exists lvl msg, ev = Log lvl msg) t -> commands t = [].
Proof.
  induction 1 as [|ev t (lvl & msg & ->) _ IH]; simpl; auto.
Qed.

(** X9. [execute_sql_query] connects once and keeps no failure to itself:
    it returns the standard output of the one command it runs, or raises
    the very exception of the connection or of the command; it runs no
    command after a failed connection; and besides the query it logs one
    record, an SSH connection error, exactly when that exception is an
    [asyncssh.Error]. *)
Theorem X9_execute_sql_query_reraises :
  forall (DATABASE_PATH : option string) (w : sensors_check.world)
         (host username : option string) (sql : string),
    result_of (sensors_check.execute_sql_query DATABASE_PATH w host username sql)
    = match sensors_check.ssh_connect w host username with
      | Raise e => Raises e
      | Ok _ =>
          match sensors_check.ssh_run w
                  ("sqlite3 -json " +++ str_of_env DATABASE_PATH +++ " "
                   +++ dquote +++ sql +++ dquote) with
          | Ok stdout => Returns stdout
          | Raise e => Raises e
          end
      end
    /\ connects (trace_of (sensors_check.execute_sql_query DATABASE_PATH w host username sql))
       = 1%nat
    /\ commands (trace_of (sensors_check.execute_sql_query DATABASE_PATH w host username sql))
       = match sensors_check.ssh_connect w host username with
         | Raise _ => []
         | Ok _ => ["sqlite3 -json " +++ str_of_env DATABASE_PATH +++ " "
                    +++ dquote +++ sql +++ dquote]
         end
    /\ logs (trace_of (sensors_check.execute_sql_query DATABASE_PATH w host username sql))
       = (DEBUG, "Executing query: " +++ sql)
         :: match result_of (sensors_check.execute_sql_query DATABASE_PATH w host
                               username sql) with
            | Raises e =>
                if is_asyncssh_Error e
                then [(ERROR, "SSH connection error: " +++ error_str e)]
                else []
            | _ => []
            end.
Proof.
  intros DATABASE_PATH w host username sql.
  unfold sensors_check.execute_sql_query, logger_debug. rewrite bind_emit.
  destruct (sensors_check.ssh_connect w host username) as [[]|e1].
  - rewrite bind_emit, bind_lift_Ok, bind_emit.
    destruct (sensors_check.ssh_run w _) as [stdout|e2].
    + repeat split.
    + destruct e2; repeat split.
  - destruct e1; repeat split.
Qed.

(** X10. One call of the sensor script's [send_notification] sends at
    most one request and opens no SSH connection.  A request is sent only
    when host and topic are set; it goes to [host/topic], carries
    credentials exactly when both username and password are set, and a
    [Tags] header exactly when there are emojis.  What is sent does not
    depend on what the server answers. *)
Theorem X10_sensor_notification_request :
  forall (lib : Library)
         (NTFY_HOST NTFY_SENSOR_TOPIC NTFY_USERNAME NTFY_PASSWORD : option string)
         (w : sensors_check.world) (title message : string) (emojis : list string)
         (priority : string),
    (List.length (posts (trace_of (sensors_check.send_notification NTFY_HOST
                                     NTFY_SENSOR_TOPIC NTFY_USERNAME NTFY_PASSWORD w
                                     title message emojis priority))) <= 1)%nat
    /\ connects (trace_of (sensors_check.send_notification NTFY_HOST NTFY_SENSOR_TOPIC
                             NTFY_USERNAME NTFY_PASSWORD w title message emojis priority))
       = 0%nat
    /\ (forall req,
          In req (posts (trace_of (sensors_check.send_notification NTFY_HOST
                                     NTFY_SENSOR_TOPIC NTFY_USERNAME NTFY_PASSWORD w
                                     title message emojis priority))) ->
          env_truthy NTFY_HOST = true /\ env_truthy NTFY_SENSOR_TOPIC = true
          /\ url req = str_of_env NTFY_HOST +++ "/" +++ str_of_env NTFY_SENSOR_TOPIC
          /\ (if env_truthy NTFY_USERNAME && env_truthy NTFY_PASSWORD
              then exists c, BasicAuth NTFY_USERNAME NTFY_PASSWORD = Ok c
                             /\ auth req = Some c
              else auth req = None)
          /\ header "Tags" (headers req)
             = match emojis with [] => None | _ => Some (join "," emojis) end)
    /\ (forall post,
          posts (trace_of (sensors_check.send_notification NTFY_HOST NTFY_SENSOR_TOPIC
                             NTFY_USERNAME NTFY_PASSWORD (with_http_post w post)
                             title message emojis priority))
          = posts (trace_of (sensors_check.send_notification NTFY_HOST NTFY_SENSOR_TOPIC
                               NTFY_USERNAME NTFY_PASSWORD w
                               title message emojis priority))).
Proof.
  intros lib NTFY_HOST NTFY_SENSOR_TOPIC NTFY_USERNAME NTFY_PASSWORD w title message
    emojis priority.
  split; [|split; [|split]].
  - rewrite send_notification_requests.
    destruct (env_truthy NTFY_HOST && env_truthy NTFY_SENSOR_TOPIC); [|cbn; lia].
    destruct (env_truthy NTFY_USERNAME && env_truthy NTFY_PASSWORD); [|cbn; lia].
    destruct (BasicAuth NTFY_USERNAME NTFY_PASSWORD); cbn; lia.
  - apply send_notification_no_ssh.
  - intros req. rewrite send_notification_requests.
    destruct (env_truthy NTFY_HOST), (env_truthy NTFY_SENSOR_TOPIC); cbn [andb];
      try (intros []).
    destruct (env_truthy NTFY_USERNAME && env_truthy NTFY_PASSWORD).
    + destruct (BasicAuth NTFY_USERNAME NTFY_PASSWORD) as [c|e]; [|intros []].
      intros [<-|[]]. cbn [url auth headers].
      repeat split; [eauto|]. destruct emojis; reflexivity.
    + intros [<-|[]]. cbn [url auth headers].
      repeat split. destruct emojis; reflexivity.
  - intros post. rewrite !send_notification_requests. reflexivity.
Qed.

(** X11. Every call of the sensor script's [send_notification] ends its
    log with the outcome: an INFO record with the server's answer exactly
    when a request was sent and answered with a 2xx status, and an ERROR
    record in every other case (settings missing, credentials refused,
    request failed, other status); whatever it logs before is INFO. *)
Theorem X11_sensor_notification_logs_outcome :
  forall (lib : Library)
         (NTFY_HOST NTFY_SENSOR_TOPIC NTFY_USERNAME NTFY_PASSWORD : option string)
         (w : sensors_check.world) (title message : string) (emojis : list string)
         (priority : string),
  exists before lvl msg,
    logs (trace_of (sensors_check.send_notification NTFY_HOST NTFY_SENSOR_TOPIC
                      NTFY_USERNAME NTFY_PASSWORD w title message emojis priority))
    = before ++ [(lvl, msg)]
    /\ Forall (fun record => fst record = INFO) before
    /\ ((lvl = INFO
         /\ exists req response,
             posts (trace_of (sensors_check.send_notification NTFY_HOST NTFY_SENSOR_TOPIC
                                NTFY_USERNAME NTFY_PASSWORD w title message emojis
                                priority)) = [req]
             /\ sensors_check.http_post w req = Ok response
             /\ 200 <= status_code response < 300
             /\ msg = "Notification sent successfully: " +++ text response)
        \/ (lvl = ERROR
            /\ forall req response,
                In req (posts (trace_of (sensors_check.send_notification NTFY_HOST
                                           NTFY_SENSOR_TOPIC NTFY_USERNAME NTFY_PASSWORD w
                                           title message emojis priority))) ->
                sensors_check.http_post w req = Ok response ->
                ~ 200 <= status_code response < 300)).
Proof.
  intros lib NTFY_HOST NTFY_SENSOR_TOPIC NTFY_USERNAME NTFY_PASSWORD w title message
    emojis priority.
  unfold sensors_check.send_notification.
  destruct (negb (env_truthy NTFY_HOST) || negb (env_truthy NTFY_SENSOR_TOPIC)).
  { exists [], ERROR. eexists. split; [reflexivity|]. split; [constructor|].
    right. split; [reflexivity|]. intros req response []. }
  assert (Hsent : forall credentials,
    let request :=
      {| url := str_of_env NTFY_HOST +++ "/" +++ str_of_env NTFY_SENSOR_TOPIC;
         auth := credentials;
         data := message;
         headers := [("Title", title); ("Priority", priority)]
                    ++ match emojis with
                       | [] => []
                       | _ => [("Tags", join "," emojis)]
                       end |} in
    let call :=
      try_excepts
        (logger_info ("Sending notification to " +++ str_of_env NTFY_HOST
                      +++ "/" +++ str_of_env NTFY_SENSOR_TOPIC) ;;
         emit (HttpPost request) ;;
         response <- lift (sensors_check.http_post w request) ;;
         lift (raise_for_status response) ;;
         logger_info ("Notification sent successfully: " +++ text response))
        [ (is_HTTPStatusError,
           fun e => match e with
                    | HTTPStatusError _ response =>
                        logger_error ("HTTP error sending notification: "
                                      +++ str_of_int (status_code response)
                                      +++ " - " +++ text response)
                    | _ => ret tt
                    end);
          (is_Exception,
           fun e => logger_error ("Failed to send notification: " +++ error_str e)) ] in
    exists before lvl msg,
      logs (trace_of call) = before ++ [(lvl, msg)]
      /\ Forall (fun record => fst record = INFO) before
      /\ ((lvl = INFO
           /\ exists req response,
               posts (trace_of call) = [req]
               /\ sensors_check.http_post w req = Ok response
               /\ 200 <= status_code response < 300
               /\ msg = "Notification sent successfully: " +++ text response)
          \/ (lvl = ERROR
              /\ forall req response,
                  In req (posts (trace_of call)) ->
                  sensors_check.http_post w req = Ok response ->
                  ~ 200 <= status_code response < 300))).
  { intros credentials request call. subst call.
    unfold logger_info at 1. rewrite bind_emit, bind_emit.
    destruct (sensors_check.http_post w request) as [response|e] eqn:Hpost.
    - rewrite bind_lift_Ok. unfold raise_for_status.
      destruct ((200 <=? status_code response) && (status_code response <? 300)) eqn:Hs.
      + exists [(INFO, "Sending notification to " +++ str_of_env NTFY_HOST
                        +++ "/" +++ str_of_env NTFY_SENSOR_TOPIC)], INFO.
        eexists. split; [reflexivity|]. split; [repeat constructor|].
        left. split; [reflexivity|]. exists request, response.
        split; [reflexivity|]. split; [exact Hpost|]. split; [|reflexivity].
        apply andb_true_iff in Hs. destruct Hs as [H1 H2].
        apply Z.leb_le in H1. apply Z.ltb_lt in H2. lia.
      + exists [(INFO, "Sending notification to " +++ str_of_env NTFY_HOST
                        +++ "/" +++ str_of_env NTFY_SENSOR_TOPIC)], ERROR.
        eexists. split; [reflexivity|]. split; [repeat constructor|].
        right. split; [reflexivity|].
        intros req response' [<-|[]] Hpost' Hrange.
        rewrite Hpost in Hpost'. inversion Hpost'; subst response'.
        apply andb_false_iff in Hs.
        destruct Hs as [H1|H2]; [apply Z.leb_gt in H1|apply Z.ltb_ge in H2]; lia.
    - exists [(INFO, "Sending notification to " +++ str_of_env NTFY_HOST
                      +++ "/" +++ str_of_env NTFY_SENSOR_TOPIC)], ERROR.
      destruct e; (eexists; split; [reflexivity|]; split; [repeat constructor|];
                   right; split; [reflexivity|];
                   intros req response' [<-|[]] Hpost'; congruence). }
  destruct (env_truthy NTFY_USERNAME && env_truthy NTFY_PASSWORD).
  - destruct (BasicAuth NTFY_USERNAME NTFY_PASSWORD) as [c|e].
    + rewrite bind_lift_Ok, bind_ret. exact (Hsent (Some c)).
    + exists [], ERROR.
      destruct e; (eexists; split; [reflexivity|]; split; [apply Forall_nil|];
                   right; split; [reflexivity|]; intros req response' []).
  - rewrite bind_ret. exact (Hsent None).
Qed.

(** * Every run of the sensor script *)

(** Nothing below [main] leaves the process. *)
Lemma for_each_never_exits {A S} (body : S -> A -> M S) (xs : list A) (st : S) (c : Z) :
  (forall st' x, result_of (body st' x) <> Exits c) ->
  result_of (for_each xs body st) <> Exits c.
Proof.
  intros Hbody. revert st. induction xs as [|x xs IH]; intros st; cbn [for_each];
    [discriminate|].
  rewrite result_of_bind.
  destruct (result_of (body st x)) as [st'|e|c'] eqn:E; [apply IH|discriminate|].
  intros H. inversion H; subst. exact (Hbody st x E).
Qed.

Lemma analyze_never_exits {lib : Library} (MIN_CHECKINS : Z) (json_output : string) (c : Z) :
  result_of (sensors_check.analyze_sensor_data MIN_CHECKINS json_output) <> Exits c.
Proof.
  unfold sensors_check.analyze_sensor_data.
  destruct (strip json_output =? "")%string; [discriminate|].
  destruct (json_loads json_output) as [records|e]; [|destruct e; discriminate].
  rewrite result_of_bind. destruct (py_iter records) as [items|e]; [|discriminate].
  cbn [lift result_of snd]. rewrite result_of_bind.
  destruct (result_of (for_each items sensors_check.count_record ([], [])))
    as [[mac_counts mac_locations]|e|c'] eqn:E.
  - apply for_each_never_exits. intros missing [mac count].
    unfold sensors_check.report_mac, logger_info. rewrite bind_emit.
    cbn [result_of snd]. destruct (count <? MIN_CHECKINS); [|discriminate].
    unfold dict_getitem. destruct (dict_get mac_locations mac); discriminate.
  - discriminate.
  - exfalso. revert E. apply for_each_never_exits.
    intros [mac_counts mac_locations] record. unfold sensors_check.count_record.
    rewrite result_of_bind. destruct (py_get record "mac" JNull) as [mac|e];
      [|discriminate].
    cbn [lift result_of snd]. destruct (negb (truthy mac)); [discriminate|].
    rewrite result_of_bind. unfold defaultdict_incr.
    destruct (py_hash mac) as [[]|e]; [|discriminate].
    cbn [lift result_of snd].
    destruct (negb (dict_contains mac_locations mac)); [|discriminate].
    rewrite result_of_bind.
    destruct (py_get record "location" (JStr "unknown location")); discriminate.
Qed.

Lemma execute_sql_query_result (DATABASE_PATH : option string) (w : sensors_check.world)
  (host username : option string) (sql : string) :
  (List.length (commands (trace_of (sensors_check.execute_sql_query DATABASE_PATH w host
                                      username sql))) <= 1)%nat
  /\ forall c,
      result_of (sensors_check.execute_sql_query DATABASE_PATH w host username sql)
      <> Exits c.
Proof.
  unfold sensors_check.execute_sql_query, logger_debug. rewrite bind_emit.
  destruct (sensors_check.ssh_connect w host username) as [[]|e1].
  - rewrite bind_emit, bind_lift_Ok, bind_emit.
    destruct (sensors_check.ssh_run w _) as [stdout|e2].
    + split; [cbn; lia|discriminate].
    + destruct e2; (split; [cbn; lia|discriminate]).
  - destruct e1; (split; [cbn; lia|discriminate]).
Qed.

Section SensorRun.

Context {lib : Library}.
Variables (MINUTES_AGO MIN_CHECKINS : Z).
Variables (NTFY_HOST NTFY_SENSOR_TOPIC NTFY_USERNAME NTFY_PASSWORD : option string).
Variables (SSH_HOST SSH_USERNAME DATABASE_PATH : option string).
Variable w : sensors_check.world.

Lemma build_query_cases :
  (exists sql, sensors_check.build_query MINUTES_AGO w = ret sql)
  \/ (exists e, sensors_check.build_query MINUTES_AGO w = raise e).
Proof.
  unfold sensors_check.build_query.
  destruct (sensors_check.clock_cutoff w MINUTES_AGO) as [cutoff|e].
  - left. eexists. rewrite bind_lift_Ok. reflexivity.
  - right. exists e. reflexivity.
Qed.

Lemma sensor_run_unconfigured :
  configured NTFY_HOST NTFY_SENSOR_TOPIC SSH_HOST SSH_USERNAME DATABASE_PATH = false ->
  exists msg,
    sensor_run MINUTES_AGO MIN_CHECKINS NTFY_HOST NTFY_SENSOR_TOPIC NTFY_USERNAME
      NTFY_PASSWORD SSH_HOST SSH_USERNAME DATABASE_PATH w
    = ([Log ERROR msg], Exits 1).
Proof.
  unfold configured, sensor_run, sensors_check.main. intros H.
  cbn [filter map fst snd].
  destruct (env_truthy NTFY_HOST), (env_truthy NTFY_SENSOR_TOPIC),
    (env_truthy SSH_HOST), (env_truthy SSH_USERNAME), (env_truthy DATABASE_PATH);
    try discriminate H; cbn [negb map fst]; eexists; reflexivity.
Qed.

(** A configured run whose clock fails stops before it connects. *)
Lemma sensor_run_clock_fails :
  configured NTFY_HOST NTFY_SENSOR_TOPIC SSH_HOST SSH_USERNAME DATABASE_PATH = true ->
  (exists e, sensors_check.build_query MINUTES_AGO w = raise e)
  \/ (exists e, sensors_check.clock_since w MINUTES_AGO = Raise e) ->
  sensor_run MINUTES_AGO MIN_CHECKINS NTFY_HOST NTFY_SENSOR_TOPIC NTFY_USERNAME
    NTFY_PASSWORD SSH_HOST SSH_USERNAME DATABASE_PATH w
  = ([Log ERROR "An unhandled error occurred during script execution."], Exits 1).
Proof.
  intros Hc Hfail. apply configured_true in Hc. destruct Hc as (E1 & E2 & E3 & E4 & E5).
  unfold sensor_run, sensors_check.main. cbn [filter map fst snd].
  rewrite E1, E2, E3, E4, E5. cbn [negb map fst].
  destruct Hfail as [[e Hq]|[e Hs]].
  - rewrite Hq. reflexivity.
  - destruct build_query_cases as [[sql Hq]|[e' Hq]]; rewrite Hq; [|reflexivity].
    rewrite bind_ret, Hs. reflexivity.
Qed.

(** A configured run whose clock answers, as a function of what the
    remote query and the analyzer do. *)
Lemma sensor_run_normal_form (sql since : string) :
  configured NTFY_HOST NTFY_SENSOR_TOPIC SSH_HOST SSH_USERNAME DATABASE_PATH = true ->
  sensors_check.build_query MINUTES_AGO w = ret sql ->
  sensors_check.clock_since w MINUTES_AGO = Ok since ->
  sensor_run MINUTES_AGO MIN_CHECKINS NTFY_HOST NTFY_SENSOR_TOPIC NTFY_USERNAME
    NTFY_PASSWORD SSH_HOST SSH_USERNAME DATABASE_PATH w
  = let fetch := sensors_check.execute_sql_query DATABASE_PATH w SSH_HOST SSH_USERNAME sql in
    let querying := Log INFO ("Querying for data since: " +++ since) in
    let unhandled := Log ERROR "An unhandled error occurred during script execution." in
    match result_of fetch with
    | Exits c => (querying :: trace_of fetch, Exits c)
    | Raises _ => (querying :: trace_of fetch ++ [unhandled], Exits 1)
    | Returns stdout =>
        if (strip stdout =? "")%string then
          (querying :: trace_of fetch
             ++ [Log DEBUG ("JSON output: " +++ stdout);
                 Log WARNING "No sensor data found in time period. All sensors may be offline."]
             ++ trace_of (sensors_check.send_notification NTFY_HOST NTFY_SENSOR_TOPIC
                            NTFY_USERNAME NTFY_PASSWORD w
                            "Sensor Check-in Alert"
                            ("No sensor data received in the last "
                             +++ str_of_int MINUTES_AGO
                             +++ " minutes. All sensors may be offline.")
                            ["warning"; "thermometer"] "4"),
           Returns tt)
        else
          let analysis := sensors_check.analyze_sensor_data MIN_CHECKINS stdout in
          let analyzing :=
            querying :: trace_of fetch
              ++ Log DEBUG ("JSON output: " +++ stdout) :: trace_of analysis in
          match result_of analysis with
          | Exits c => (analyzing, Exits c)
          | Raises _ => (analyzing ++ [unhandled], Exits 1)
          | Returns [] =>
              (analyzing
                 ++ [Log INFO ("All sensors have sufficient check-ins in the last "
                               +++ str_of_int MINUTES_AGO +++ " minutes.")],
               Returns tt)
          | Returns (entry :: rest) =>
              (analyzing
                 ++ Log WARNING ("Missing check-ins detected for "
                                 +++ str_of_int (Z.of_nat (List.length (entry :: rest)))
                                 +++ " sensor(s).")
                 :: trace_of (sensors_check.send_notification NTFY_HOST NTFY_SENSOR_TOPIC
                                NTFY_USERNAME NTFY_PASSWORD w
                                "Sensor Check-in Alert"
                                ("Missing check-ins detected for "
                                 +++ str_of_int (Z.of_nat (List.length (entry :: rest)))
                                 +++ " sensor(s):" +++ newline
                                 +++ join newline
                                       (map (fun '(mac, location) =>
                                               py_str mac +++ " (" +++ py_str location
                                               +++ ")")
                                            (entry :: rest)))
                                ["warning"; "thermometer"] "2"),
               Returns tt)
          end
    end.
Proof.
  intros Hc Hq Hs. apply configured_true in Hc. destruct Hc as (E1 & E2 & E3 & E4 & E5).
  unfold sensor_run, sensors_check.main. cbn [filter map fst snd].
  rewrite E1, E2, E3, E4, E5. cbn [negb map fst].
  rewrite Hq, bind_ret, Hs, bind_lift_Ok. unfold logger_info at 1. rewrite bind_emit.
  cbv zeta.
  generalize (sensors_check.execute_sql_query DATABASE_PATH w SSH_HOST SSH_USERNAME sql).
  intros [fetched [stdout|e|c]]; cbn [trace_of result_of fst snd]; [|reflexivity..].
  rewrite bind_returns. unfold logger_debug at 1. rewrite bind_emit.
  destruct (strip stdout =? "")%string.
  - unfold logger_warning at 1. rewrite bind_emit.
    cbn [trace_of result_of fst snd].
    rewrite !result_of_bind. cbn [logger_debug logger_warning emit result_of snd].
    rewrite !send_notification_result.
    cbn [try_excepts app]. rewrite <- ?app_assoc. reflexivity.
  - generalize (sensors_check.analyze_sensor_data MIN_CHECKINS stdout).
    intros [analyzed [[|entry rest]|e|c]]; cbn [trace_of result_of fst snd].
    + rewrite bind_returns. cbn [trace_of result_of fst snd logger_info emit try_excepts app].
      rewrite <- !app_assoc. reflexivity.
    + rewrite bind_returns. unfold logger_warning at 1. rewrite bind_emit.
      cbn [trace_of result_of fst snd].
      rewrite !result_of_bind. cbn [logger_debug logger_warning emit result_of snd].
      rewrite !send_notification_result.
      cbn [try_excepts app]. rewrite <- ?app_assoc. reflexivity.
    + cbn [bind trace_of result_of fst snd try_excepts first_clause is_Exception app].
      unfold logger_exception. rewrite bind_emit. cbn [trace_of result_of fst snd sys_exit app].
      rewrite <- !app_assoc. reflexivity.
    + cbn [bind trace_of result_of fst snd try_excepts app]. reflexivity.
Qed.

End SensorRun.

Lemma send_notification_one_request {lib : Library}
  (NTFY_HOST NTFY_SENSOR_TOPIC NTFY_USERNAME NTFY_PASSWORD : option string)
  (w : sensors_check.world) (title message : string) (emojis : list string)
  (priority : string) :
  (List.length (posts (trace_of (sensors_check.send_notification NTFY_HOST
                                   NTFY_SENSOR_TOPIC NTFY_USERNAME NTFY_PASSWORD w
                                   title message emojis priority))) <= 1)%nat.
Proof.
  rewrite send_notification_requests.
  destruct (env_truthy NTFY_HOST && env_truthy NTFY_SENSOR_TOPIC); [|cbn; lia].
  destruct (env_truthy NTFY_USERNAME && env_truthy NTFY_PASSWORD); [|cbn; lia].
  destruct (BasicAuth NTFY_USERNAME NTFY_PASSWORD); cbn; lia.
Qed.

(** The projections of a trace, pushed through its pieces. *)
Ltac project_trace :=
  cbn [trace_of result_of fst snd];
  repeat (rewrite ?posts_app, ?connects_app, ?commands_app, ?length_app;
          cbn [posts connects commands List.length app]).

(** X12. No run of the sensor script ends in an uncaught exception: it
    returns or exits with status 1, whatever the settings, the clock, the
    remote host and the notification server do.  A run opens at most one
    SSH connection, runs at most one remote command and sends at most one
    notification request; a run that exits with status 1 sends none. *)
Theorem X12_sensor_run_never_raises :
  forall (lib : Library) (MINUTES_AGO MIN_CHECKINS : Z)
         (NTFY_HOST NTFY_SENSOR_TOPIC NTFY_USERNAME NTFY_PASSWORD : option string)
         (SSH_HOST SSH_USERNAME DATABASE_PATH : option string)
         (w : sensors_check.world),
    (result_of (sensor_run MINUTES_AGO MIN_CHECKINS NTFY_HOST NTFY_SENSOR_TOPIC
                  NTFY_USERNAME NTFY_PASSWORD SSH_HOST SSH_USERNAME DATABASE_PATH w)
     = Returns tt
     \/ (result_of (sensor_run MINUTES_AGO MIN_CHECKINS NTFY_HOST NTFY_SENSOR_TOPIC
                      NTFY_USERNAME NTFY_PASSWORD SSH_HOST SSH_USERNAME DATABASE_PATH w)
         = Exits 1
         /\ posts (trace_of (sensor_run MINUTES_AGO MIN_CHECKINS NTFY_HOST
                               NTFY_SENSOR_TOPIC NTFY_USERNAME NTFY_PASSWORD SSH_HOST
                               SSH_USERNAME DATABASE_PATH w)) = []))
    /\ (connects (trace_of (sensor_run MINUTES_AGO MIN_CHECKINS NTFY_HOST
                              NTFY_SENSOR_TOPIC NTFY_USERNAME NTFY_PASSWORD SSH_HOST
                              SSH_USERNAME DATABASE_PATH w)) <= 1)%nat
    /\ (List.length (commands (trace_of (sensor_run MINUTES_AGO MIN_CHECKINS NTFY_HOST
                                           NTFY_SENSOR_TOPIC NTFY_USERNAME NTFY_PASSWORD
                                           SSH_HOST SSH_USERNAME DATABASE_PATH w))) <= 1)%nat
    /\ (List.length (posts (trace_of (sensor_run MINUTES_AGO MIN_CHECKINS NTFY_HOST
                                        NTFY_SENSOR_TOPIC NTFY_USERNAME NTFY_PASSWORD
                                        SSH_HOST SSH_USERNAME DATABASE_PATH w))) <= 1)%nat.
Proof.
  intros lib MINUTES_AGO MIN_CHECKINS NTFY_HOST NTFY_SENSOR_TOPIC NTFY_USERNAME
    NTFY_PASSWORD SSH_HOST SSH_USERNAME DATABASE_PATH w.
  destruct (configured NTFY_HOST NTFY_SENSOR_TOPIC SSH_HOST SSH_USERNAME DATABASE_PATH)
    eqn:Hc.
  2:{ destruct (sensor_run_unconfigured MINUTES_AGO MIN_CHECKINS NTFY_HOST
                  NTFY_SENSOR_TOPIC NTFY_USERNAME NTFY_PASSWORD SSH_HOST SSH_USERNAME
                  DATABASE_PATH w Hc) as [msg ->].
      cbn. repeat split; auto; lia. }
  assert (Hstop :
    sensor_run MINUTES_AGO MIN_CHECKINS NTFY_HOST NTFY_SENSOR_TOPIC NTFY_USERNAME
      NTFY_PASSWORD SSH_HOST SSH_USERNAME DATABASE_PATH w
    = ([Log ERROR "An unhandled error occurred during script execution."], Exits 1) ->
    (result_of (sensor_run MINUTES_AGO MIN_CHECKINS NTFY_HOST NTFY_SENSOR_TOPIC
                  NTFY_USERNAME NTFY_PASSWORD SSH_HOST SSH_USERNAME DATABASE_PATH w)
     = Returns tt
     \/ (result_of (sensor_run MINUTES_AGO MIN_CHECKINS NTFY_HOST NTFY_SENSOR_TOPIC
                      NTFY_USERNAME NTFY_PASSWORD SSH_HOST SSH_USERNAME DATABASE_PATH w)
         = Exits 1
         /\ posts (trace_of (sensor_run MINUTES_AGO MIN_CHECKINS NTFY_HOST
                               NTFY_SENSOR_TOPIC NTFY_USERNAME NTFY_PASSWORD SSH_HOST
                               SSH_USERNAME DATABASE_PATH w)) = []))
    /\ (connects (trace_of (sensor_run MINUTES_AGO MIN_CHECKINS NTFY_HOST
                              NTFY_SENSOR_TOPIC NTFY_USERNAME NTFY_PASSWORD SSH_HOST
                              SSH_USERNAME DATABASE_PATH w)) <= 1)%nat
    /\ (List.length (commands (trace_of (sensor_run MINUTES_AGO MIN_CHECKINS NTFY_HOST
                                           NTFY_SENSOR_TOPIC NTFY_USERNAME NTFY_PASSWORD
                                           SSH_HOST SSH_USERNAME DATABASE_PATH w))) <= 1)%nat
    /\ (List.length (posts (trace_of (sensor_run MINUTES_AGO MIN_CHECKINS NTFY_HOST
                                        NTFY_SENSOR_TOPIC NTFY_USERNAME NTFY_PASSWORD
                                        SSH_HOST SSH_USERNAME DATABASE_PATH w))) <= 1)%nat).
  { intros ->. cbn. repeat split; auto; lia. }
  destruct (build_query_cases MINUTES_AGO w) as [[sql Hq]|Hq];
    [|apply Hstop; apply sensor_run_clock_fails; auto].
  destruct (sensors_check.clock_since w MINUTES_AGO) as [since|e] eqn:Hs;
    [|apply Hstop; apply sensor_run_clock_fails; eauto].
  clear Hstop.
  rewrite (sensor_run_normal_form MINUTES_AGO MIN_CHECKINS NTFY_HOST NTFY_SENSOR_TOPIC
             NTFY_USERNAME NTFY_PASSWORD SSH_HOST SSH_USERNAME DATABASE_PATH w sql since
             Hc Hq Hs).
  cbv zeta.
  destruct (execute_sql_query_trace SSH_HOST SSH_USERNAME DATABASE_PATH w sql)
    as [Hfp Hfc].
  destruct (execute_sql_query_result DATABASE_PATH w SSH_HOST SSH_USERNAME sql)
    as [Hfm Hfe].
  destruct (result_of (sensors_check.execute_sql_query DATABASE_PATH w SSH_HOST
                         SSH_USERNAME sql)) as [stdout|e|c] eqn:Hfr;
    [|project_trace; rewrite Hfp, Hfc; cbn [app List.length]; repeat split; auto; lia
     |exfalso; exact (Hfe c eq_refl)].
  destruct (strip stdout =? "")%string.
  - pose proof (send_notification_one_request NTFY_HOST NTFY_SENSOR_TOPIC NTFY_USERNAME
                  NTFY_PASSWORD w "Sensor Check-in Alert"
                  ("No sensor data received in the last " +++ str_of_int MINUTES_AGO
                   +++ " minutes. All sensors may be offline.")
                  ["warning"; "thermometer"] "4") as Hone.
    destruct (send_notification_no_ssh NTFY_HOST NTFY_SENSOR_TOPIC NTFY_USERNAME
                NTFY_PASSWORD w "Sensor Check-in Alert"
                ("No sensor data received in the last " +++ str_of_int MINUTES_AGO
                 +++ " minutes. All sensors may be offline.")
                ["warning"; "thermometer"] "4") as [Hnc Hnm].
    project_trace. rewrite Hfp, Hfc, Hnc, Hnm. cbn [app List.length].
    repeat split; auto; lia.
  - pose proof (analyze_sensor_data_logs MIN_CHECKINS stdout) as Hlogs.
    pose proof (posts_of_logs _ Hlogs) as Hap.
    pose proof (connects_of_logs _ Hlogs) as Hac.
    pose proof (commands_of_logs _ Hlogs) as Ham.
    pose proof (analyze_never_exits MIN_CHECKINS stdout) as Hae.
    destruct (result_of (sensors_check.analyze_sensor_data MIN_CHECKINS stdout))
      as [[|entry rest]|e|c] eqn:Har;
      [| | |exfalso; exact (Hae c eq_refl)].
    + project_trace. rewrite Hfp, Hfc, Hap, Hac, Ham. cbn [app List.length].
      repeat split; auto; lia.
    + match goal with
      | |- context [sensors_check.send_notification ?h ?t ?u ?p ?x ?ti ?m ?em ?pr] =>
          pose proof (send_notification_one_request h t u p x ti m em pr) as Hone;
          destruct (send_notification_no_ssh h t u p x ti m em pr) as [Hnc Hnm];
          set (notifying := trace_of (sensors_check.send_notification h t u p x ti m em pr))
            in *;
          clearbody notifying
      end.
      project_trace. rewrite Hfp, Hfc, Hap, Hac, Ham, Hnc, Hnm. cbn [app List.length].
      repeat split; auto; lia.
    + project_trace. rewrite Hfp, Hfc, Hap, Hac, Ham. cbn [app List.length].
      repeat split; auto; lia.
Qed.

(** X13. The notification server has no say in what a run of the sensor
    script does: with another server, whatever it answers, the run ends
    with the same outcome and exit status, opens the same connections,
    runs the same remote commands and sends the same requests. *)
Theorem X13_notification_server_cannot_change_the_run :
  forall (lib : Library) (MINUTES_AGO MIN_CHECKINS : Z)
         (NTFY_HOST NTFY_SENSOR_TOPIC NTFY_USERNAME NTFY_PASSWORD : option string)
         (SSH_HOST SSH_USERNAME DATABASE_PATH : option string)
         (w : sensors_check.world) (post : http_request -> result http_response),
    result_of (sensor_run MINUTES_AGO MIN_CHECKINS NTFY_HOST NTFY_SENSOR_TOPIC
                 NTFY_USERNAME NTFY_PASSWORD SSH_HOST SSH_USERNAME DATABASE_PATH
                 (with_http_post w post))
    = result_of (sensor_run MINUTES_AGO MIN_CHECKINS NTFY_HOST NTFY_SENSOR_TOPIC
                   NTFY_USERNAME NTFY_PASSWORD SSH_HOST SSH_USERNAME DATABASE_PATH w)
    /\ posts (trace_of (sensor_run MINUTES_AGO MIN_CHECKINS NTFY_HOST NTFY_SENSOR_TOPIC
                          NTFY_USERNAME NTFY_PASSWORD SSH_HOST SSH_USERNAME DATABASE_PATH
                          (with_http_post w post)))
       = posts (trace_of (sensor_run MINUTES_AGO MIN_CHECKINS NTFY_HOST NTFY_SENSOR_TOPIC
                            NTFY_USERNAME NTFY_PASSWORD SSH_HOST SSH_USERNAME
                            DATABASE_PATH w))
    /\ commands (trace_of (sensor_run MINUTES_AGO MIN_CHECKINS NTFY_HOST
                             NTFY_SENSOR_TOPIC NTFY_USERNAME NTFY_PASSWORD SSH_HOST
                             SSH_USERNAME DATABASE_PATH (with_http_post w post)))
       = commands (trace_of (sensor_run MINUTES_AGO MIN_CHECKINS NTFY_HOST
                               NTFY_SENSOR_TOPIC NTFY_USERNAME NTFY_PASSWORD SSH_HOST
                               SSH_USERNAME DATABASE_PATH w))
    /\ connects (trace_of (sensor_run MINUTES_AGO MIN_CHECKINS NTFY_HOST
                             NTFY_SENSOR_TOPIC NTFY_USERNAME NTFY_PASSWORD SSH_HOST
                             SSH_USERNAME DATABASE_PATH (with_http_post w post)))
       = connects (trace_of (sensor_run MINUTES_AGO MIN_CHECKINS NTFY_HOST
                               NTFY_SENSOR_TOPIC NTFY_USERNAME NTFY_PASSWORD SSH_HOST
                               SSH_USERNAME DATABASE_PATH w)).
Proof.
  intros lib MINUTES_AGO MIN_CHECKINS NTFY_HOST NTFY_SENSOR_TOPIC NTFY_USERNAME
    NTFY_PASSWORD SSH_HOST SSH_USERNAME DATABASE_PATH w post.
  destruct (configured NTFY_HOST NTFY_SENSOR_TOPIC SSH_HOST SSH_USERNAME DATABASE_PATH)
    eqn:Hc.
  2:{ destruct (sensor_run_unconfigured MINUTES_AGO MIN_CHECKINS NTFY_HOST
                  NTFY_SENSOR_TOPIC NTFY_USERNAME NTFY_PASSWORD SSH_HOST SSH_USERNAME
                  DATABASE_PATH w Hc) as [msg ->].
      destruct (sensor_run_unconfigured MINUTES_AGO MIN_CHECKINS NTFY_HOST
                  NTFY_SENSOR_TOPIC NTFY_USERNAME NTFY_PASSWORD SSH_HOST SSH_USERNAME
                  DATABASE_PATH (with_http_post w post) Hc) as [msg' ->].
      repeat split. }
  destruct (build_query_cases MINUTES_AGO w) as [[sql Hq]|Hq].
  2:{ rewrite (sensor_run_clock_fails MINUTES_AGO MIN_CHECKINS NTFY_HOST
                 NTFY_SENSOR_TOPIC NTFY_USERNAME NTFY_PASSWORD SSH_HOST SSH_USERNAME
                 DATABASE_PATH w Hc (or_introl Hq)).
      rewrite (sensor_run_clock_fails MINUTES_AGO MIN_CHECKINS NTFY_HOST
                 NTFY_SENSOR_TOPIC NTFY_USERNAME NTFY_PASSWORD SSH_HOST SSH_USERNAME
                 DATABASE_PATH (with_http_post w post) Hc (or_introl Hq)).
      repeat split. }
  destruct (sensors_check.clock_since w MINUTES_AGO) as [since|e] eqn:Hs.
  2:{ rewrite (sensor_run_clock_fails MINUTES_AGO MIN_CHECKINS NTFY_HOST
                 NTFY_SENSOR_TOPIC NTFY_USERNAME NTFY_PASSWORD SSH_HOST SSH_USERNAME
                 DATABASE_PATH w Hc (or_intror (ex_intro _ e Hs))).
      rewrite (sensor_run_clock_fails MINUTES_AGO MIN_CHECKINS NTFY_HOST
                 NTFY_SENSOR_TOPIC NTFY_USERNAME NTFY_PASSWORD SSH_HOST SSH_USERNAME
                 DATABASE_PATH (with_http_post w post) Hc
                 (or_intror (ex_intro _ e Hs))).
      repeat split. }
  rewrite (sensor_run_normal_form MINUTES_AGO MIN_CHECKINS NTFY_HOST NTFY_SENSOR_TOPIC
             NTFY_USERNAME NTFY_PASSWORD SSH_HOST SSH_USERNAME DATABASE_PATH w sql since
             Hc Hq Hs).
  rewrite (sensor_run_normal_form MINUTES_AGO MIN_CHECKINS NTFY_HOST NTFY_SENSOR_TOPIC
             NTFY_USERNAME NTFY_PASSWORD SSH_HOST SSH_USERNAME DATABASE_PATH
             (with_http_post w post) sql since Hc Hq Hs).
  cbv zeta.
  change (sensors_check.execute_sql_query DATABASE_PATH (with_http_post w post) SSH_HOST
            SSH_USERNAME sql)
    with (sensors_check.execute_sql_query DATABASE_PATH w SSH_HOST SSH_USERNAME sql).
  destruct (result_of (sensors_check.execute_sql_query DATABASE_PATH w SSH_HOST
                         SSH_USERNAME sql)) as [stdout|e|c]; [|repeat split..].
  destruct (strip stdout =? "")%string.
  - cbn [trace_of result_of fst snd].
    split; [reflexivity|].
    repeat (rewrite ?posts_app, ?commands_app, ?connects_app;
            cbn [posts commands connects app]).
    rewrite ?send_notification_requests.
    rewrite ?(proj1 (send_notification_no_ssh _ _ _ _ _ _ _ _ _)).
    rewrite ?(proj2 (send_notification_no_ssh _ _ _ _ _ _ _ _ _)).
    repeat split.
  - destruct (result_of (sensors_check.analyze_sensor_data MIN_CHECKINS stdout))
      as [[|entry rest]|e|c]; try (repeat split; fail).
    cbn [trace_of result_of fst snd].
    split; [reflexivity|].
    repeat (rewrite ?posts_app, ?commands_app, ?connects_app;
            cbn [posts commands connects app]).
    rewrite ?send_notification_requests.
    rewrite ?(proj1 (send_notification_no_ssh _ _ _ _ _ _ _ _ _)).
    rewrite ?(proj2 (send_notification_no_ssh _ _ _ _ _ _ _ _ _)).
    repeat split.
Qed.

(** * The verdict of a run *)

(** A record with a truthy identifier is counted under it. *)
Lemma record_counted (record : json) (items : list json) :
  record_ok record = true -> truthy (mac_of record) = true -> In record items ->
  0 < occurrences (mac_of record) items.
Proof.
  intros Hok Ht Hin.
  assert (Hmac : has_mac (mac_of record) record = true).
  { unfold record_ok in Hok. unfold has_mac, mac_of in *.
    destruct (py_get record "mac" JNull) as [mac|e]; [|discriminate].
    rewrite Ht in Hok. apply py_eqb_refl. exact Hok. }
  unfold occurrences.
  assert (Hf : In record (filter (has_mac (mac_of record)) items))
    by (apply filter_In; auto).
  destruct (filter (has_mac (mac_of record)) items); [contradiction|].
  cbn [List.length]. lia.
Qed.

(** When every sensor of the input has enough records, the analyzer
    returns the empty list. *)
Lemma analyze_all_sufficient {lib : Library} (MIN_CHECKINS : Z) (json_output : string)
  (records : json) (items : list json) :
  json_loads json_output = Ok records ->
  py_iter records = Ok items ->
  Forall (fun record => record_ok record = true) items ->
  (forall record, In record items -> truthy (mac_of record) = true ->
                  MIN_CHECKINS <= occurrences (mac_of record) items) ->
  result_of (sensors_check.analyze_sensor_data MIN_CHECKINS json_output) = Returns [].
Proof.
  intros Hl Hi Hok Hall.
  destruct (counting_loop_total items ([], []) Hok) as [[mac_counts mac_locations] Hloop].
  destruct (analyze_counted MIN_CHECKINS _ _ _ _ _ Hl Hi Hloop) as [Htab ->].
  f_equal.
  destruct (flat_map (missing_entry MIN_CHECKINS mac_locations) mac_counts)
    as [|[mac location] rest] eqn:E; [reflexivity|].
  exfalso.
  assert (Hin : In (mac, location)
                   (flat_map (missing_entry MIN_CHECKINS mac_locations) mac_counts))
    by (rewrite E; left; reflexivity).
  apply In_missing_entries in Hin. destruct Hin as (count & Hin & Hlt & _).
  destruct (items_ok _ _ _ Htab mac count Hin) as (Ht & -> & record & Hfirst & Hmac).
  apply first_occurrence_has_mac in Hfirst. destruct Hfirst as [_ Hrec].
  assert (Hof : mac_of record = mac) by (unfold mac_of; rewrite Hmac; reflexivity).
  pose proof (Hall record Hrec) as Hge. rewrite Hof in Hge. specialize (Hge Ht). lia.
Qed.

(** A sensor below the minimum has an entry in the analyzer's list. *)
Lemma expected_missing_entry {lib : Library} (MIN_CHECKINS : Z) (json_output : string)
  (records : json) (items : list json) (record : json) :
  json_loads json_output = Ok records ->
  py_iter records = Ok items ->
  Forall (fun r => record_ok r = true) items ->
  In record items -> truthy (mac_of record) = true ->
  occurrences (mac_of record) items < MIN_CHECKINS ->
  exists mac location,
    In (mac, location) (expected_missing MIN_CHECKINS items)
    /\ py_eqb mac (mac_of record) = true.
Proof.
  intros Hl Hi Hok Hin Ht Hlt.
  destruct (counting_loop_total items ([], []) Hok) as [[mac_counts mac_locations] Hloop].
  destruct (analyze_counted MIN_CHECKINS _ _ _ _ _ Hl Hi Hloop) as [Htab Hres].
  rewrite (analyze_expected_missing MIN_CHECKINS _ _ _ Hl Hi Hok) in Hres.
  inversion Hres as [Hout]. clear Hres.
  pose proof (proj1 (Forall_forall _ _) Hok record Hin) as Hrec.
  pose proof (record_counted record items Hrec Ht Hin) as Hpos.
  pose proof (counts_ok _ _ _ Htab (mac_of record) Ht) as Hc.
  destruct (occurrences (mac_of record) items =? 0) eqn:E0;
    [apply Z.eqb_eq in E0; lia|].
  apply dict_get_Some_In in Hc. destruct Hc as (mac & Hmc & Heq).
  destruct (items_ok _ _ _ Htab mac _ Hmc) as (Hmt & _ & r & Hr & _).
  pose proof (locations_ok _ _ _ Htab mac Hmt) as Hloc. rewrite Hr in Hloc.
  destruct Hloc as (location & _ & Hloc).
  exists mac, location. split; [|exact Heq].
  rewrite Hout. apply in_flat_map. exists (mac, occurrences (mac_of record) items).
  split; [exact Hmc|].
  unfold missing_entry. cbn [fst snd].
  apply Z.ltb_lt in Hlt. rewrite Hlt, Hloc. left. reflexivity.
Qed.

(** X14. When the remote query returns records in which every sensor has
    at least [MIN_CHECKINS] records, a configured run sends no
    notification, ends its log with the record that all sensors have
    sufficient check-ins, and returns, so that the process exits with
    status 0. *)
Theorem X14_healthy_sensors_are_silent :
  forall (lib : Library) (MINUTES_AGO MIN_CHECKINS : Z)
         (NTFY_HOST NTFY_SENSOR_TOPIC NTFY_USERNAME NTFY_PASSWORD : option string)
         (SSH_HOST SSH_USERNAME DATABASE_PATH : option string)
         (w : sensors_check.world) (sql since stdout : string)
         (records : json) (items : list json),
    configured NTFY_HOST NTFY_SENSOR_TOPIC SSH_HOST SSH_USERNAME DATABASE_PATH = true ->
    sensors_check.build_query MINUTES_AGO w = ret sql ->
    sensors_check.clock_since w MINUTES_AGO = Ok since ->
    result_of (sensors_check.execute_sql_query DATABASE_PATH w SSH_HOST SSH_USERNAME sql)
    = Returns stdout ->
    json_loads stdout = Ok records ->
    py_iter records = Ok items ->
    Forall (fun record => record_ok record = true) items ->
    (forall record, In record items -> truthy (mac_of record) = true ->
                    MIN_CHECKINS <= occurrences (mac_of record) items) ->
    posts (trace_of (sensor_run MINUTES_AGO MIN_CHECKINS NTFY_HOST NTFY_SENSOR_TOPIC
                       NTFY_USERNAME NTFY_PASSWORD SSH_HOST SSH_USERNAME DATABASE_PATH w))
    = []
    /\ List.last (trace_of (sensor_run MINUTES_AGO MIN_CHECKINS NTFY_HOST
                              NTFY_SENSOR_TOPIC NTFY_USERNAME NTFY_PASSWORD SSH_HOST
                              SSH_USERNAME DATABASE_PATH w)) (Log DEBUG "")
       = Log INFO ("All sensors have sufficient check-ins in the last "
                   +++ str_of_int MINUTES_AGO +++ " minutes.")
    /\ result_of (sensor_run MINUTES_AGO MIN_CHECKINS NTFY_HOST NTFY_SENSOR_TOPIC
                    NTFY_USERNAME NTFY_PASSWORD SSH_HOST SSH_USERNAME DATABASE_PATH w)
       = Returns tt.
Proof.
  intros lib MINUTES_AGO MIN_CHECKINS NTFY_HOST NTFY_SENSOR_TOPIC NTFY_USERNAME
    NTFY_PASSWORD SSH_HOST SSH_USERNAME DATABASE_PATH w sql since stdout records items
    Hc Hq Hs He Hl Hi Hok Hall.
  rewrite (sensor_run_normal_form MINUTES_AGO MIN_CHECKINS NTFY_HOST NTFY_SENSOR_TOPIC
             NTFY_USERNAME NTFY_PASSWORD SSH_HOST SSH_USERNAME DATABASE_PATH w sql since
             Hc Hq Hs).
  cbv zeta. rewrite He, (decoded_not_blank _ _ Hl).
  pose proof (posts_of_logs _ (analyze_sensor_data_logs MIN_CHECKINS stdout)) as Hap.
  rewrite (analyze_all_sufficient MIN_CHECKINS _ _ _ Hl Hi Hok Hall) in *.
  destruct (execute_sql_query_trace SSH_HOST SSH_USERNAME DATABASE_PATH w sql)
    as [Hfp _].
  split; [|split; [|reflexivity]].
  - project_trace. rewrite Hfp, Hap. reflexivity.
  - cbn [trace_of fst]. apply last_last.
Qed.

(** X14 at the sample with three check-ins of A and one of B and the
    minimum 1. *)
Lemma X14_witness :
  posts (trace_of (sensor_run (lib := sample_library) 45 1
                     (Some "https://ntfy.example") (Some "sensors") None None
                     (Some "db.example") (Some "pi") (Some "/data/sensors.db")
                     (online_world doc_mixed))) = []
  /\ List.last (trace_of (sensor_run (lib := sample_library) 45 1
                            (Some "https://ntfy.example") (Some "sensors") None None
                            (Some "db.example") (Some "pi") (Some "/data/sensors.db")
                            (online_world doc_mixed))) (Log DEBUG "")
     = Log INFO "All sensors have sufficient check-ins in the last 45 minutes."
  /\ result_of (sensor_run (lib := sample_library) 45 1
                  (Some "https://ntfy.example") (Some "sensors") None None
                  (Some "db.example") (Some "pi") (Some "/data/sensors.db")
                  (online_world doc_mixed)) = Returns tt.
Proof.
  apply (X14_healthy_sensors_are_silent sample_library 45 1
           (Some "https://ntfy.example") (Some "sensors") None None
           (Some "db.example") (Some "pi") (Some "/data/sensors.db")
           (online_world doc_mixed) _ _ doc_mixed
           (JArr [wine "A" "wine"; wine "A" "wine"; wine "B" "attic"; wine "A" "wine"])
           [wine "A" "wine"; wine "A" "wine"; wine "B" "attic"; wine "A" "wine"]
           eq_refl eq_refl eq_refl eq_refl eq_refl eq_refl).
  - repeat constructor.
  - intros record [<-|[<-|[<-|[<-|[]]]]] _; vm_compute; discriminate.
Defined.

(** X15. Any exception of the analyzer (records that are no list of
    dicts, an unhashable identifier, a failure of the decoder other than
    a decode error) ends a configured run without a notification: the
    run logs the unhandled error last and exits with status 1. *)
Theorem X15_analyzer_failure_exits_without_notification :
  forall (lib : Library) (MINUTES_AGO MIN_CHECKINS : Z)
         (NTFY_HOST NTFY_SENSOR_TOPIC NTFY_USERNAME NTFY_PASSWORD : option string)
         (SSH_HOST SSH_USERNAME DATABASE_PATH : option string)
         (w : sensors_check.world) (sql since stdout : string) (e : error),
    configured NTFY_HOST NTFY_SENSOR_TOPIC SSH_HOST SSH_USERNAME DATABASE_PATH = true ->
    sensors_check.build_query MINUTES_AGO w = ret sql ->
    sensors_check.clock_since w MINUTES_AGO = Ok since ->
    result_of (sensors_check.execute_sql_query DATABASE_PATH w SSH_HOST SSH_USERNAME sql)
    = Returns stdout ->
    result_of (sensors_check.analyze_sensor_data MIN_CHECKINS stdout) = Raises e ->
    posts (trace_of (sensor_run MINUTES_AGO MIN_CHECKINS NTFY_HOST NTFY_SENSOR_TOPIC
                       NTFY_USERNAME NTFY_PASSWORD SSH_HOST SSH_USERNAME DATABASE_PATH w))
    = []
    /\ List.last (trace_of (sensor_run MINUTES_AGO MIN_CHECKINS NTFY_HOST
                              NTFY_SENSOR_TOPIC NTFY_USERNAME NTFY_PASSWORD SSH_HOST
                              SSH_USERNAME DATABASE_PATH w)) (Log DEBUG "")
       = Log ERROR "An unhandled error occurred during script execution."
    /\ exit_status (result_of (sensor_run MINUTES_AGO MIN_CHECKINS NTFY_HOST
                                 NTFY_SENSOR_TOPIC NTFY_USERNAME NTFY_PASSWORD SSH_HOST
                                 SSH_USERNAME DATABASE_PATH w)) = 1.
Proof.
  intros lib MINUTES_AGO MIN_CHECKINS NTFY_HOST NTFY_SENSOR_TOPIC NTFY_USERNAME
    NTFY_PASSWORD SSH_HOST SSH_USERNAME DATABASE_PATH w sql since stdout e
    Hc Hq Hs He Ha.
  rewrite (sensor_run_normal_form MINUTES_AGO MIN_CHECKINS NTFY_HOST NTFY_SENSOR_TOPIC
             NTFY_USERNAME NTFY_PASSWORD SSH_HOST SSH_USERNAME DATABASE_PATH w sql since
             Hc Hq Hs).
  cbv zeta. rewrite He.
  destruct (strip stdout =? "")%string eqn:Eb.
  { unfold sensors_check.analyze_sensor_data in Ha. rewrite Eb in Ha. discriminate Ha. }
  pose proof (posts_of_logs _ (analyze_sensor_data_logs MIN_CHECKINS stdout)) as Hap.
  rewrite Ha.
  destruct (execute_sql_query_trace SSH_HOST SSH_USERNAME DATABASE_PATH w sql)
    as [Hfp _].
  split; [|split; [|reflexivity]].
  - project_trace. rewrite Hfp, Hap. reflexivity.
  - cbn [trace_of fst]. apply last_last.
Qed.

(** X15 at a remote host that answers a list whose second element is a
    number. *)
Lemma X15_witness :
  posts (trace_of (sample_run (online_world "[{}, 5]"))) = []
  /\ List.last (trace_of (sample_run (online_world "[{}, 5]"))) (Log DEBUG "")
     = Log ERROR "An unhandled error occurred during script execution."
  /\ exit_status (result_of (sample_run (online_world "[{}, 5]"))) = 1.
Proof.
  exact (X15_analyzer_failure_exits_without_notification sample_library 45 2
           (Some "https://ntfy.example") (Some "sensors") None None
           (Some "db.example") (Some "pi") (Some "/data/sensors.db")
           (online_world "[{}, 5]") _ _ "[{}, 5]"
           (AttributeError "'int' object has no attribute 'get'")
           eq_refl eq_refl eq_refl eq_refl eq_refl).
Defined.

(** X16. When the remote query returns records in which some sensor has
    fewer than [MIN_CHECKINS] records, a configured run ends in one
    notification of priority 2 whose message counts and lists, one per
    line, the sensors below the minimum with their locations, in the
    order in which they first appear; that sensor is among them. *)
Theorem X16_missing_sensor_is_notified :
  forall (lib : Library) (MINUTES_AGO MIN_CHECKINS : Z)
         (NTFY_HOST NTFY_SENSOR_TOPIC NTFY_USERNAME NTFY_PASSWORD : option string)
         (SSH_HOST SSH_USERNAME DATABASE_PATH : option string)
         (w : sensors_check.world) (sql since stdout : string)
         (records : json) (items : list json) (record : json),
    configured NTFY_HOST NTFY_SENSOR_TOPIC SSH_HOST SSH_USERNAME DATABASE_PATH = true ->
    sensors_check.build_query MINUTES_AGO w = ret sql ->
    sensors_check.clock_since w MINUTES_AGO = Ok since ->
    result_of (sensors_check.execute_sql_query DATABASE_PATH w SSH_HOST SSH_USERNAME sql)
    = Returns stdout ->
    json_loads stdout = Ok records ->
    py_iter records = Ok items ->
    Forall (fun r => record_ok r = true) items ->
    In record items ->
    truthy (mac_of record) = true ->
    occurrences (mac_of record) items < MIN_CHECKINS ->
    ends_notifying
      (sensor_run MINUTES_AGO MIN_CHECKINS NTFY_HOST NTFY_SENSOR_TOPIC NTFY_USERNAME
         NTFY_PASSWORD SSH_HOST SSH_USERNAME DATABASE_PATH w)
      (sensors_check.send_notification NTFY_HOST NTFY_SENSOR_TOPIC NTFY_USERNAME
         NTFY_PASSWORD w
         "Sensor Check-in Alert"
         ("Missing check-ins detected for "
          +++ str_of_int (Z.of_nat (List.length (expected_missing MIN_CHECKINS items)))
          +++ " sensor(s):" +++ newline
          +++ join newline
                (map (fun '(mac, location) =>
                        py_str mac +++ " (" +++ py_str location +++ ")")
                     (expected_missing MIN_CHECKINS items)))
         ["warning"; "thermometer"] "2")
    /\ exists mac location,
        In (mac, location) (expected_missing MIN_CHECKINS items)
        /\ py_eqb mac (mac_of record) = true.
Proof.
  intros lib MINUTES_AGO MIN_CHECKINS NTFY_HOST NTFY_SENSOR_TOPIC NTFY_USERNAME
    NTFY_PASSWORD SSH_HOST SSH_USERNAME DATABASE_PATH w sql since stdout records items
    record Hc Hq Hs He Hl Hi Hok Hin Ht Hlt.
  pose proof (expected_missing_entry MIN_CHECKINS _ _ _ record Hl Hi Hok Hin Ht Hlt)
    as Hentry.
  split; [|exact Hentry].
  rewrite (sensor_run_normal_form MINUTES_AGO MIN_CHECKINS NTFY_HOST NTFY_SENSOR_TOPIC
             NTFY_USERNAME NTFY_PASSWORD SSH_HOST SSH_USERNAME DATABASE_PATH w sql since
             Hc Hq Hs).
  cbv zeta. rewrite He, (decoded_not_blank _ _ Hl).
  pose proof (posts_of_logs _ (analyze_sensor_data_logs MIN_CHECKINS stdout)) as Hap.
  rewrite (analyze_expected_missing MIN_CHECKINS _ _ _ Hl Hi Hok) in *.
  destruct (expected_missing MIN_CHECKINS items) as [|entry rest] eqn:E.
  { destruct Hentry as (mac & location & [] & _). }
  destruct (execute_sql_query_trace SSH_HOST SSH_USERNAME DATABASE_PATH w sql)
    as [Hfp _].
  unfold ends_notifying.
  match goal with
  | |- exists _, _ /\ (?before ++ ?warning :: _, _) = _ => exists (before ++ [warning])
  end.
  split; [|rewrite send_notification_result, <- app_assoc; reflexivity].
  project_trace. rewrite Hfp, Hap. reflexivity.
Qed.

(** X16 at the sample with three check-ins of A and one of B and the
    minimum 2. *)
Lemma X16_witness :
  ends_notifying (sample_run (online_world doc_mixed))
    (sensors_check.send_notification (lib := sample_library)
       (Some "https://ntfy.example") (Some "sensors") None None (online_world doc_mixed)
       "Sensor Check-in Alert"
       ("Missing check-ins detected for 1 sensor(s):" +++ newline +++ "B (attic)")
       ["warning"; "thermometer"] "2").
Proof.
  exact (proj1 (X16_missing_sensor_is_notified sample_library 45 2
                  (Some "https://ntfy.example") (Some "sensors") None None
                  (Some "db.example") (Some "pi") (Some "/data/sensors.db")
                  (online_world doc_mixed) _ _ doc_mixed
                  (JArr [wine "A" "wine"; wine "A" "wine"; wine "B" "attic";
                         wine "A" "wine"])
                  [wine "A" "wine"; wine "A" "wine"; wine "B" "attic"; wine "A" "wine"]
                  (wine "B" "attic")
                  eq_refl eq_refl eq_refl eq_refl eq_refl eq_refl
                  ltac:(repeat constructor)
                  ltac:(right; right; left; reflexivity)
                  eq_refl
                  ltac:(vm_compute; reflexivity))).
Defined.

(** * Every run of the quote script *)

Section QuoteRun.

Context {lib : Library} {fmt : rklb_price.Formatter}.
Variables (NTFY_USERNAME NTFY_PASSWORD NTFY_HOST NTFY_EOD_TOPIC : option string).
Variable w : rklb_price.world.

(** A run of the quote script, as a function of what the quote service
    and the formatting do. *)
Lemma quote_run_normal_form :
  quote_run NTFY_USERNAME NTFY_PASSWORD NTFY_HOST NTFY_EOD_TOPIC w
  = let notifying title message emojis priority :=
      trace_of (quote_notification NTFY_USERNAME NTFY_PASSWORD NTFY_HOST NTFY_EOD_TOPIC w
                  title message emojis priority) in
    let failed e : M unit :=
      (Log ERROR ("Error in main function: " +++ error_str e)
         :: notifying "RKLB quote error" "Yahoo down?" ["skull"] "4",
       Returns tt) in
    match rklb_price.ticker_info w 0%nat with
    | Raise e => failed e
    | Ok info1 =>
        match rklb_price.ticker_info w 1%nat with
        | Raise e => failed e
        | Ok info2 =>
            let price := rklb_price.info_get info1 "regularMarketPrice" in
            let change := rklb_price.info_get info2 "regularMarketChangePercent" in
            if rklb_price.QNone_dec price then
              (Log ERROR "Unable to fetch RKLB quote"
                 :: notifying "RKLB quote error" "Yahoo data error?" ["skull"] "4",
               Returns tt)
            else
              match rklb_price.format_2f price with
              | Raise e => failed e
              | Ok price_text =>
                  match rklb_price.format_2f change with
                  | Raise e => failed e
                  | Ok change_text =>
                      match rklb_price.py_gt0 change with
                      | Raise e => failed e
                      | Ok up =>
                          match (if up then Ok "arrow_up"
                                 else match rklb_price.py_lt0 change with
                                      | Ok down =>
                                          Ok (if down then "arrow_down"
                                              else "arrow_up_down")
                                      | Raise e => Raise e
                                      end) with
                          | Raise e => failed e
                          | Ok emoji =>
                              (Log INFO ("RKLB current price: " +++ ("$" +++ price_text)
                                         +++ " / " +++ (change_text +++ "%"))
                                 :: notifying "RKLB quote"
                                      (("$" +++ price_text) +++ " / "
                                       +++ (change_text +++ "%"))
                                      [emoji] rklb_price.default_priority,
                               Returns tt)
                          end
                      end
                  end
              end
        end
    end.
Proof.
  cbv zeta.
  assert (Hfailed : forall e (body : M unit),
    body = ([], Raises e) ->
    try_excepts body
      [ (is_Exception,
         fun e =>
           logger_error ("Error in main function: " +++ error_str e) ;;
           rklb_price.send_notification NTFY_USERNAME NTFY_PASSWORD NTFY_HOST
             NTFY_EOD_TOPIC w "RKLB quote error" "Yahoo down?" ["skull"] (str_of_int 4)) ]
    = (Log ERROR ("Error in main function: " +++ error_str e)
         :: trace_of (quote_notification NTFY_USERNAME NTFY_PASSWORD NTFY_HOST
                        NTFY_EOD_TOPIC w "RKLB quote error" "Yahoo down?" ["skull"] "4"),
       Returns tt)).
  { intros e body Hbody.
    fold (quote_notification NTFY_USERNAME NTFY_PASSWORD NTFY_HOST NTFY_EOD_TOPIC w
            "RKLB quote error" "Yahoo down?" ["skull"] (str_of_int 4)).
    rewrite (quote_run_failed _ _ _ _ _ [] e body Hbody).
    rewrite quote_notification_result. reflexivity. }
  unfold quote_run, rklb_price.main.
  destruct (rklb_price.ticker_info w 0%nat) as [info1|e]; [|apply Hfailed; reflexivity].
  rewrite bind_lift_Ok.
  destruct (rklb_price.ticker_info w 1%nat) as [info2|e]; [|apply Hfailed; reflexivity].
  rewrite bind_lift_Ok.
  set (price := rklb_price.info_get info1 "regularMarketPrice").
  set (change := rklb_price.info_get info2 "regularMarketChangePercent").
  destruct (rklb_price.QNone_dec price) as [Hnone|Hsome].
  { rewrite Hnone. unfold logger_error at 1. rewrite bind_emit.
    fold (quote_notification NTFY_USERNAME NTFY_PASSWORD NTFY_HOST NTFY_EOD_TOPIC w
            "RKLB quote error" "Yahoo data error?" ["skull"] "4").
    rewrite quote_notification_result. reflexivity. }
  assert (Hbody : forall (A B : M unit),
             match price with rklb_price.QNone => A | _ => B end = B)
    by (intros A B; destruct price; [contradiction|reflexivity..]).
  rewrite Hbody.
  destruct (rklb_price.format_2f price) as [price_text|e];
    [|apply Hfailed; reflexivity].
  rewrite bind_lift_Ok.
  destruct (rklb_price.format_2f change) as [change_text|e];
    [|apply Hfailed; reflexivity].
  rewrite bind_lift_Ok.
  destruct (rklb_price.py_gt0 change) as [up|e]; [|apply Hfailed; reflexivity].
  rewrite bind_lift_Ok.
  assert (Hshown : forall emoji,
    try_excepts
      (logger_info ("RKLB current price: " +++ ("$" +++ price_text)
                    +++ " / " +++ (change_text +++ "%")) ;;
       rklb_price.send_notification NTFY_USERNAME NTFY_PASSWORD NTFY_HOST NTFY_EOD_TOPIC w
         "RKLB quote" (("$" +++ price_text) +++ " / " +++ (change_text +++ "%"))
         [emoji] rklb_price.default_priority)
      [ (is_Exception,
         fun e =>
           logger_error ("Error in main function: " +++ error_str e) ;;
           rklb_price.send_notification NTFY_USERNAME NTFY_PASSWORD NTFY_HOST
             NTFY_EOD_TOPIC w "RKLB quote error" "Yahoo down?" ["skull"] (str_of_int 4)) ]
    = (Log INFO ("RKLB current price: " +++ ("$" +++ price_text)
                 +++ " / " +++ (change_text +++ "%"))
         :: trace_of (quote_notification NTFY_USERNAME NTFY_PASSWORD NTFY_HOST
                        NTFY_EOD_TOPIC w "RKLB quote"
                        (("$" +++ price_text) +++ " / " +++ (change_text +++ "%"))
                        [emoji] rklb_price.default_priority),
       Returns tt)).
  { intros emoji. unfold logger_info at 1. rewrite bind_emit.
    fold (quote_notification NTFY_USERNAME NTFY_PASSWORD NTFY_HOST NTFY_EOD_TOPIC w
            "RKLB quote" (("$" +++ price_text) +++ " / " +++ (change_text +++ "%"))
            [emoji] rklb_price.default_priority).
    rewrite quote_notification_result. reflexivity. }
  destruct up.
  - rewrite bind_ret. apply Hshown.
  - destruct (rklb_price.py_lt0 change) as [down|e]; [|apply Hfailed; reflexivity].
    rewrite bind_lift_Ok. destruct down; rewrite bind_ret; apply Hshown.
Qed.

End QuoteRun.

(** X17. Every run of the quote script ends in exactly one call of
    [send_notification] and returns, so that the process exits with
    status 0 whatever the quote service, the formatting and the
    notification server do.  The call is either the quote, with the
    default priority and one of the three direction tags, or an error
    notification of priority 4 tagged [skull] whose message is one of the
    two error texts.  A run sends at most one request. *)
Theorem X17_quote_run_always_notifies :
  forall (lib : Library) (fmt : rklb_price.Formatter)
         (NTFY_USERNAME NTFY_PASSWORD NTFY_HOST NTFY_EOD_TOPIC : option string)
         (w : rklb_price.world),
  exists title message emojis priority,
    ends_notifying
      (quote_run NTFY_USERNAME NTFY_PASSWORD NTFY_HOST NTFY_EOD_TOPIC w)
      (quote_notification NTFY_USERNAME NTFY_PASSWORD NTFY_HOST NTFY_EOD_TOPIC w
         title message emojis priority)
    /\ ((title = "RKLB quote" /\ priority = rklb_price.default_priority
         /\ (emojis = ["arrow_up"] \/ emojis = ["arrow_down"]
             \/ emojis = ["arrow_up_down"]))
        \/ (title = "RKLB quote error" /\ priority = "4" /\ emojis = ["skull"]
            /\ (message = "Yahoo data error?" \/ message = "Yahoo down?")))
    /\ result_of (quote_run NTFY_USERNAME NTFY_PASSWORD NTFY_HOST NTFY_EOD_TOPIC w)
       = Returns tt
    /\ (List.length
          (posts (trace_of (quote_run NTFY_USERNAME NTFY_PASSWORD NTFY_HOST
                              NTFY_EOD_TOPIC w))) <= 1)%nat.
Proof.
  intros lib fmt NTFY_USERNAME NTFY_PASSWORD NTFY_HOST NTFY_EOD_TOPIC w.
  assert (Hfailed : forall e,
    exists title message emojis priority,
      ends_notifying
        (Log ERROR ("Error in main function: " +++ error_str e)
           :: trace_of (quote_notification NTFY_USERNAME NTFY_PASSWORD NTFY_HOST
                          NTFY_EOD_TOPIC w "RKLB quote error" "Yahoo down?" ["skull"] "4"),
         Returns tt)
        (quote_notification NTFY_USERNAME NTFY_PASSWORD NTFY_HOST NTFY_EOD_TOPIC w
           title message emojis priority)
      /\ ((title = "RKLB quote" /\ priority = rklb_price.default_priority
           /\ (emojis = ["arrow_up"] \/ emojis = ["arrow_down"]
               \/ emojis = ["arrow_up_down"]))
          \/ (title = "RKLB quote error" /\ priority = "4" /\ emojis = ["skull"]
              /\ (message = "Yahoo data error?" \/ message = "Yahoo down?")))
      /\ result_of
           (Log ERROR ("Error in main function: " +++ error_str e)
              :: trace_of (quote_notification NTFY_USERNAME NTFY_PASSWORD NTFY_HOST
                             NTFY_EOD_TOPIC w "RKLB quote error" "Yahoo down?" ["skull"]
                             "4"),
            Returns tt) = Returns tt
      /\ (List.length
            (posts (trace_of
                      (Log ERROR ("Error in main function: " +++ error_str e)
                         :: trace_of (quote_notification NTFY_USERNAME NTFY_PASSWORD
                                        NTFY_HOST NTFY_EOD_TOPIC w "RKLB quote error"
                                        "Yahoo down?" ["skull"] "4"),
                       Returns tt))) <= 1)%nat).
  { intros e. exists "RKLB quote error", "Yahoo down?", ["skull"], "4".
    split; [apply quote_run_ends|]. split; [right; auto|]. split; [reflexivity|].
    apply quote_run_ends. }
  rewrite quote_run_normal_form. cbv zeta.
  destruct (rklb_price.ticker_info w 0%nat) as [info1|e]; [|apply Hfailed].
  destruct (rklb_price.ticker_info w 1%nat) as [info2|e]; [|apply Hfailed].
  destruct (rklb_price.QNone_dec _) as [Hnone|Hsome].
  { exists "RKLB quote error", "Yahoo data error?", ["skull"], "4".
    split; [apply quote_run_ends|]. split; [right; auto|]. split; [reflexivity|].
    apply quote_run_ends. }
  destruct (rklb_price.format_2f _) as [price_text|e]; [|apply Hfailed].
  destruct (rklb_price.format_2f _) as [change_text|e]; [|apply Hfailed].
  destruct (rklb_price.py_gt0 _) as [up|e]; [|apply Hfailed].
  destruct up.
  - eexists "RKLB quote", _, ["arrow_up"], rklb_price.default_priority.
    split; [apply quote_run_ends|]. split; [left; auto|]. split; [reflexivity|].
    apply quote_run_ends.
  - destruct (rklb_price.py_lt0 _) as [down|e]; [|apply Hfailed].
    destruct down.
    + eexists "RKLB quote", _, ["arrow_down"], rklb_price.default_priority.
      split; [apply quote_run_ends|]. split; [left; auto|]. split; [reflexivity|].
      apply quote_run_ends.
    + eexists "RKLB quote", _, ["arrow_up_down"], rklb_price.default_priority.
      split; [apply quote_run_ends|]. split; [left; auto|]. split; [reflexivity|].
      apply quote_run_ends.
Qed.

(** X18. When the quote has a price, both numbers can be formatted and
    the change can be compared with 0, the run logs the quote and ends in
    the quote notification with the message [$price / change%], the
    default priority and one tag: [arrow_up] when the change is above 0,
    [arrow_down] when it is below, [arrow_up_down] otherwise (a change of
    0 and a change that is not a number). *)
Theorem X18_quote_direction :
  forall (lib : Library) (fmt : rklb_price.Formatter)
         (NTFY_USERNAME NTFY_PASSWORD NTFY_HOST NTFY_EOD_TOPIC : option string)
         (w : rklb_price.world) (info1 info2 : list (string * rklb_price.qval))
         (price_text change_text : string) (up down : bool),
    rklb_price.ticker_info w 0%nat = Ok info1 ->
    rklb_price.ticker_info w 1%nat = Ok info2 ->
    rklb_price.info_get info1 "regularMarketPrice" <> rklb_price.QNone ->
    rklb_price.format_2f (rklb_price.info_get info1 "regularMarketPrice")
    = Ok price_text ->
    rklb_price.format_2f (rklb_price.info_get info2 "regularMarketChangePercent")
    = Ok change_text ->
    rklb_price.py_gt0 (rklb_price.info_get info2 "regularMarketChangePercent") = Ok up ->
    rklb_price.py_lt0 (rklb_price.info_get info2 "regularMarketChangePercent") = Ok down ->
    quote_run NTFY_USERNAME NTFY_PASSWORD NTFY_HOST NTFY_EOD_TOPIC w
    = (Log INFO ("RKLB current price: $" +++ price_text +++ " / " +++ change_text +++ "%")
         :: trace_of (quote_notification NTFY_USERNAME NTFY_PASSWORD NTFY_HOST
                        NTFY_EOD_TOPIC w "RKLB quote"
                        ("$" +++ price_text +++ " / " +++ change_text +++ "%")
                        [if up then "arrow_up"
                         else if down then "arrow_down" else "arrow_up_down"]
                        "3"),
       Returns tt).
Proof.
  intros lib fmt NTFY_USERNAME NTFY_PASSWORD NTFY_HOST NTFY_EOD_TOPIC w info1 info2
    price_text change_text up down Hinfo1 Hinfo2 Hprice Hfp Hfc Hgt Hlt.
  rewrite quote_run_normal_form. cbv zeta.
  rewrite Hinfo1, Hinfo2.
  destruct (rklb_price.QNone_dec _) as [Hnone|_]; [contradiction|].
  rewrite Hfp, Hfc, Hgt, Hlt.
  destruct up; [reflexivity|]. destruct down; reflexivity.
Qed.

(** X18 at the quote that has fallen by 1.5 percent. *)
Lemma X18_witness :
  sample_quote_run quote_fallen
  = (Log INFO "RKLB current price: $25.50 / -1.50%"
       :: trace_of (quote_notification (lib := sample_library)
                      (Some "user") (Some "secret") (Some "https://ntfy.example")
                      (Some "eod") (quote_world quote_fallen)
                      "RKLB quote" "$25.50 / -1.50%" ["arrow_down"] "3"),
     Returns tt).
Proof.
  apply (X18_quote_direction sample_library sample_formatter
           (Some "user") (Some "secret") (Some "https://ntfy.example") (Some "eod")
           (quote_world quote_fallen) quote_fallen quote_fallen "25.50" "-1.50"
           false true eq_refl eq_refl).
  - discriminate.
  - reflexivity.
  - reflexivity.
  - reflexivity.
  - reflexivity.
Defined.

(** X19. The first exception of a run of the quote script (the quote
    service failing at either read, a price or a change that cannot be
    formatted, a change that cannot be compared with 0) is logged as the
    error of the main function, and the run ends in the error
    notification [Yahoo down?] of priority 4 tagged [skull]; it returns. *)
Theorem X19_quote_failure_is_notified :
  forall (lib : Library) (fmt : rklb_price.Formatter)
         (NTFY_USERNAME NTFY_PASSWORD NTFY_HOST NTFY_EOD_TOPIC : option string)
         (w : rklb_price.world) (e : error),
    (rklb_price.ticker_info w 0%nat = Raise e
     \/ exists info1,
         rklb_price.ticker_info w 0%nat = Ok info1
         /\ (rklb_price.ticker_info w 1%nat = Raise e
             \/ exists info2,
                 rklb_price.ticker_info w 1%nat = Ok info2
                 /\ rklb_price.info_get info1 "regularMarketPrice" <> rklb_price.QNone
                 /\ (rklb_price.format_2f
                       (rklb_price.info_get info1 "regularMarketPrice") = Raise e
                     \/ exists price_text,
                         rklb_price.format_2f
                           (rklb_price.info_get info1 "regularMarketPrice")
                         = Ok price_text
                         /\ (rklb_price.format_2f
                               (rklb_price.info_get info2 "regularMarketChangePercent")
                             = Raise e
                             \/ exists change_text,
                                 rklb_price.format_2f
                                   (rklb_price.info_get info2
                                      "regularMarketChangePercent")
                                 = Ok change_text
                                 /\ rklb_price.py_gt0
                                      (rklb_price.info_get info2
                                         "regularMarketChangePercent")
                                    = Raise e)))) ->
    quote_run NTFY_USERNAME NTFY_PASSWORD NTFY_HOST NTFY_EOD_TOPIC w
    = (Log ERROR ("Error in main function: " +++ error_str e)
         :: trace_of (quote_notification NTFY_USERNAME NTFY_PASSWORD NTFY_HOST
                        NTFY_EOD_TOPIC w "RKLB quote error" "Yahoo down?" ["skull"] "4"),
       Returns tt).
Proof.
  intros lib fmt NTFY_USERNAME NTFY_PASSWORD NTFY_HOST NTFY_EOD_TOPIC w e Hcase.
  rewrite quote_run_normal_form. cbv zeta.
  destruct Hcase as [->|(info1 & -> & Hcase)]; [reflexivity|].
  destruct Hcase as [->|(info2 & -> & Hprice & Hcase)]; [reflexivity|].
  destruct (rklb_price.QNone_dec _) as [Hnone|_]; [contradiction|].
  destruct Hcase as [->|(price_text & -> & Hcase)]; [reflexivity|].
  destruct Hcase as [->|(change_text & -> & ->)]; reflexivity.
Qed.

(** X19 at the quote with a price and no change. *)
Lemma X19_witness :
  sample_quote_run quote_without_change
  = (Log ERROR ("Error in main function: "
                +++ "unsupported format string passed to NoneType.__format__")
       :: trace_of (quote_notification (lib := sample_library)
                      (Some "user") (Some "secret") (Some "https://ntfy.example")
                      (Some "eod") (quote_world quote_without_change)
                      "RKLB quote error" "Yahoo down?" ["skull"] "4"),
     Returns tt).
Proof.
  apply (X19_quote_failure_is_notified sample_library sample_formatter
           (Some "user") (Some "secret") (Some "https://ntfy.example") (Some "eod")
           (quote_world quote_without_change)
           (TypeError "unsupported format string passed to NoneType.__format__")).
  right. exists quote_without_change. split; [reflexivity|].
  right. exists quote_without_change. split; [reflexivity|].
  split; [discriminate|].
  right. exists "25.50". split; [reflexivity|].
  left. reflexivity.
Defined.

(** X20. Every call of the quote script's [send_notification] first logs
    the username and the password in clear.  It always builds
    credentials, also from unset settings, and sends no request when that
    fails; otherwise it sends exactly one request, to [host/topic] as the
    settings render (without a check that they are set), with the
    credentials, the title, the priority, a [Tags] header that is empty
    without emojis, and the link to the quote page. *)
Theorem X20_quote_notification_logs_credentials :
  forall (lib : Library)
         (NTFY_USERNAME NTFY_PASSWORD NTFY_HOST NTFY_EOD_TOPIC : option string)
         (w : rklb_price.world) (title message : string) (emojis : list string)
         (priority : string),
    (exists rest,
        logs (trace_of (quote_notification NTFY_USERNAME NTFY_PASSWORD NTFY_HOST
                          NTFY_EOD_TOPIC w title message emojis priority))
        = (INFO, "Seeing NTFY auth " +++ str_of_env NTFY_USERNAME
                 +++ "/" +++ str_of_env NTFY_PASSWORD) :: rest)
    /\ posts (trace_of (quote_notification NTFY_USERNAME NTFY_PASSWORD NTFY_HOST
                          NTFY_EOD_TOPIC w title message emojis priority))
       = match BasicAuth NTFY_USERNAME NTFY_PASSWORD with
         | Ok credentials =>
             [ {| url := str_of_env NTFY_HOST +++ "/" +++ str_of_env NTFY_EOD_TOPIC;
                  auth := Some credentials;
                  data := message;
                  headers :=
                    [ ("Title", title);
                      ("Priority", priority);
                      ("Tags", match emojis with [] => "" | _ => join "," emojis end);
                      ("Click", "https://finance.yahoo.com/quote/RKLB/") ] |} ]
         | Raise _ => []
         end.
Proof.
  intros lib NTFY_USERNAME NTFY_PASSWORD NTFY_HOST NTFY_EOD_TOPIC w title message emojis
    priority.
  split; [|apply quote_notification_requests].
  unfold quote_notification, rklb_price.send_notification.
  unfold logger_info at 1. rewrite bind_emit.
  generalize (auth <- lift (BasicAuth NTFY_USERNAME NTFY_PASSWORD) ;;
              logger_info ("Sending notification to " +++ str_of_env NTFY_HOST
                           +++ "/" +++ str_of_env NTFY_EOD_TOPIC) ;;
              emit (HttpPost
                      {| url := str_of_env NTFY_HOST +++ "/" +++ str_of_env NTFY_EOD_TOPIC;
                         auth := Some auth;
                         data := message;
                         headers :=
                           [ ("Title", title);
                             ("Priority", priority);
                             ("Tags", match emojis with
                                      | [] => ""
                                      | _ => join "," emojis
                                      end);
                             ("Click", "https://finance.yahoo.com/quote/RKLB/") ] |}) ;;
              response <- lift (rklb_price.http_post w
                      {| url := str_of_env NTFY_HOST +++ "/" +++ str_of_env NTFY_EOD_TOPIC;
                         auth := Some auth;
                         data := message;
                         headers :=
                           [ ("Title", title);
                             ("Priority", priority);
                             ("Tags", match emojis with
                                      | [] => ""
                                      | _ => join "," emojis
                                      end);
                             ("Click", "https://finance.yahoo.com/quote/RKLB/") ] |}) ;;
              lift (raise_for_status response) ;;
              logger_info ("Notification sent successfully: " +++ text response)).
  intros [t [[]|e|c]]; cbn [trace_of result_of fst snd try_excepts first_clause
                              is_Exception].
  - eexists. reflexivity.
  - unfold logger_error, emit. cbn [logs]. eexists. reflexivity.
  - eexists. reflexivity.
Qed.

(** * What reaches the remote host *)

Lemma connections_app (t1 t2 : list event) :
  connections (t1 ++ t2) = connections t1 ++ connections t2.
Proof.
  induction t1 as [|ev t1 IH]; simpl; [reflexivity|].
  destruct ev; simpl; rewrite IH; reflexivity.
Qed.

Lemma connections_of_logs (t : list event) :
  Forall (fun ev => exists lvl msg, ev = Log lvl msg) t -> connections t = [].
Proof.
  induction 1 as [|ev t (lvl & msg & ->) _ IH]; simpl; auto.
Qed.

Lemma execute_sql_query_ssh (DATABASE_PATH : option string) (w : sensors_check.world)
  (host username : option string) (sql : string) :
  connections (trace_of (sensors_check.execute_sql_query DATABASE_PATH w host username sql))
  = [(host, username)]
  /\ commands (trace_of (sensors_check.execute_sql_query DATABASE_PATH w host username sql))
     = match sensors_check.ssh_connect w host username with
       | Raise _ => []
       | Ok _ => ["sqlite3 -json " +++ str_of_env DATABASE_PATH +++ " "
                  +++ dquote +++ sql +++ dquote]
       end.
Proof.
  unfold sensors_check.execute_sql_query, logger_debug. rewrite bind_emit.
  destruct (sensors_check.ssh_connect w host username) as [[]|e1].
  - rewrite bind_emit, bind_lift_Ok, bind_emit.
    destruct (sensors_check.ssh_run w _) as [stdout|e2]; [split; reflexivity|].
    destruct e2; split; reflexivity.
  - destruct e1; split; reflexivity.
Qed.

Lemma send_notification_no_connection {lib : Library}
  (NTFY_HOST NTFY_SENSOR_TOPIC NTFY_USERNAME NTFY_PASSWORD : option string)
  (w : sensors_check.world) (title message : string) (emojis : list string)
  (priority : string) :
  connections (trace_of (sensors_check.send_notification NTFY_HOST NTFY_SENSOR_TOPIC
                           NTFY_USERNAME NTFY_PASSWORD w title message emojis priority))
  = [].
Proof.
  unfold sensors_check.send_notification.
  destruct (negb (env_truthy NTFY_HOST) || negb (env_truthy NTFY_SENSOR_TOPIC));
    [reflexivity|].
  destruct (env_truthy NTFY_USERNAME && env_truthy NTFY_PASSWORD).
  - destruct (BasicAuth NTFY_USERNAME NTFY_PASSWORD) as [c|e]; [|destruct e; reflexivity].
    cbn. destruct (sensors_check.http_post w _) as [response|e]; [|destruct e; reflexivity].
    cbn. unfold raise_for_status.
    destruct ((200 <=? status_code response) && (status_code response <? 300));
      reflexivity.
  - cbn. destruct (sensors_check.http_post w _) as [response|e]; [|destruct e; reflexivity].
    cbn. unfold raise_for_status.
    destruct ((200 <=? status_code response) && (status_code response <? 300));
      reflexivity.
Qed.

(** X21. A configured run whose clock answers connects exactly once, to
    [SSH_HOST] as [SSH_USERNAME], and, when the connection is accepted,
    runs exactly one command there: [sqlite3 -json] on [DATABASE_PATH]
    with, between double quotes, the query for the records since the
    cutoff that [build_query] formatted.  A configured run whose clock
    fails connects nowhere, logs the unhandled error and exits with
    status 1. *)
Theorem X21_run_queries_the_configured_host :
  forall (lib : Library) (MINUTES_AGO MIN_CHECKINS : Z)
         (NTFY_HOST NTFY_SENSOR_TOPIC NTFY_USERNAME NTFY_PASSWORD : option string)
         (SSH_HOST SSH_USERNAME DATABASE_PATH : option string)
         (w : sensors_check.world),
    configured NTFY_HOST NTFY_SENSOR_TOPIC SSH_HOST SSH_USERNAME DATABASE_PATH = true ->
    (forall cutoff_str since,
        sensors_check.clock_cutoff w MINUTES_AGO = Ok cutoff_str ->
        sensors_check.clock_since w MINUTES_AGO = Ok since ->
        connections (trace_of (sensor_run MINUTES_AGO MIN_CHECKINS NTFY_HOST
                                 NTFY_SENSOR_TOPIC NTFY_USERNAME NTFY_PASSWORD SSH_HOST
                                 SSH_USERNAME DATABASE_PATH w))
        = [(SSH_HOST, SSH_USERNAME)]
        /\ commands (trace_of (sensor_run MINUTES_AGO MIN_CHECKINS NTFY_HOST
                                 NTFY_SENSOR_TOPIC NTFY_USERNAME NTFY_PASSWORD SSH_HOST
                                 SSH_USERNAME DATABASE_PATH w))
           = match sensors_check.ssh_connect w SSH_HOST SSH_USERNAME with
             | Raise _ => []
             | Ok _ =>
                 ["sqlite3 -json " +++ str_of_env DATABASE_PATH +++ " " +++ dquote
                  +++ (newline +++
                       "    SELECT mac, location, timestamp " +++ newline +++
                       "    FROM temp_humidity " +++ newline +++
                       "    WHERE timestamp >= '" +++ cutoff_str +++ "'" +++ newline +++
                       "    ORDER BY mac, timestamp" +++ newline +++
                       "    ")
                  +++ dquote]
             end)
    /\ ((exists e, sensors_check.clock_cutoff w MINUTES_AGO = Raise e)
        \/ (exists e, sensors_check.clock_since w MINUTES_AGO = Raise e) ->
        sensor_run MINUTES_AGO MIN_CHECKINS NTFY_HOST NTFY_SENSOR_TOPIC NTFY_USERNAME
          NTFY_PASSWORD SSH_HOST SSH_USERNAME DATABASE_PATH w
        = ([Log ERROR "An unhandled error occurred during script execution."], Exits 1)).
Proof.
  intros lib MINUTES_AGO MIN_CHECKINS NTFY_HOST NTFY_SENSOR_TOPIC NTFY_USERNAME
    NTFY_PASSWORD SSH_HOST SSH_USERNAME DATABASE_PATH w Hc.
  split.
  - intros cutoff_str since Hcut Hs.
    assert (Hq : sensors_check.build_query MINUTES_AGO w
                 = ret (newline +++
                        "    SELECT mac, location, timestamp " +++ newline +++
                        "    FROM temp_humidity " +++ newline +++
                        "    WHERE timestamp >= '" +++ cutoff_str +++ "'" +++ newline +++
                        "    ORDER BY mac, timestamp" +++ newline +++
                        "    ")).
    { unfold sensors_check.build_query. rewrite Hcut, bind_lift_Ok. reflexivity. }
    rewrite (sensor_run_normal_form MINUTES_AGO MIN_CHECKINS NTFY_HOST NTFY_SENSOR_TOPIC
               NTFY_USERNAME NTFY_PASSWORD SSH_HOST SSH_USERNAME DATABASE_PATH w _ since
               Hc Hq Hs).
    cbv zeta.
    destruct (execute_sql_query_ssh DATABASE_PATH w SSH_HOST SSH_USERNAME
                (newline +++
                 "    SELECT mac, location, timestamp " +++ newline +++
                 "    FROM temp_humidity " +++ newline +++
                 "    WHERE timestamp >= '" +++ cutoff_str +++ "'" +++ newline +++
                 "    ORDER BY mac, timestamp" +++ newline +++
                 "    ")) as [Hfc Hfm].
    set (fetch := sensors_check.execute_sql_query DATABASE_PATH w SSH_HOST SSH_USERNAME _)
      in *.
    clearbody fetch. rewrite <- Hfm. clear Hfm.
    destruct (result_of fetch) as [stdout|e|c].
    + destruct (strip stdout =? "")%string.
      * match goal with
        | |- context [sensors_check.send_notification ?h ?t ?u ?p ?x ?ti ?m ?em ?pr] =>
            pose proof (send_notification_no_connection h t u p x ti m em pr) as Hnc;
            destruct (send_notification_no_ssh h t u p x ti m em pr) as [_ Hnm];
            set (notifying :=
                   trace_of (sensors_check.send_notification h t u p x ti m em pr)) in *;
            clearbody notifying
        end.
        cbn [trace_of fst].
        repeat (rewrite ?connections_app, ?commands_app;
                cbn [connections commands app]).
        rewrite Hfc, Hnc, Hnm, !app_nil_r. split; reflexivity.
      * pose proof (analyze_sensor_data_logs MIN_CHECKINS stdout) as Hlogs.
        pose proof (connections_of_logs _ Hlogs) as Hac.
        pose proof (commands_of_logs _ Hlogs) as Ham.
        destruct (result_of (sensors_check.analyze_sensor_data MIN_CHECKINS stdout))
          as [[|entry rest]|e|c].
        -- cbn [trace_of fst].
           repeat (rewrite ?connections_app, ?commands_app;
                   cbn [connections commands app]).
           rewrite Hfc, Hac, Ham, ?app_nil_r. split; reflexivity.
        -- match goal with
           | |- context [sensors_check.send_notification ?h ?t ?u ?p ?x ?ti ?m ?em ?pr] =>
               pose proof (send_notification_no_connection h t u p x ti m em pr) as Hnc;
               destruct (send_notification_no_ssh h t u p x ti m em pr) as [_ Hnm];
               set (notifying :=
                      trace_of (sensors_check.send_notification h t u p x ti m em pr)) in *;
               clearbody notifying
           end.
           cbn [trace_of fst].
           repeat (rewrite ?connections_app, ?commands_app;
                   cbn [connections commands app]).
           rewrite Hfc, Hac, Ham, Hnc, Hnm, ?app_nil_r. split; reflexivity.
        -- cbn [trace_of fst].
           repeat (rewrite ?connections_app, ?commands_app;
                   cbn [connections commands app]).
           rewrite Hfc, Hac, Ham, ?app_nil_r. split; reflexivity.
        -- cbn [trace_of fst].
           repeat (rewrite ?connections_app, ?commands_app;
                   cbn [connections commands app]).
           rewrite Hfc, Hac, Ham, ?app_nil_r. split; reflexivity.
    + cbn [trace_of fst].
      repeat (rewrite ?connections_app, ?commands_app; cbn [connections commands app]).
      rewrite Hfc, ?app_nil_r. split; reflexivity.
    + cbn [trace_of fst]. cbn [connections commands].
      rewrite Hfc. split; reflexivity.
  - intros Hfail. apply sensor_run_clock_fails; [exact Hc|].
    destruct Hfail as [[e Hcut]|Hs]; [left|right; exact Hs].
    exists e. unfold sensors_check.build_query. rewrite Hcut. reflexivity.
Qed.

(** X21 at the sample world whose remote host answers one record. *)
Lemma X21_witness :
  connections (trace_of (sample_run (online_world doc_single)))
  = [(Some "db.example", Some "pi")]
  /\ commands (trace_of (sample_run (online_world doc_single)))
     = ["sqlite3 -json /data/sensors.db " +++ dquote +++ newline +++
        "    SELECT mac, location, timestamp " +++ newline +++
        "    FROM temp_humidity " +++ newline +++
        "    WHERE timestamp >= '2025-06-30 00:50:00'" +++ newline +++
        "    ORDER BY mac, timestamp" +++ newline +++
        "    " +++ dquote].
Proof.
  exact (proj1 (X21_run_queries_the_configured_host sample_library 45 2
                  (Some "https://ntfy.example") (Some "sensors") None None
                  (Some "db.example") (Some "pi") (Some "/data/sensors.db")
                  (online_world doc_single) eq_refl)
           "2025-06-30 00:50:00" "2025-06-30 00:50:00.000000+00:00" eq_refl eq_refl).
Defined.
